(** * The timer service of the Odoo timesheet extension

    A shallow embedding of [src/services/timerService.ts] and of the
    parts of [src/odoo/timesheet.ts] it calls.

    - JavaScript numbers that measure time (epoch milliseconds, elapsed
      seconds, hours) are IEEE 754 binary64 values: Rocq's primitive
      [float], with the language's own operators.
    - Record identifiers (entry, project, task, user) are integers.
    - The service object is a record of its four mutable fields; the
      collaborators it calls (the Odoo client, the clock) answer
      through an environment [Env] that fixes, for one operation, what
      each remote call returns or throws.
    - Every observable effect (remote call, workspace-storage write,
      message shown, observer invoked) is appended to a trace.
    - An observer is handed the state object of the service itself; a
      callback is given by what it does to the object it is handed, and
      that is done to the state of the service.
    - An operation runs to completion before the next one starts.
      [saveState] and [clearState] are called without [await]: their
      first write is made at the call, and the writes after their first
      [await] are made once the caller has run to its end; they are
      complete when the next operation starts. Where a later operation
      reads these writes, the schedule is made explicit instead:
      [startTimer_resolved] is [startTimer] as far as its promise
      resolves, [saveState_resume_upto] makes the writes that follow,
      one by one, and [write_all] applies writes in any given order.

    The credentials storage ([src/services/storageService.ts]), the
    client ([src/odoo/client.ts]) and the login ([src/odoo/auth.ts]) are
    embedded on their own, as functions on the secret storage and on
    the record of the client's fields, the server answering each POST
    through a [Response]; calls to the secret storage are taken to
    succeed. Of [src/extension.ts], [deactivate] and the part of
    [restoreAuth] that restores the timer are embedded over the
    service. *)

From Stdlib Require Import ZArith Floats Bool List.
From stdpp Require Import gmap strings.
Import ListNotations.

Set Warnings "-inexact-float".

(** ** JavaScript numbers and dates *)

Definition number := float.
Bind Scope float_scope with number.

(** [ToBoolean] on a number: [0], [-0] and [NaN] are falsy. *)
Definition truthy (x : number) : bool := negb (is_zero x || is_nan x).

(** [x || 0] on a number. *)
Definition or_zero (x : number) : number := if truthy x then x else 0%float.

(** [x || 0] where [x] may also be [undefined]. *)
Definition opt_or_zero (x : option number) : number :=
  match x with
  | Some v => or_zero v
  | None => 0%float
  end.

(** Truncation towards zero of a finite number. *)
Definition trunc (t : number) : number :=
  match Prim2SF t with
  | S754_finite s m e =>
      let z := (if 0 <=? e then Z.pos m * 2 ^ e else Z.pos m / 2 ^ (- e))%Z in
      let f := of_uint63 (Uint63.of_Z z) in
      if s then (- f)%float else f
  | _ => t
  end.

(** [TimeClip] of ECMA-262: a time value is a whole number of
    milliseconds of magnitude at most 8.64e15, or [NaN]. *)
Definition TimeClip (t : number) : number :=
  if is_finite t && (abs t <=? 8.64e15)%float
  then (trunc t + 0)%float
  else nan.

(** A [Date] object holds a time value. *)
Record Date := mkDate { getTime : number }.

(** [new Date(value)] *)
Definition new_Date (value : number) : Date := mkDate (TimeClip value).

(** Truthiness of an identifier that may be [undefined] or [null]. *)
Definition truthy_id (i : option Z) : bool :=
  match i with
  | Some z => negb (z =? 0)%Z
  | None => false
  end.

(** [s || d] on a string that may be [undefined]. *)
Definition str_or (s : option string) (d : string) : string :=
  match s with
  | Some EmptyString | None => d
  | Some v => v
  end.

(** ** Timesheet entries ([src/odoo/timesheet.ts]) *)

Module TimesheetEntry.
(** [running_seconds] is the extra property [getRunningTimer] adds to
    the entry it returns. *)
Record t := mk {
  id : option Z;
  name : string;
  date : string;
  unit_amount : number;
  project_id : option Z;
  task_id : option Z;
  employee_id : option Z;
  account_id : option Z;
  user_id : option Z;
  running_seconds : option number;
}.
End TimesheetEntry.

(** A record as [client.read] returns it; a many2one field is given by
    the identifier at index 0 of its pair, when there is one. *)
Module RawEntry.
Record t := mk {
  id : option Z;
  name : option string;
  date : option string;
  unit_amount : option number;
  project_id : option Z;
  task_id : option Z;
  employee_id : option Z;
  account_id : option Z;
  user_id : option Z;
}.
End RawEntry.

(** The object [get_running_timer] answers with. *)
Module RawTimer.
Record t := mk {
  id : option Z;
  start : option number;
  project_id : option Z;
  task_id : option Z;
}.
End RawTimer.

(** ** The timer state ([src/services/timerService.ts]) *)

Record TimerState := mkTimerState {
  isRunning : bool;
  startTime : option Date;
  entryId : option Z;
  entry : option TimesheetEntry.t;
}.

Definition stopped : TimerState := mkTimerState false None None None.

(** An observer's callback receives the very object [this.state] refers
    to: what the callback does to its argument is done to the service's
    state. A callback is given by that effect; a callback that only
    reads its argument is the identity. *)
Definition Callback := TimerState -> TimerState.

Definition passive (cb : Callback) : Prop := forall s, cb s = s.

(** ** Effects *)

(** A value kept in [context.workspaceState]. *)
Inductive Value :=
| VId (z : Z)
| VNum (x : number)
| VStr (s : string).

(** The values a new entry is created with. *)
Record CreateValues := mkCreateValues {
  cv_name : string;
  cv_date : string;
  cv_unit_amount : number;
  cv_project_id : option Z;
  cv_task_id : option Z;
  cv_employee_id : option Z;
  cv_account_id : option Z;
  cv_user_id : option Z;
}.

Inductive Call :=
| Create (values : CreateValues)
| ActionTimerStart (timesheetId : Z)
| ActionTimerStop (timesheetId : Z) (try_to_match : bool)
| Read (id : Z)
| GetRunningTimer.

(** The information message of [stopTimer]: the entry name, the
    duration the server recorded and, when the note is appended, the
    locally measured hours it quotes. *)
Record StopMessage := mkStopMessage {
  sm_entryName : string;
  sm_duration : number;
  sm_note : option number;
}.

Inductive Event :=
| Called (c : Call)
| Stored (key : string) (v : option Value)
| Notified (observer : nat) (s : TimerState)
| ShowWarning (msg : string)
| ShowError (msg : string)
| ShowInformation (msg : StopMessage)
| ConsoleError (label msg : string).

(** ** The service object and the machine it runs on *)

Record TimerService := mkTimerService {
  state : TimerState;
  updateCallbacks : list Callback;
  intervalId : option nat;
  context : option (gmap string Value);
}.

(** [timers] is the runtime's table of scheduled intervals,
    [next_timer] the next handle [setInterval] hands out. *)
Record Machine := mkMachine {
  this : TimerService;
  timers : list nat;
  next_timer : nat;
  trace : list Event;
}.

Definition set_state (s : TimerState) (m : Machine) : Machine :=
  mkMachine
    (mkTimerService s (updateCallbacks (this m)) (intervalId (this m))
       (context (this m)))
    (timers m) (next_timer m) (trace m).

Definition set_updateCallbacks (l : list Callback) (m : Machine) : Machine :=
  mkMachine
    (mkTimerService (state (this m)) l (intervalId (this m)) (context (this m)))
    (timers m) (next_timer m) (trace m).

Definition set_context (c : option (gmap string Value)) (m : Machine) : Machine :=
  mkMachine
    (mkTimerService (state (this m)) (updateCallbacks (this m))
       (intervalId (this m)) c)
    (timers m) (next_timer m) (trace m).

Definition emit (e : Event) (m : Machine) : Machine :=
  mkMachine (this m) (timers m) (next_timer m) (trace m ++ [e]).

(** [setInterval]: a fresh handle is scheduled and kept in [intervalId]. *)
Definition setInterval (m : Machine) : Machine :=
  mkMachine
    (mkTimerService (state (this m)) (updateCallbacks (this m))
       (Some (next_timer m)) (context (this m)))
    (next_timer m :: timers m) (S (next_timer m)) (trace m).

Definition remove_timer (h : nat) (l : list nat) : list nat :=
  filter (fun x => x ≠ h) l.

(** [clearInterval(this.intervalId); this.intervalId = null] *)
Definition clearInterval (h : nat) (m : Machine) : Machine :=
  mkMachine
    (mkTimerService (state (this m)) (updateCallbacks (this m)) None
       (context (this m)))
    (remove_timer h (timers m)) (next_timer m) (trace m).

(** ** Operations that may throw *)

Inductive Outcome (A : Type) :=
| Returned (a : A)
| Thrown (msg : string).
Arguments Returned {A} a.
Arguments Thrown {A} msg.

Definition M (A : Type) : Type := Machine -> Outcome A * Machine.

Definition ret {A} (a : A) : M A := fun m => (Returned a, m).
Definition throw {A} (msg : string) : M A := fun m => (Thrown msg, m).
Definition bind {A B} (c : M A) (k : A -> M B) : M B :=
  fun m =>
    match c m with
    | (Returned a, m') => k a m'
    | (Thrown msg, m') => (Thrown msg, m')
    end.
Definition do {A} (f : Machine -> Machine) (a : A) : M A :=
  fun m => (Returned a, f m).

(** [try { body } catch (error) { handler(error.message) }]: what the
    body did before it threw stays done. *)
Definition try_catch {A} (body : M A) (handler : string -> M A) : M A :=
  fun m =>
    match body m with
    | (Returned a, m') => (Returned a, m')
    | (Thrown msg, m') => handler msg m'
    end.

Notation "'let*' x ':=' c 'in' k" := (bind c (fun x => k))
  (at level 10, x name, c at level 100, k at level 200, only parsing).
Notation "c '>>' k" := (bind c (fun _ => k))
  (at level 100, k at level 200, only parsing).


(** ** The collaborators' answers

    One environment per operation: the clock reading, the client's
    session and, for each remote procedure, what the call returns or
    the message of the error it throws. *)

Inductive Reply (A : Type) :=
| Answer (a : A)
| Failure (msg : string).
Arguments Answer {A} a.
Arguments Failure {A} msg.

Record Env := mkEnv {
  Date_now : number;
  today : string;
  session_uid : option Z;
  create_reply : Reply Z;
  action_timer_start_reply : Reply bool;
  action_timer_stop_reply : Reply bool;
  read_reply : Reply (list RawEntry.t);
  get_running_timer_reply : Reply (option RawTimer.t);
}.

(** [client.executeKw]: the call is made, and returns or throws. *)
Definition executeKw {A} (c : Call) (r : Reply A) : M A :=
  fun m =>
    match r with
    | Answer a => (Returned a, emit (Called c) m)
    | Failure msg => (Thrown msg, emit (Called c) m)
    end.

(** ** [OdooTimesheet] ([src/odoo/timesheet.ts]) *)

Module OdooTimesheet.

(** [if (entry.f) values.f = entry.f] *)
Definition keep_truthy (i : option Z) : option Z :=
  if truthy_id i then i else None.

Definition createTimesheetEntry (env : Env) (e : TimesheetEntry.t) : M Z :=
  executeKw
    (Create
       (mkCreateValues (TimesheetEntry.name e) (TimesheetEntry.date e)
          (TimesheetEntry.unit_amount e)
          (keep_truthy (TimesheetEntry.project_id e))
          (keep_truthy (TimesheetEntry.task_id e))
          (keep_truthy (TimesheetEntry.employee_id e))
          (keep_truthy (TimesheetEntry.account_id e))
          (keep_truthy (TimesheetEntry.user_id e))))
    (create_reply env).

Definition mapToTimesheetEntry (env : Env) (e : RawEntry.t) : TimesheetEntry.t :=
  TimesheetEntry.mk
    (RawEntry.id e)
    (str_or (RawEntry.name e) EmptyString)
    (str_or (RawEntry.date e) (today env))
    (opt_or_zero (RawEntry.unit_amount e))
    (RawEntry.project_id e)
    (RawEntry.task_id e)
    (RawEntry.employee_id e)
    (RawEntry.account_id e)
    (RawEntry.user_id e)
    None.

Definition getTimesheetEntry (env : Env) (id : Z) : M (option TimesheetEntry.t) :=
  let* entries := executeKw (Read id) (read_reply env) in
  match entries with
  | [] => ret None
  | e :: _ => ret (Some (mapToTimesheetEntry env e))
  end.

Definition getRunningTimer (env : Env) : M (option TimesheetEntry.t) :=
  let* result := executeKw GetRunningTimer (get_running_timer_reply env) in
  match result with
  | None => ret None
  | Some r =>
      match RawTimer.id r with
      | Some id =>
          if negb (id =? 0)%Z then
            let* entry := getTimesheetEntry env id in
            match entry with
            | Some e =>
                ret (Some
                  (TimesheetEntry.mk
                     (TimesheetEntry.id e)
                     (TimesheetEntry.name e)
                     (TimesheetEntry.date e)
                     (TimesheetEntry.unit_amount e)
                     (RawTimer.project_id r)
                     (RawTimer.task_id r)
                     (TimesheetEntry.employee_id e)
                     (TimesheetEntry.account_id e)
                     (TimesheetEntry.user_id e)
                     (Some (opt_or_zero (RawTimer.start r)))))
            | None => ret None
            end
          else ret None
      | None => ret None
      end
  end.

Definition startTimer (env : Env) (timesheetId : Z) : M bool :=
  executeKw (ActionTimerStart timesheetId) (action_timer_start_reply env).

Definition stopTimer (env : Env) (timesheetId : Z) (tryToMatch : bool) : M bool :=
  executeKw (ActionTimerStop timesheetId tryToMatch)
    (action_timer_stop_reply env).

End OdooTimesheet.

(** ** [TimerService] ([src/services/timerService.ts]) *)

(** [new TimerService(timesheet, client, context)] on a runtime with no
    interval scheduled; [ws] is the content of the workspace storage of
    the extension context, when a context is passed. *)
Definition constructor (ws : option (gmap string Value)) : Machine :=
  mkMachine (mkTimerService stopped [] None ws) [] 0 [].

Definition onStateUpdate (callback : Callback) (m : Machine) : Machine :=
  set_updateCallbacks (updateCallbacks (this m) ++ [callback]) m.

(** [callbacks.forEach(callback => callback(this.state))], from the
    callback of index [i] on. *)
Fixpoint forEach (callbacks : list Callback) (i : nat) (m : Machine) : Machine :=
  match callbacks with
  | [] => m
  | callback :: rest =>
      forEach rest (S i)
        (set_state (callback (state (this m)))
           (emit (Notified i (state (this m))) m))
  end.

Definition notifyStateUpdate (m : Machine) : Machine :=
  forEach (updateCallbacks (this m)) 0 m.

(** [getState] returns a new object with the fields of [this.state]. *)
Definition getState (m : Machine) : TimerState :=
  mkTimerState (isRunning (state (this m))) (startTime (state (this m)))
    (entryId (state (this m))) (entry (state (this m))).

Definition stopUpdateInterval (m : Machine) : Machine :=
  match intervalId (this m) with
  | Some h => clearInterval h m
  | None => m
  end.

Definition startUpdateInterval (m : Machine) : Machine :=
  let m1 := stopUpdateInterval m in
  if isRunning (state (this m1)) then setInterval m1 else m1.

(** The function [startUpdateInterval] schedules. *)
Definition interval_callback (m : Machine) : Machine :=
  match isRunning (state (this m)), startTime (state (this m)) with
  | true, Some _ => notifyStateUpdate m
  | _, _ => stopUpdateInterval m
  end.

(** One second passes for the scheduled interval [h]. *)
Definition tick (h : nat) (m : Machine) : Machine :=
  if decide (h ∈ timers m) then interval_callback m else m.

(** [context.workspaceState.update(key, value)]; [undefined] removes
    the key, and so does [null] here (a key holding [null] reads back as
    a falsy value, like a key that is absent). *)
Definition put (key : string) (v : option Value) (ws : gmap string Value)
    : gmap string Value :=
  match v with
  | Some x => <[key := x]> ws
  | None => delete key ws
  end.

Definition workspaceState_update (key : string) (v : option Value)
    (m : Machine) : Machine :=
  match context (this m) with
  | Some ws => emit (Stored key v) (set_context (Some (put key v ws)) m)
  | None => m
  end.

(** [await context.workspaceState.update(key, f(this.state))] *)
Definition save_field (key : string) (f : TimerState -> option Value)
    (m : Machine) : Machine :=
  workspaceState_update key (f (state (this m))) m.

(** [saveState] as far as its first [await]: the write of the entry
    identifier. *)
Definition saveState_begin (m : Machine) : Machine :=
  match context (this m) with
  | None => m
  | Some _ => save_field "timer_entryId" (fun s => VId <$> entryId s) m
  end.

(** [saveState] from its first [await] on; each write reads
    [this.state] when it is made. *)
Definition saveState_resume (m : Machine) : Machine :=
  match context (this m) with
  | None => m
  | Some _ =>
      save_field "timer_description"
        (fun s => VStr <$> (TimesheetEntry.name <$> entry s))
        (save_field "timer_taskId"
           (fun s => VId <$> (entry s ≫= TimesheetEntry.task_id))
           (save_field "timer_projectId"
              (fun s => VId <$> (entry s ≫= TimesheetEntry.project_id))
              (save_field "timer_startTime"
                 (fun s => VNum <$> (getTime <$> startTime s)) m)))
  end.

(** [saveState] run to its end. *)
Definition saveState (m : Machine) : Machine :=
  saveState_resume (saveState_begin m).

Definition clearState_begin (m : Machine) : Machine :=
  match context (this m) with
  | None => m
  | Some _ => workspaceState_update "timer_entryId" None m
  end.

Definition clearState_resume (m : Machine) : Machine :=
  match context (this m) with
  | None => m
  | Some _ =>
      workspaceState_update "timer_description" None
        (workspaceState_update "timer_taskId" None
           (workspaceState_update "timer_projectId" None
              (workspaceState_update "timer_startTime" None m)))
  end.

(** [clearState] run to its end. *)
Definition clearState (m : Machine) : Machine :=
  clearState_resume (clearState_begin m).

(** [this.saveState(); rest] and [this.clearState(); rest], where [rest]
    is what the caller does until it returns: the call runs as far as
    its first [await], then [rest], then what is left of the call. The
    machine is the one reached when these last writes, which the code
    makes after the caller has returned, are made too: the whole effect
    of the operation. *)
Definition saveState_then (rest : Machine -> Machine) (m : Machine) : Machine :=
  saveState_resume (rest (saveState_begin m)).

Definition clearState_then (rest : Machine -> Machine) (m : Machine) : Machine :=
  clearState_resume (rest (clearState_begin m)).

(** The writes [saveState] makes after its first [await], in order: the
    key, and the value read from [this.state] when the write is made. *)
Definition saveState_later : list (string * (TimerState -> option Value)) :=
  [("timer_startTime", fun s => VNum <$> (getTime <$> startTime s));
   ("timer_projectId", fun s => VId <$> (entry s ≫= TimesheetEntry.project_id));
   ("timer_taskId", fun s => VId <$> (entry s ≫= TimesheetEntry.task_id));
   ("timer_description", fun s => VStr <$> (TimesheetEntry.name <$> entry s))].

(** [saveState] from its first [await] on, as far as [k] more writes. *)
Definition saveState_resume_upto (k : nat) (m : Machine) : Machine :=
  match context (this m) with
  | None => m
  | Some _ =>
      fold_left (fun m w => save_field (fst w) (snd w) m)
        (take k saveState_later) m
  end.

Definition getElapsedHours (env : Env) (m : Machine) : number :=
  match isRunning (state (this m)), startTime (state (this m)) with
  | true, Some st => ((Date_now env - getTime st) / (1000 * 60 * 60))%float
  | _, _ => 0%float
  end.

Definition startTimer (env : Env) (name : string) (projectId taskId : option Z)
    : M bool :=
  fun m =>
    if isRunning (state (this m)) then
      (Returned false, emit (ShowWarning "Timer is already running") m)
    else
      try_catch
        (let* uid :=
           match session_uid env with
           | Some uid => ret uid
           | None => throw "Not authenticated"
           end in
         let entry :=
           TimesheetEntry.mk None name (today env) 0%float projectId taskId
             None None (Some uid) None in
         let* entryId := OdooTimesheet.createTimesheetEntry env entry in
         OdooTimesheet.startTimer env entryId >>
         do (fun m =>
               saveState_then
                 (fun m => notifyStateUpdate (startUpdateInterval m))
                 (set_state
                    (mkTimerState true (Some (mkDate (Date_now env)))
                       (Some entryId)
                       (Some
                          (TimesheetEntry.mk (Some entryId) name (today env)
                             0%float projectId taskId None None (Some uid)
                             None)))
                    m))
            true)
        (fun msg =>
           do (emit (ShowError ("Failed to start timer: " ++ msg))) false)
        m.

(** [startTimer] as far as its promise resolves: [saveState], called
    without [await], has made its first write; the writes after its
    first [await] are still to come. *)
Definition startTimer_resolved (env : Env) (name : string)
    (projectId taskId : option Z) : M bool :=
  fun m =>
    if isRunning (state (this m)) then
      (Returned false, emit (ShowWarning "Timer is already running") m)
    else
      try_catch
        (let* uid :=
           match session_uid env with
           | Some uid => ret uid
           | None => throw "Not authenticated"
           end in
         let entry :=
           TimesheetEntry.mk None name (today env) 0%float projectId taskId
             None None (Some uid) None in
         let* entryId := OdooTimesheet.createTimesheetEntry env entry in
         OdooTimesheet.startTimer env entryId >>
         do (fun m =>
               notifyStateUpdate
                 (startUpdateInterval
                    (saveState_begin
                       (set_state
                          (mkTimerState true (Some (mkDate (Date_now env)))
                             (Some entryId)
                             (Some
                                (TimesheetEntry.mk (Some entryId) name
                                   (today env) 0%float projectId taskId None
                                   None (Some uid) None)))
                          m))))
            true)
        (fun msg =>
           do (emit (ShowError ("Failed to start timer: " ++ msg))) false)
        m.

(** The note is appended when both durations are positive and differ by
    more than 0.1 hour. *)
Definition discrepancy_note (duration actualElapsed : number) : option number :=
  if (0 <? duration)%float && (0 <? actualElapsed)%float
     && (0.1 <? abs (duration - actualElapsed))%float
  then Some actualElapsed
  else None.

Definition stopTimer (env : Env) : M bool :=
  fun m =>
    match entryId (state (this m)) with
    | Some id =>
        if isRunning (state (this m)) && negb (id =? 0)%Z then
          try_catch
            (OdooTimesheet.stopTimer env id false >>
             let* updatedEntry := OdooTimesheet.getTimesheetEntry env id in
             let duration :=
               opt_or_zero (TimesheetEntry.unit_amount <$> updatedEntry) in
             do (fun m =>
                   let actualElapsed := getElapsedHours env m in
                   let entryName :=
                     str_or (TimesheetEntry.name <$> entry (state (this m)))
                       "Timer" in
                   clearState_then
                     (fun m => notifyStateUpdate (stopUpdateInterval m))
                     (set_state stopped
                        (emit
                           (ShowInformation
                              (mkStopMessage entryName duration
                                 (discrepancy_note duration actualElapsed)))
                           m)))
                true)
            (fun msg =>
               do (emit (ShowError ("Failed to stop timer: " ++ msg))) false)
            m
        else (Returned false, emit (ShowWarning "No timer is running") m)
    | None => (Returned false, emit (ShowWarning "No timer is running") m)
    end.

(** The branch of [refreshState] for "no running timer". *)
Definition refresh_cleared (m : Machine) : Machine :=
  if isRunning (state (this m)) then
    clearState_then (fun m => notifyStateUpdate (stopUpdateInterval m))
      (set_state stopped m)
  else m.

(** The start time [refreshState] derives from the running timer. *)
Definition refresh_startTime (env : Env) (runningTimer : TimesheetEntry.t) : Date :=
  let runningSeconds := opt_or_zero (TimesheetEntry.running_seconds runningTimer) in
  let currentSeconds :=
    if truthy (TimesheetEntry.unit_amount runningTimer)
    then (TimesheetEntry.unit_amount runningTimer * 3600)%float
    else 0%float in
  let elapsedSeconds := (runningSeconds - currentSeconds)%float in
  new_Date (Date_now env - elapsedSeconds * 1000)%float.

Definition refreshState (env : Env) : M unit :=
  try_catch
    (do stopUpdateInterval tt >>
     let* runningTimer := OdooTimesheet.getRunningTimer env in
     match runningTimer with
     | Some rt =>
         if truthy_id (TimesheetEntry.id rt) then
           do (fun m =>
                 saveState_then
                   (fun m => notifyStateUpdate (startUpdateInterval m))
                   (set_state
                      (mkTimerState true (Some (refresh_startTime env rt))
                         (TimesheetEntry.id rt) (Some rt))
                      m))
              tt
         else do refresh_cleared tt
     | None => do refresh_cleared tt
     end)
    (fun msg =>
       do (fun m =>
             stopUpdateInterval
               (emit (ConsoleError "Failed to refresh timer state:" msg) m))
          tt).

(** [workspaceState.get<T>(key)] *)
Definition get_id (ws : gmap string Value) (key : string) : option Z :=
  match ws !! key with
  | Some (VId z) => Some z
  | _ => None
  end.

Definition get_num (ws : gmap string Value) (key : string) : option number :=
  match ws !! key with
  | Some (VNum x) => Some x
  | _ => None
  end.

Definition get_str (ws : gmap string Value) (key : string) : option string :=
  match ws !! key with
  | Some (VStr s) => Some s
  | _ => None
  end.

(** [a === b] on identifiers that may be [undefined]. *)
Definition strict_eq_id (a b : option Z) : bool :=
  match a, b with
  | Some x, Some y => (x =? y)%Z
  | None, None => true
  | _, _ => false
  end.

Definition loadState (env : Env) : M bool :=
  fun m =>
    match context (this m) with
    | None => (Returned false, m)
    | Some ws =>
        let entryId := get_id ws "timer_entryId" in
        let startTimeMs := get_num ws "timer_startTime" in
        let projectId := get_id ws "timer_projectId" in
        let taskId := get_id ws "timer_taskId" in
        let description := get_str ws "timer_description" in
        match startTimeMs with
        | Some ms =>
            if truthy_id entryId && truthy ms then
              try_catch
                (let* runningTimer := OdooTimesheet.getRunningTimer env in
                 match runningTimer with
                 | Some rt =>
                     if strict_eq_id (TimesheetEntry.id rt) entryId then
                       do (fun m =>
                             notifyStateUpdate
                               (startUpdateInterval
                                  (set_state
                                     (mkTimerState true (Some (new_Date ms))
                                        entryId
                                        (Some
                                           (TimesheetEntry.mk entryId
                                              (str_or description EmptyString)
                                              (today env) 0%float projectId
                                              taskId None None None None)))
                                     m)))
                          true
                     else ret false
                 | None => ret false
                 end)
                (fun _ => do clearState false)
                m
            else (Returned false, m)
        | None => (Returned false, m)
        end
    end.

Definition dispose (m : Machine) : Machine :=
  set_updateCallbacks [] (stopUpdateInterval m).

(** ** Sequences of operations *)

Inductive Op :=
| Subscribe (callback : Callback)
| StartTimer (env : Env) (name : string) (projectId taskId : option Z)
| StopTimer (env : Env)
| RefreshState (env : Env)
| LoadState (env : Env)
| Tick (h : nat)
| Dispose.

Definition perform (o : Op) (m : Machine) : Machine :=
  match o with
  | Subscribe callback => onStateUpdate callback m
  | StartTimer env name projectId taskId => snd (startTimer env name projectId taskId m)
  | StopTimer env => snd (stopTimer env m)
  | RefreshState env => snd (refreshState env m)
  | LoadState env => snd (loadState env m)
  | Tick h => tick h m
  | Dispose => dispose m
  end.

Definition run (ops : list Op) (m : Machine) : Machine :=
  fold_left (fun m o => perform o m) ops m.

(** The observers of the repository (status bar, tree view, panel)
    read the state they are handed and do not assign to it. *)
Definition well_behaved (o : Op) : Prop :=
  match o with
  | Subscribe callback => passive callback
  | _ => True
  end.

(** ** Vocabulary of the statements *)

(** The invariant of the data model. *)
Definition consistent (s : TimerState) : Prop :=
  (isRunning s = true <-> startTime s <> None /\ entryId s <> None)
  /\ (isRunning s = false ->
      startTime s = None /\ entryId s = None /\ entry s = None).

(** A state as the operations install it: the stopped state, or a
    running one with its start time and entry identifier. *)
Definition installed (s : TimerState) : Prop :=
  s = stopped
  \/ (isRunning s = true /\ startTime s <> None /\ entryId s <> None).

(** A machine whose observers only read and whose state is installed. *)
Definition settled (m : Machine) : Prop :=
  Forall passive (updateCallbacks (this m)) /\ installed (state (this m)).

(** The interval the service holds is the only one scheduled. *)
Definition timers_ok (m : Machine) : Prop :=
  timers m = match intervalId (this m) with
             | Some h => [h]
             | None => []
             end.

Definition add_events (evs : list Event) (m : Machine) : Machine :=
  mkMachine (this m) (timers m) (next_timer m) (trace m ++ evs).

(** What the running-timer query answers under [env], and the remote
    calls it makes. *)
Definition running_timer_query (env : Env) : Outcome (option TimesheetEntry.t) :=
  fst (OdooTimesheet.getRunningTimer env (constructor None)).

Definition running_timer_calls (env : Env) : list Event :=
  trace (snd (OdooTimesheet.getRunningTimer env (constructor None))).

(** The events of one fan-out of state [s] to [n] observers, from
    index [i] on. *)
Definition notifications (i n : nat) (s : TimerState) : list Event :=
  map (fun k => Notified k s) (seq i n).

(** The workspace storage after the writes [saveState] makes from its
    first [await] on, in state [s], and after all its writes; the same
    for [clearState]. *)
Definition saved_rest (s : TimerState) (ws : gmap string Value)
    : gmap string Value :=
  put "timer_description" (VStr <$> (TimesheetEntry.name <$> entry s))
    (put "timer_taskId" (VId <$> (entry s ≫= TimesheetEntry.task_id))
       (put "timer_projectId" (VId <$> (entry s ≫= TimesheetEntry.project_id))
          (put "timer_startTime" (VNum <$> (getTime <$> startTime s)) ws))).

Definition saved (s : TimerState) (ws : gmap string Value) : gmap string Value :=
  saved_rest s (put "timer_entryId" (VId <$> entryId s) ws).

Definition cleared_rest (ws : gmap string Value) : gmap string Value :=
  put "timer_description" None
    (put "timer_taskId" None
       (put "timer_projectId" None (put "timer_startTime" None ws))).

Definition cleared (ws : gmap string Value) : gmap string Value :=
  cleared_rest (put "timer_entryId" None ws).

(** The values [startTimer] creates the entry with, and the state it
    installs once the entry [entryId] is created and its timer started. *)
Definition start_values (env : Env) (name : string) (projectId taskId : option Z)
    (uid : Z) : CreateValues :=
  mkCreateValues name (today env) 0%float
    (OdooTimesheet.keep_truthy projectId) (OdooTimesheet.keep_truthy taskId)
    None None (OdooTimesheet.keep_truthy (Some uid)).

Definition started (env : Env) (name : string) (projectId taskId : option Z)
    (uid entryId : Z) : TimerState :=
  mkTimerState true (Some (mkDate (Date_now env))) (Some entryId)
    (Some
       (TimesheetEntry.mk (Some entryId) name (today env) 0%float projectId
          taskId None None (Some uid) None)).

(** The duration [stopTimer] reads back, and the message it shows. *)
Definition read_duration (entries : list RawEntry.t) : number :=
  match entries with
  | [] => 0%float
  | e :: _ => opt_or_zero (RawEntry.unit_amount e)
  end.

Definition stop_message (env : Env) (m : Machine) (entries : list RawEntry.t)
    : StopMessage :=
  mkStopMessage
    (str_or (TimesheetEntry.name <$> entry (state (this m))) "Timer")
    (read_duration entries)
    (discrepancy_note (read_duration entries) (getElapsedHours env m)).

(** The trace of [m'] continues the trace of [m]. *)
Definition extends (m m' : Machine) : Prop :=
  exists rest, trace m' = trace m ++ rest.

(** The states handed to observers along a trace. *)
Definition handed (evs : list Event) : list TimerState :=
  flat_map (fun e => match e with Notified _ s => [s] | _ => [] end) evs.

(** The information messages shown along a trace. *)
Definition shown (evs : list Event) : list StopMessage :=
  flat_map (fun e => match e with ShowInformation msg => [msg] | _ => [] end)
    evs.

(** Seconds pass for the intervals [hs], one after the other. *)
Definition ticks (hs : list nat) (m : Machine) : Machine :=
  fold_left (fun m h => tick h m) hs m.

(** The remote calls made along a trace. *)
Definition calls (evs : list Event) : list Call :=
  flat_map (fun e => match e with Called c => [c] | _ => [] end) evs.

(** The writes to the workspace storage along a trace. *)
Definition stored (evs : list Event) : list (string * option Value) :=
  flat_map (fun e => match e with Stored k v => [(k, v)] | _ => [] end) evs.

(** Events that are all writes to the workspace storage. *)
Definition storage_only (evs : list Event) : Prop :=
  Forall (fun e => match e with Stored _ _ => True | _ => False end) evs.

(** The five keys of the snapshot. *)
Definition snapshot_keys : list string :=
  ["timer_entryId"; "timer_startTime"; "timer_projectId"; "timer_taskId";
   "timer_description"].

(** The five writes of a whole [saveState] in state [s], those of a
    whole [clearState], and the storage after a list of writes. *)
Definition snapshot_writes (s : TimerState) : list (string * option Value) :=
  ("timer_entryId", VId <$> entryId s)
  :: map (fun w => (fst w, snd w s)) saveState_later.

Definition clearing_writes : list (string * option Value) :=
  map (fun key => (key, None)) snapshot_keys.

Definition write_all (writes : list (string * option Value))
    (ws : gmap string Value) : gmap string Value :=
  fold_left (fun ws w => put (fst w) (snd w) ws) writes ws.

(** The writes of a whole [refreshState] on a service with workspace
    storage. *)
Definition refreshState_writes (env : Env) (m : Machine)
    : list (string * option Value) :=
  match running_timer_query env with
  | Returned (Some rt) =>
      if truthy_id (TimesheetEntry.id rt) then
        snapshot_writes
          (mkTimerState true (Some (refresh_startTime env rt))
             (TimesheetEntry.id rt) (Some rt))
      else if isRunning (state (this m)) then clearing_writes
      else []
  | Returned None => if isRunning (state (this m)) then clearing_writes else []
  | Thrown _ => []
  end.

(** With no observer registered at [m], none is registered at [m'] and
    none was invoked in between. *)
Definition unheard (m m' : Machine) : Prop :=
  updateCallbacks (this m) = [] ->
  updateCallbacks (this m') = [] /\ handed (trace m') = handed (trace m).

(** An operation that registers no observer. *)
Definition registers_nothing (o : Op) : Prop :=
  match o with
  | Subscribe _ => False
  | _ => True
  end.

(** A scheduled interval comes with a running timer. *)
Definition interval_running (m : Machine) : Prop :=
  intervalId (this m) <> None -> isRunning (state (this m)) = true.

(** ** Sample collaborators and machines *)

Definition sample_entry : RawEntry.t :=
  RawEntry.mk (Some 7%Z) (Some "Task A") None (Some 0.5%float) (Some 5%Z)
    (Some 10%Z) None None (Some 2%Z).

(** A server that creates entry 7 and accepts every call; [running] is
    its answer to the running-timer query and [amount] the hours it has
    recorded on the entry. *)
Definition server (clock : number) (amount : number)
    (running : Reply (option RawTimer.t)) : Env :=
  mkEnv clock "2023-11-14" (Some 2%Z) (Answer 7%Z) (Answer true) (Answer true)
    (Answer
       [RawEntry.mk (Some 7%Z) (Some "Task A") None (Some amount) (Some 5%Z)
          (Some 10%Z) None None (Some 2%Z)])
    running.

(** Entry 7 is the running timer: 1830.5 seconds on the server's count,
    0.5 hour of them accumulated before the timer was started. *)
Definition sample_env (clock : number) : Env :=
  server clock 0.5
    (Answer
       (Some (RawTimer.mk (Some 7%Z) (Some 1830.5%float) (Some 5%Z) (Some 10%Z)))).

(** No timer is running on the server. *)
Definition idle_env (clock : number) : Env := server clock 0.5 (Answer None).

(** The server cannot be reached for the running-timer query. *)
Definition offline_env (clock : number) : Env :=
  server clock 0.5 (Failure "Network Error").

(** What the running-timer query of [sample_env] returns. *)
Definition sample_timer : TimesheetEntry.t :=
  TimesheetEntry.mk (Some 7%Z) "Task A" "2023-11-14" 0.5 (Some 5%Z) (Some 10%Z)
    None None (Some 2%Z) (Some 1830.5%float).

(** The server refuses to create entries. *)
Definition refusing_env (clock : number) : Env :=
  mkEnv clock "2023-11-14" (Some 2%Z) (Failure "Access Denied") (Answer true)
    (Answer true) (Answer []) (Answer None).

(** The client has no session. *)
Definition anonymous_env (clock : number) : Env :=
  mkEnv clock "2023-11-14" None (Answer 7%Z) (Answer true) (Answer true)
    (Answer [sample_entry]) (Answer None).

(** The server stops timers and then cannot be read. *)
Definition unreadable_env (clock : number) : Env :=
  mkEnv clock "2023-11-14" (Some 2%Z) (Answer 7%Z) (Answer true) (Answer true)
    (Failure "Record does not exist") (Answer None).

(** A service with workspace storage and one observer that only reads. *)
Definition sample_idle : Machine :=
  onStateUpdate (fun s => s) (constructor (Some ∅)).

(** The same after [startTimer("Task A", 5, 10)]. *)
Definition sample_running : Machine :=
  snd (startTimer (sample_env 1700000000000) "Task A" (Some 5%Z) (Some 10%Z)
         sample_idle).

(** A new service over the workspace storage [sample_running] left. *)
Definition sample_restarted : Machine :=
  constructor (context (this sample_running)).

(** An observer that assigns [false] to the [isRunning] field of the
    state it is handed. *)
Definition meddling : Callback :=
  fun s => mkTimerState false (startTime s) (entryId s) (entry s).

Definition sample_ops : list Op :=
  [Subscribe (fun s => s);
   StartTimer (sample_env 1700000000000) "Task A" (Some 5%Z) (Some 10%Z);
   Tick 0;
   RefreshState (offline_env 1700000001000);
   LoadState (sample_env 1700000002000);
   StopTimer (server 1700000060000 0.5 (Answer None));
   Dispose].

(** ** [StorageService] ([src/services/storageService.ts])

    The secret storage of the extension is a finite map from keys to
    strings; the two settings [odoo.serverUrl] and [odoo.database] are
    read with the empty string as default. *)

Module StorageService.

Definition STORAGE_KEY_PREFIX : string := "odoo-timesheet-timer".
Definition SERVER_URL_KEY : string := STORAGE_KEY_PREFIX +:+ ":serverUrl".
Definition DATABASE_KEY : string := STORAGE_KEY_PREFIX +:+ ":database".
Definition USERNAME_KEY : string := STORAGE_KEY_PREFIX +:+ ":username".
Definition PASSWORD_KEY : string := STORAGE_KEY_PREFIX +:+ ":password".

Record OdooCredentials := mkOdooCredentials {
  url : string;
  database : string;
  username : string;
  password : string;
}.

Record Configuration := mkConfiguration {
  serverUrl_setting : string;
  database_setting : string;
}.

(** Truthiness of a string, and of one that may be [undefined]. *)
Definition truthy_string (s : string) : bool :=
  match s with
  | EmptyString => false
  | String _ _ => true
  end.

Definition truthy_text (s : option string) : bool :=
  match s with
  | Some s => truthy_string s
  | None => false
  end.

Definition getServerUrl (config : Configuration) (secrets : gmap string string)
    : option string :=
  let serverUrl := serverUrl_setting config in
  if truthy_string serverUrl then Some serverUrl
  else secrets !! SERVER_URL_KEY.

Definition getDatabase (config : Configuration) (secrets : gmap string string)
    : option string :=
  let database := database_setting config in
  if truthy_string database then Some database
  else secrets !! DATABASE_KEY.

Definition getCredentials (config : Configuration)
    (secrets : gmap string string) : option OdooCredentials :=
  match getServerUrl config secrets, getDatabase config secrets,
        secrets !! USERNAME_KEY, secrets !! PASSWORD_KEY with
  | Some serverUrl, Some database, Some username, Some password =>
      if truthy_string serverUrl && truthy_string database
         && truthy_string username && truthy_string password
      then Some (mkOdooCredentials serverUrl database username password)
      else None
  | _, _, _, _ => None
  end.

Definition saveCredentials (credentials : OdooCredentials)
    (secrets : gmap string string) : gmap string string :=
  <[PASSWORD_KEY := password credentials]>
    (<[USERNAME_KEY := username credentials]>
       (<[DATABASE_KEY := database credentials]>
          (<[SERVER_URL_KEY := url credentials]> secrets))).

Definition clearCredentials (secrets : gmap string string)
    : gmap string string :=
  delete PASSWORD_KEY
    (delete USERNAME_KEY (delete DATABASE_KEY (delete SERVER_URL_KEY secrets))).

Definition hasCredentials (config : Configuration)
    (secrets : gmap string string) : bool :=
  match getCredentials config secrets with
  | Some _ => true
  | None => false
  end.

End StorageService.

(** ** [OdooClient] ([src/odoo/client.ts])

    The client is a record of its three mutable fields. The axios
    instance is given by its base URL and the [Cookie] header of its
    defaults. What the server does with one POST is fixed by a
    [Response]; the requests posted are returned beside the result.
    A request records the instance it goes through, the credentials or
    the model, method and context it carries; the arguments of a call
    and its random [id] are left out. The context of a session is a
    list of key and value. *)

Module OdooClient.

Import StorageService.

Definition UserContext := list (string * string).

Record OdooSession := mkOdooSession {
  uid : Z;
  sessionId : string;
  context : UserContext;
}.

Record AxiosInstance := mkAxiosInstance {
  baseURL : string;
  Cookie : option string;
}.

Record t := mk {
  credentials : option OdooCredentials;
  session : option OdooSession;
  axiosInstance : option AxiosInstance;
}.

(** [response.data.result] of [/web/session/authenticate]. *)
Record AuthResult := mkAuthResult {
  result_uid : option Z;
  session_id : option string;
  user_context : option UserContext;
}.

(** The outcome of one POST: a response with [data.error] (and its
    [data?.message]), [data.result] and the [set-cookie] header; an
    axios error with the status of its response, if it has one; or
    another error. *)
Inductive Response (A : Type) :=
| Responded (error : option (option string)) (result : A)
    (set_cookie : option (list string))
| AxiosError (status : option Z) (message : string)
| OtherError (message : string).
Arguments Responded {A} error result set_cookie.
Arguments AxiosError {A} status message.
Arguments OtherError {A} message.

Inductive Request :=
| PostAuthenticate (instance : AxiosInstance)
    (db login password base_location : string)
| PostCallKw (instance : AxiosInstance) (model method : string)
    (context : UserContext).

Definition constructor : t := mk None None None.

Definition setCredentials (c : OdooCredentials) (client : t) : t :=
  mk (Some c) (session client) (Some (mkAxiosInstance (url c) None)).

(** [status === 401 || status === 403] *)
Definition unauthorized (status : option Z) : bool :=
  match status with
  | Some s => (s =? 401)%Z || (s =? 403)%Z
  | None => false
  end.

Definition authenticate (http : Response (option AuthResult)) (client : t)
    : Outcome OdooSession * t * list Request :=
  match credentials client, axiosInstance client with
  | Some c, Some instance =>
      let request :=
        PostAuthenticate instance (database c) (username c) (password c)
          (url c) in
      match http with
      | Responded (Some error) _ _ =>
          (Thrown (str_or error "Authentication failed"), client, [request])
      | Responded None result set_cookie =>
          match result with
          | Some r =>
              if truthy_id (result_uid r) then
                let s :=
                  mkOdooSession (default 0%Z (result_uid r))
                    (str_or (session_id r) EmptyString)
                    (default [] (user_context r)) in
                let instance' :=
                  match set_cookie with
                  | Some cookies =>
                      mkAxiosInstance (baseURL instance)
                        (Some (String.concat "; " cookies))
                  | None => instance
                  end in
                (Returned s, mk (credentials client) (Some s) (Some instance'),
                 [request])
              else
                (Thrown "Invalid authentication response", client, [request])
          | None =>
              (Thrown "Invalid authentication response", client, [request])
          end
      | AxiosError status message =>
          if unauthorized status then
            (Thrown "Invalid credentials", client, [request])
          else (Thrown ("Connection error: " +:+ message), client, [request])
      | OtherError message => (Thrown message, client, [request])
      end
  | _, _ =>
      (Thrown "Credentials not set. Please configure Odoo connection.",
       client, [])
  end.

Definition executeKw {A} (http : Response A) (model method : string)
    (client : t) : Outcome A * t * list Request :=
  match session client, axiosInstance client with
  | Some s, Some instance =>
      let request := PostCallKw instance model method (context s) in
      match http with
      | Responded (Some error) _ _ =>
          (Thrown (str_or error "API call failed"), client, [request])
      | Responded None result _ => (Returned result, client, [request])
      | AxiosError status message =>
          if unauthorized status then
            (Thrown "Session expired. Please login again.",
             mk (credentials client) None (axiosInstance client), [request])
          else (Thrown ("API error: " +:+ message), client, [request])
      | OtherError message => (Thrown message, client, [request])
      end
  | _, _ => (Thrown "Not authenticated. Please login first.", client, [])
  end.

(** The server accepts the authentication: a response without error
    whose result carries a nonzero [uid]. *)
Definition accepted (http : Response (option AuthResult)) : bool :=
  match http with
  | Responded None (Some r) _ => truthy_id (result_uid r)
  | _ => false
  end.

Definition isAuthenticated (client : t) : bool :=
  match session client with
  | Some _ => true
  | None => false
  end.

Definition getSession (client : t) : option OdooSession := session client.

Definition logout (client : t) : t := mk None None None.

(** The operations on a client, and their effect on it. *)
Inductive Op :=
| SetCredentials (c : OdooCredentials)
| Authenticate (http : Response (option AuthResult))
| ExecuteKw (http : Response unit) (model method : string)
| Logout.

Definition perform (o : Op) (client : t) : t :=
  match o with
  | SetCredentials c => setCredentials c client
  | Authenticate http => snd (fst (authenticate http client))
  | ExecuteKw http model method =>
      snd (fst (executeKw http model method client))
  | Logout => logout client
  end.

Definition run (ops : list Op) (client : t) : t :=
  fold_left (fun client o => perform o client) ops client.

End OdooClient.

(** ** [OdooAuth] ([src/odoo/auth.ts]) *)

Module OdooAuth.

Import StorageService.

Inductive Message :=
| InformationMessage (msg : string)
| ErrorMessage (msg : string).

(** What [login] works on: the client, the secret storage and the
    messages shown so far. *)
Record World := mkWorld {
  client : OdooClient.t;
  secrets : gmap string string;
  messages : list Message;
}.

(** [login]; [prompted] is what [promptForCredentials] returns when it
    is called, [http] what the server does with the authentication. *)
Definition login (config : Configuration) (prompted : option OdooCredentials)
    (http : OdooClient.Response (option OdooClient.AuthResult)) (w : World)
    : bool * World :=
  let attempt (credentials : OdooCredentials) (secrets : gmap string string) :=
    let client := OdooClient.setCredentials credentials (client w) in
    match OdooClient.authenticate http client with
    | (Returned _, client, _) =>
        (true,
         mkWorld client secrets
           (messages w
            ++ [InformationMessage "Successfully logged in to Odoo"]))
    | (Thrown message, client, _) =>
        let errorMessage :=
          if truthy_string message then message else "Login failed" in
        (false,
         mkWorld client (clearCredentials secrets)
           (messages w
            ++ [ErrorMessage ("Failed to login: " +:+ errorMessage)]))
    end in
  match getCredentials config (secrets w) with
  | Some credentials => attempt credentials (secrets w)
  | None =>
      match prompted with
      | Some credentials =>
          attempt credentials (saveCredentials credentials (secrets w))
      | None => (false, w)
      end
  end.

Definition ensureAuthenticated (config : Configuration)
    (prompted : option OdooCredentials)
    (http : OdooClient.Response (option OdooClient.AuthResult)) (w : World)
    : bool * World :=
  if OdooClient.isAuthenticated (client w) then (true, w)
  else login config prompted http w.

Definition logout (w : World) : World :=
  mkWorld (OdooClient.logout (client w)) (clearCredentials (secrets w))
    (messages w ++ [InformationMessage "Logged out from Odoo"]).

End OdooAuth.

(** ** The callers of the service ([src/extension.ts]) *)

(** [restoreAuth], from the successful authentication on: the snapshot
    first and, when it restored nothing, the server. The two steps get
    their answers from [envL] and [envR]. *)
Definition restoreAuth_timer (envL envR : Env) : M unit :=
  let* restored := loadState envL in
  if restored then ret tt else refreshState envR.

(** [deactivate]; [choice] is the button the modal warning is answered
    with, if any. The status bar item, disposed of last, is not part of
    the machine. *)
Definition deactivate (env : Env) (choice : option string) (m : Machine)
    : Machine :=
  let s := getState m in
  let m :=
    if isRunning s then
      let m :=
        emit
          (ShowWarning
             "Odoo timer is currently running. Do you want to stop it?")
          m in
      if bool_decide (choice = Some "Stop Timer") then snd (stopTimer env m)
      else m
    else m in
  dispose m.

(** Credentials, answers of the server to an authentication, and a
    client that has logged in with them. *)
Definition sample_credentials : StorageService.OdooCredentials :=
  StorageService.mkOdooCredentials "https://odoo.example.com" "odoo" "admin"
    "secret".

Definition other_credentials : StorageService.OdooCredentials :=
  StorageService.mkOdooCredentials "https://other.example.com" "odoo" "admin"
    "wrong".

Definition accepting : OdooClient.Response (option OdooClient.AuthResult) :=
  OdooClient.Responded None
    (Some (OdooClient.mkAuthResult (Some 2%Z) (Some "abc123") None))
    (Some ["session_id=abc123"; "Path=/"]).

Definition rejecting : OdooClient.Response (option OdooClient.AuthResult) :=
  OdooClient.AxiosError (Some 401%Z) "Request failed with status code 401".

Definition unreachable : OdooClient.Response (option OdooClient.AuthResult) :=
  OdooClient.AxiosError None "connect ECONNREFUSED".

Definition sample_login : list OdooClient.Op :=
  [OdooClient.SetCredentials sample_credentials;
   OdooClient.Authenticate accepting].

Definition sample_client : OdooClient.t :=
  OdooClient.run sample_login OdooClient.constructor.

(** A world with a new client, an empty secret storage and no message
    shown. *)
Definition sample_world : OdooAuth.World :=
  OdooAuth.mkWorld OdooClient.constructor ∅ [].

Definition no_settings : StorageService.Configuration :=
  StorageService.mkConfiguration EmptyString EmptyString.

(** * Properties *)

(** ** The definitions at work *)

Example TimeClip_whole : TimeClip 1700000000000 = 1700000000000%float.
Proof. reflexivity. Qed.

Example TimeClip_fraction : TimeClip 1699999969500.75 = 1699999969500%float.
Proof. reflexivity. Qed.

Example TimeClip_negative_fraction : TimeClip (-1.5) = (-1)%float.
Proof. reflexivity. Qed.

Example TimeClip_out_of_range : TimeClip 8.64e15 = 8.64e15%float
                                /\ TimeClip 8640000000000002 = nan.
Proof. split; reflexivity. Qed.

Example TimeClip_not_finite : TimeClip nan = nan /\ TimeClip infinity = nan.
Proof. split; reflexivity. Qed.

Example truthy_numbers :
  truthy 0 = false /\ truthy (-0) = false /\ truthy nan = false
  /\ truthy 0.0167 = true.
Proof. repeat split. Qed.

(** [startTimer] at the sample server: the two remote calls, the first
    storage write, the fan-out to the one observer, then the storage
    writes left. *)
Example startTimer_sample_trace :
  trace sample_running
  = [Called
       (Create
          (mkCreateValues "Task A" "2023-11-14" 0 (Some 5%Z) (Some 10%Z) None
             None (Some 2%Z)));
     Called (ActionTimerStart 7);
     Stored "timer_entryId" (Some (VId 7));
     Notified 0 (state (this sample_running));
     Stored "timer_startTime" (Some (VNum 1700000000000));
     Stored "timer_projectId" (Some (VId 5));
     Stored "timer_taskId" (Some (VId 10));
     Stored "timer_description" (Some (VStr "Task A"))]
  /\ intervalId (this sample_running) = Some 0
  /\ timers sample_running = [0].
Proof. vm_compute. now repeat split. Qed.

(** [refreshState] at the sample server: 1830.5 s reported, 0.5 h of
    them accumulated, so the timer started 30.5 s before the clock
    reading. *)
Example refreshState_sample_startTime :
  startTime
    (state (this (snd (refreshState (sample_env 1700000000000) sample_idle))))
  = Some (mkDate 1699999969500).
Proof. vm_compute. reflexivity. Qed.

(** ** Frame lemmas of the helpers *)

Arguments put : simpl never.

(** Reduces the field accesses of a machine given by its constructors. *)
Ltac fields :=
  cbn [this timers next_timer trace state updateCallbacks intervalId context].

Lemma or_zero_idem x : or_zero (or_zero x) = or_zero x.
Proof.
  unfold or_zero. destruct (truthy x) eqn:Hx; [now rewrite Hx | reflexivity].
Qed.

Lemma current_seconds_or_zero x :
  (if truthy (or_zero x) then (or_zero x * 3600)%float else 0%float)
  = (or_zero x * 3600)%float.
Proof.
  unfold or_zero. destruct (truthy x) eqn:Hx; [now rewrite Hx | reflexivity].
Qed.

Lemma opt_or_zero_idem x : or_zero (opt_or_zero x) = opt_or_zero x.
Proof. destruct x; simpl; [apply or_zero_idem | reflexivity]. Qed.

Lemma current_seconds_opt_or_zero x :
  (if truthy (opt_or_zero x) then (opt_or_zero x * 3600)%float else 0%float)
  = (opt_or_zero x * 3600)%float.
Proof. destruct x; simpl; [apply current_seconds_or_zero | reflexivity]. Qed.

(** Unfolds the monad and the remote calls. *)
Ltac monad :=
  cbv [try_catch bind do ret throw executeKw OdooTimesheet.stopTimer
       OdooTimesheet.startTimer OdooTimesheet.createTimesheetEntry
       OdooTimesheet.getTimesheetEntry];
  fields.

Lemma add_events_nil m : add_events [] m = m.
Proof.
  unfold add_events. rewrite app_nil_r. destruct m; reflexivity.
Qed.

Lemma forEach_passive callbacks :
  Forall passive callbacks ->
  forall i m,
    forEach callbacks i m
    = add_events (notifications i (length callbacks) (state (this m))) m.
Proof.
  induction 1 as [|callback rest Hcb _ IH]; intros i m.
  - simpl. now rewrite add_events_nil.
  - simpl. rewrite IH. simpl. rewrite Hcb.
    unfold add_events, set_state, emit, notifications; simpl.
    rewrite <- app_assoc. simpl.
    destruct m as [[? ? ? ?] ? ? ?]; reflexivity.
Qed.

Lemma notifyStateUpdate_passive m :
  Forall passive (updateCallbacks (this m)) ->
  notifyStateUpdate m
  = add_events
      (notifications 0 (length (updateCallbacks (this m))) (state (this m))) m.
Proof. intros H. unfold notifyStateUpdate. now apply forEach_passive. Qed.

Lemma workspaceState_update_step key v s cbs iid ws tms nxt tr :
  workspaceState_update key v
    (mkMachine (mkTimerService s cbs iid (Some ws)) tms nxt tr)
  = mkMachine (mkTimerService s cbs iid (Some (put key v ws))) tms nxt
      (tr ++ [Stored key v]).
Proof. reflexivity. Qed.

Lemma save_field_step key f s cbs iid ws tms nxt tr :
  save_field key f (mkMachine (mkTimerService s cbs iid (Some ws)) tms nxt tr)
  = mkMachine (mkTimerService s cbs iid (Some (put key (f s) ws))) tms nxt
      (tr ++ [Stored key (f s)]).
Proof. reflexivity. Qed.

Lemma getRunningTimer_run env m :
  OdooTimesheet.getRunningTimer env m
  = (running_timer_query env, add_events (running_timer_calls env) m).
Proof.
  unfold running_timer_query, running_timer_calls,
    OdooTimesheet.getRunningTimer, OdooTimesheet.getTimesheetEntry, bind,
    executeKw, ret.
  destruct (get_running_timer_reply env) as [[r|]|msg]; simpl;
    try reflexivity.
  destruct (RawTimer.id r) as [id|]; simpl; try reflexivity.
  destruct (negb (id =? 0)%Z); simpl; try reflexivity.
  destruct (read_reply env) as [[|e rest]|msg]; simpl;
    unfold add_events, emit; simpl; rewrite <- app_assoc; reflexivity.
Qed.

Lemma this_stopUpdateInterval m :
  this (stopUpdateInterval m)
  = mkTimerService (state (this m)) (updateCallbacks (this m)) None
      (context (this m)).
Proof.
  destruct m as [[s cbs [h|] ctx] tms nxt tr]; reflexivity.
Qed.

Lemma trace_stopUpdateInterval m : trace (stopUpdateInterval m) = trace m.
Proof. destruct m as [[s cbs [h|] ctx] tms nxt tr]; reflexivity. Qed.

Lemma this_startUpdateInterval m :
  this (startUpdateInterval m)
  = mkTimerService (state (this m)) (updateCallbacks (this m))
      (if isRunning (state (this m)) then Some (next_timer m) else None)
      (context (this m)).
Proof.
  destruct m as [[s cbs [h|] ctx] tms nxt tr];
    unfold startUpdateInterval; simpl; destruct (isRunning s); reflexivity.
Qed.

Lemma this_saveState_begin m :
  this (saveState_begin m)
  = mkTimerService (state (this m)) (updateCallbacks (this m))
      (intervalId (this m))
      (put "timer_entryId" (VId <$> entryId (state (this m)))
         <$> context (this m)).
Proof. destruct m as [[s cbs iid [ws|]] tms nxt tr]; reflexivity. Qed.

Lemma this_saveState_resume m :
  this (saveState_resume m)
  = mkTimerService (state (this m)) (updateCallbacks (this m))
      (intervalId (this m)) (saved_rest (state (this m)) <$> context (this m)).
Proof.
  destruct m as [[s cbs iid [ws|]] tms nxt tr]; [|reflexivity].
  unfold saveState_resume; fields. now rewrite !save_field_step.
Qed.

Lemma this_clearState_begin m :
  this (clearState_begin m)
  = mkTimerService (state (this m)) (updateCallbacks (this m))
      (intervalId (this m)) (put "timer_entryId" None <$> context (this m)).
Proof. destruct m as [[s cbs iid [ws|]] tms nxt tr]; reflexivity. Qed.

Lemma this_clearState_resume m :
  this (clearState_resume m)
  = mkTimerService (state (this m)) (updateCallbacks (this m))
      (intervalId (this m)) (cleared_rest <$> context (this m)).
Proof.
  destruct m as [[s cbs iid [ws|]] tms nxt tr]; [|reflexivity].
  unfold clearState_resume; fields. now rewrite !workspaceState_update_step.
Qed.

Lemma saved_split s (c : option (gmap string Value)) :
  saved_rest s <$> (put "timer_entryId" (VId <$> entryId s) <$> c)
  = saved s <$> c.
Proof. now destruct c. Qed.

Lemma cleared_split (c : option (gmap string Value)) :
  cleared_rest <$> (put "timer_entryId" None <$> c) = cleared <$> c.
Proof. now destruct c. Qed.

Lemma this_notifyStateUpdate m :
  Forall passive (updateCallbacks (this m)) ->
  this (notifyStateUpdate m) = this m.
Proof. intros H. now rewrite notifyStateUpdate_passive. Qed.

Lemma forEach_frame callbacks :
  forall i m,
    updateCallbacks (this (forEach callbacks i m)) = updateCallbacks (this m)
    /\ intervalId (this (forEach callbacks i m)) = intervalId (this m)
    /\ context (this (forEach callbacks i m)) = context (this m)
    /\ timers (forEach callbacks i m) = timers m
    /\ next_timer (forEach callbacks i m) = next_timer m.
Proof.
  induction callbacks as [|callback rest IH]; intros i m; simpl.
  - now repeat split.
  - destruct (IH (S i)
                (set_state (callback (state (this m)))
                   (emit (Notified i (state (this m))) m)))
      as (H1 & H2 & H3 & H4 & H5).
    now rewrite H1, H2, H3, H4, H5.
Qed.

Lemma forEach_trace callbacks :
  forall i m, exists rest, trace (forEach callbacks i m) = trace m ++ rest.
Proof.
  induction callbacks as [|callback tl IH]; intros i m; simpl.
  - exists []. now rewrite app_nil_r.
  - destruct (IH (S i)
                (set_state (callback (state (this m)))
                   (emit (Notified i (state (this m))) m))) as [rest ->].
    eexists. cbn [trace set_state emit]. now rewrite <- app_assoc.
Qed.

Lemma callbacks_notifyStateUpdate m :
  updateCallbacks (this (notifyStateUpdate m)) = updateCallbacks (this m).
Proof. apply forEach_frame. Qed.

Lemma intervalId_notifyStateUpdate m :
  intervalId (this (notifyStateUpdate m)) = intervalId (this m).
Proof. apply forEach_frame. Qed.

Lemma context_notifyStateUpdate m :
  context (this (notifyStateUpdate m)) = context (this m).
Proof. apply forEach_frame. Qed.

(** Rewrites the service object of a machine built by the helpers down
    to the service object it was built from. *)
Ltac service :=
  cbv beta delta [saveState_then clearState_then saveState clearState];
  repeat (rewrite ?callbacks_notifyStateUpdate, ?intervalId_notifyStateUpdate,
            ?context_notifyStateUpdate, ?this_startUpdateInterval,
            ?this_stopUpdateInterval, ?this_saveState_begin,
            ?this_saveState_resume, ?this_clearState_begin,
            ?this_clearState_resume;
          cbn [this state updateCallbacks intervalId context add_events
               set_state set_context emit]).

Ltac observers_done :=
  service; rewrite this_notifyStateUpdate by (service; assumption); service.

(** ** What each operation does, by the answers it gets *)

Lemma refreshState_run env m :
  refreshState env m
  = (Returned tt,
     let m0 := add_events (running_timer_calls env) (stopUpdateInterval m) in
     match running_timer_query env with
     | Returned (Some rt) =>
         if truthy_id (TimesheetEntry.id rt) then
           saveState_then (fun m => notifyStateUpdate (startUpdateInterval m))
             (set_state
                (mkTimerState true (Some (refresh_startTime env rt))
                   (TimesheetEntry.id rt) (Some rt))
                m0)
         else refresh_cleared m0
     | Returned None => refresh_cleared m0
     | Thrown msg =>
         stopUpdateInterval
           (emit (ConsoleError "Failed to refresh timer state:" msg) m0)
     end).
Proof.
  unfold refreshState, try_catch, bind, do.
  rewrite getRunningTimer_run.
  destruct (running_timer_query env) as [[rt|]|msg]; try reflexivity.
  destruct (truthy_id (TimesheetEntry.id rt)); reflexivity.
Qed.

Lemma loadState_run env m :
  loadState env m
  = match context (this m) with
    | None => (Returned false, m)
    | Some ws =>
        match get_num ws "timer_startTime" with
        | Some ms =>
            if truthy_id (get_id ws "timer_entryId") && truthy ms then
              let m0 := add_events (running_timer_calls env) m in
              match running_timer_query env with
              | Returned (Some rt) =>
                  if strict_eq_id (TimesheetEntry.id rt)
                       (get_id ws "timer_entryId")
                  then
                    (Returned true,
                     notifyStateUpdate
                       (startUpdateInterval
                          (set_state
                             (mkTimerState true (Some (new_Date ms))
                                (get_id ws "timer_entryId")
                                (Some
                                   (TimesheetEntry.mk
                                      (get_id ws "timer_entryId")
                                      (str_or (get_str ws "timer_description") EmptyString)
                                      (today env) 0%float
                                      (get_id ws "timer_projectId")
                                      (get_id ws "timer_taskId")
                                      None None None None)))
                             m0)))
                  else (Returned false, m0)
              | Returned None => (Returned false, m0)
              | Thrown _ => (Returned false, clearState m0)
              end
            else (Returned false, m)
        | None => (Returned false, m)
        end
    end.
Proof.
  unfold loadState.
  destruct (context (this m)) as [ws|]; [|reflexivity].
  destruct (get_num ws "timer_startTime") as [ms|]; [|reflexivity].
  destruct (truthy_id (get_id ws "timer_entryId") && truthy ms); [|reflexivity].
  unfold try_catch, bind, do, ret.
  rewrite getRunningTimer_run.
  destruct (running_timer_query env) as [[rt|]|msg]; try reflexivity.
  destruct (strict_eq_id (TimesheetEntry.id rt) (get_id ws "timer_entryId"));
    reflexivity.
Qed.

Lemma startTimer_run env name projectId taskId m :
  startTimer env name projectId taskId m
  = if isRunning (state (this m)) then
      (Returned false, emit (ShowWarning "Timer is already running") m)
    else
      match session_uid env with
      | None =>
          (Returned false,
           emit (ShowError "Failed to start timer: Not authenticated") m)
      | Some uid =>
          let create := Called (Create (start_values env name projectId taskId uid)) in
          match create_reply env with
          | Failure msg =>
              (Returned false,
               add_events [create; ShowError ("Failed to start timer: " ++ msg)] m)
          | Answer entryId =>
              match action_timer_start_reply env with
              | Failure msg =>
                  (Returned false,
                   add_events
                     [create; Called (ActionTimerStart entryId);
                      ShowError ("Failed to start timer: " ++ msg)] m)
              | Answer _ =>
                  (Returned true,
                   saveState_then
                     (fun m => notifyStateUpdate (startUpdateInterval m))
                     (set_state
                        (started env name projectId taskId uid entryId)
                        (add_events
                           [create; Called (ActionTimerStart entryId)] m)))
              end
          end
      end.
Proof.
  unfold startTimer.
  destruct (isRunning (state (this m))); [reflexivity|].
  unfold try_catch, bind, do, ret, throw,
    OdooTimesheet.createTimesheetEntry, OdooTimesheet.startTimer, executeKw.
  destruct (session_uid env) as [uid|]; [|reflexivity].
  destruct (create_reply env) as [entryId|msg]; simpl.
  - destruct (action_timer_start_reply env) as [ok|msg]; simpl.
    + unfold emit, add_events; simpl. rewrite <- app_assoc. reflexivity.
    + unfold emit, add_events; simpl. rewrite <- !app_assoc. reflexivity.
  - unfold emit, add_events; simpl. rewrite <- app_assoc. reflexivity.
Qed.

Lemma stopTimer_run env m :
  stopTimer env m
  = match entryId (state (this m)) with
    | Some id =>
        if isRunning (state (this m)) && negb (id =? 0)%Z then
          let stop := Called (ActionTimerStop id false) in
          match action_timer_stop_reply env with
          | Failure msg =>
              (Returned false,
               add_events [stop; ShowError ("Failed to stop timer: " ++ msg)] m)
          | Answer _ =>
              match read_reply env with
              | Failure msg =>
                  (Returned false,
                   add_events
                     [stop; Called (Read id);
                      ShowError ("Failed to stop timer: " ++ msg)] m)
              | Answer entries =>
                  (Returned true,
                   clearState_then
                     (fun m => notifyStateUpdate (stopUpdateInterval m))
                     (set_state stopped
                        (add_events
                           [stop; Called (Read id);
                            ShowInformation (stop_message env m entries)]
                           m)))
              end
          end
        else (Returned false, emit (ShowWarning "No timer is running") m)
    | None => (Returned false, emit (ShowWarning "No timer is running") m)
    end.
Proof.
  destruct m as [[s cbs iid ctx] tms nxt tr].
  unfold stopTimer; fields.
  destruct (entryId s) as [id|]; [|reflexivity].
  destruct (isRunning s && negb (id =? 0)%Z); [|reflexivity].
  monad.
  destruct (action_timer_stop_reply env) as [ok|msg];
    [destruct (read_reply env) as [[|e rest]|msg]|];
    unfold emit, add_events, stop_message, getElapsedHours, set_state,
      read_duration;
    fields; rewrite <- ?app_assoc; try reflexivity.
  cbn [fmap option_fmap option_map OdooTimesheet.mapToTimesheetEntry
       TimesheetEntry.unit_amount opt_or_zero].
  now rewrite opt_or_zero_idem.
Qed.

(** ** The state invariant along runs *)

Lemma installed_consistent s : installed s -> consistent s.
Proof.
  intros [-> | (Hrun & Hst & Hid)]; split.
  - simpl. split; [discriminate | intros [H _]; now contradict H].
  - now intros _.
  - tauto.
  - rewrite Hrun. discriminate.
Qed.

Lemma truthy_id_Some i : truthy_id i = true -> i <> None.
Proof. destruct i; [discriminate | discriminate]. Qed.

Lemma startTimer_settled env name projectId taskId m :
  settled m -> settled (snd (startTimer env name projectId taskId m)).
Proof.
  intros [Hcbs Hst]. rewrite startTimer_run.
  destruct (isRunning (state (this m))); [now split|].
  destruct (session_uid env) as [uid|]; [|now split].
  destruct (create_reply env) as [id|msg]; [|now split].
  destruct (action_timer_start_reply env) as [ok|msg]; [|now split].
  unfold settled; simpl. observers_done.
  split; [assumption|]. right. now repeat split.
Qed.

Lemma stopTimer_settled env m : settled m -> settled (snd (stopTimer env m)).
Proof.
  intros [Hcbs Hst]. rewrite stopTimer_run.
  destruct (entryId (state (this m))) as [id|]; [|now split].
  destruct (isRunning (state (this m)) && negb (id =? 0)%Z); [|now split].
  destruct (action_timer_stop_reply env) as [ok|msg]; [|now split].
  destruct (read_reply env) as [entries|msg]; [|now split].
  unfold settled; simpl. observers_done.
  split; [assumption | now left].
Qed.

Lemma refresh_cleared_settled m : settled m -> settled (refresh_cleared m).
Proof.
  intros [Hcbs Hst]. unfold refresh_cleared.
  destruct (isRunning (state (this m))); [|now split].
  unfold settled. observers_done. split; [assumption | now left].
Qed.

Lemma refreshState_settled env m : settled m -> settled (snd (refreshState env m)).
Proof.
  intros [Hcbs Hst]. rewrite refreshState_run. cbn [snd].
  assert (H0 : settled (add_events (running_timer_calls env) (stopUpdateInterval m))).
  { unfold settled. service. now split. }
  destruct (running_timer_query env) as [[rt|]|msg].
  - destruct (truthy_id (TimesheetEntry.id rt)) eqn:Hid.
    + unfold settled. observers_done. split; [assumption|].
      right. repeat split; [discriminate | now apply truthy_id_Some].
    + now apply refresh_cleared_settled.
  - now apply refresh_cleared_settled.
  - unfold settled. service. now split.
Qed.

Lemma loadState_settled env m : settled m -> settled (snd (loadState env m)).
Proof.
  intros [Hcbs Hst]. rewrite loadState_run.
  destruct (context (this m)) as [ws|] eqn:Hctx; [|now split].
  destruct (get_num ws "timer_startTime") as [ms|]; [|now split].
  destruct (truthy_id (get_id ws "timer_entryId") && truthy ms) eqn:Hguard;
    [|now split].
  apply andb_prop in Hguard as [Hid _].
  cbv zeta.
  destruct (running_timer_query env) as [[rt|]|msg].
  - destruct (strict_eq_id _ _); [|now split].
    unfold settled; simpl. observers_done. split; [assumption|].
    right. repeat split; [discriminate | now apply truthy_id_Some].
  - now split.
  - unfold settled; simpl. service. now split.
Qed.

Lemma tick_settled h m : settled m -> settled (tick h m).
Proof.
  intros [Hcbs Hst]. unfold tick, interval_callback.
  destruct (decide (h ∈ timers m)); [|now split].
  destruct (isRunning (state (this m))), (startTime (state (this m)));
    unfold settled; try observers_done; service; now split.
Qed.

Lemma perform_settled o m :
  well_behaved o -> settled m -> settled (perform o m).
Proof.
  destruct o; simpl; intros Hwb Hm.
  - destruct Hm as [Hcbs Hst]. split; simpl; [|assumption].
    apply Forall_app. split; [assumption | now constructor].
  - now apply startTimer_settled.
  - now apply stopTimer_settled.
  - now apply refreshState_settled.
  - now apply loadState_settled.
  - now apply tick_settled.
  - destruct Hm as [Hcbs Hst]. unfold dispose, settled; simpl. service.
    split; [constructor | assumption].
Qed.

Lemma run_settled ops :
  Forall well_behaved ops -> forall m, settled m -> settled (run ops m).
Proof.
  induction 1 as [|o ops Ho _ IH]; intros m Hm; simpl; [assumption|].
  apply IH. now apply perform_settled.
Qed.

Lemma constructor_settled ws : settled (constructor ws).
Proof. split; [constructor | now left]. Qed.

(** ** The scheduled interval along runs *)

Lemma timers_ok_frame m m' :
  intervalId (this m') = intervalId (this m) ->
  timers m' = timers m ->
  timers_ok m -> timers_ok m'.
Proof. unfold timers_ok. now intros -> ->. Qed.

Lemma notifyStateUpdate_timers_ok m :
  timers_ok m -> timers_ok (notifyStateUpdate m).
Proof.
  unfold notifyStateUpdate.
  destruct (forEach_frame (updateCallbacks (this m)) 0 m) as (_ & H2 & _ & H4 & _).
  now apply timers_ok_frame.
Qed.

Lemma timers_workspaceState_update key v m :
  timers (workspaceState_update key v m) = timers m.
Proof. unfold workspaceState_update. now destruct (context (this m)). Qed.

Lemma saveState_begin_timers_ok m : timers_ok m -> timers_ok (saveState_begin m).
Proof.
  apply timers_ok_frame; [now rewrite this_saveState_begin|].
  unfold saveState_begin, save_field. destruct (context (this m)); [|reflexivity].
  apply timers_workspaceState_update.
Qed.

Lemma saveState_resume_timers_ok m :
  timers_ok m -> timers_ok (saveState_resume m).
Proof.
  apply timers_ok_frame; [now rewrite this_saveState_resume|].
  unfold saveState_resume, save_field. destruct (context (this m)); [|reflexivity].
  now rewrite !timers_workspaceState_update.
Qed.

Lemma clearState_begin_timers_ok m :
  timers_ok m -> timers_ok (clearState_begin m).
Proof.
  apply timers_ok_frame; [now rewrite this_clearState_begin|].
  unfold clearState_begin. destruct (context (this m)); [|reflexivity].
  apply timers_workspaceState_update.
Qed.

Lemma clearState_resume_timers_ok m :
  timers_ok m -> timers_ok (clearState_resume m).
Proof.
  apply timers_ok_frame; [now rewrite this_clearState_resume|].
  unfold clearState_resume. destruct (context (this m)); [|reflexivity].
  now rewrite !timers_workspaceState_update.
Qed.

Lemma remove_timer_only h : remove_timer h [h] = [].
Proof.
  unfold remove_timer. rewrite filter_cons, filter_nil.
  now destruct (decide (h ≠ h)).
Qed.

Lemma stopUpdateInterval_timers_ok m :
  timers_ok m -> timers_ok (stopUpdateInterval m).
Proof.
  unfold timers_ok, stopUpdateInterval.
  destruct (intervalId (this m)) as [h|] eqn:Hh; [|now rewrite Hh].
  intros Ht. simpl. rewrite Ht. apply remove_timer_only.
Qed.

Lemma stopUpdateInterval_idle m :
  timers_ok m ->
  intervalId (this (stopUpdateInterval m)) = None
  /\ timers (stopUpdateInterval m) = [].
Proof.
  intros H. apply stopUpdateInterval_timers_ok in H. unfold timers_ok in H.
  rewrite this_stopUpdateInterval in *. simpl in *. now split.
Qed.

Lemma startUpdateInterval_timers_ok m :
  timers_ok m -> timers_ok (startUpdateInterval m).
Proof.
  intros H. unfold startUpdateInterval.
  destruct (stopUpdateInterval_idle m H) as [Hi Ht].
  destruct (isRunning (state (this (stopUpdateInterval m)))).
  - unfold timers_ok, setInterval; simpl. now rewrite Ht.
  - now apply stopUpdateInterval_timers_ok.
Qed.

Lemma set_state_timers_ok s m : timers_ok m -> timers_ok (set_state s m).
Proof. now apply timers_ok_frame. Qed.

Lemma add_events_timers_ok evs m : timers_ok m -> timers_ok (add_events evs m).
Proof. now apply timers_ok_frame. Qed.

Lemma emit_timers_ok e m : timers_ok m -> timers_ok (emit e m).
Proof. now apply timers_ok_frame. Qed.

Create HintDb timers.

#[local] Hint Resolve emit_timers_ok notifyStateUpdate_timers_ok
  saveState_begin_timers_ok saveState_resume_timers_ok
  clearState_begin_timers_ok clearState_resume_timers_ok
  stopUpdateInterval_timers_ok
  startUpdateInterval_timers_ok set_state_timers_ok add_events_timers_ok
  : timers.

(** Case analysis on what decides the branch an operation takes. *)
Ltac branches :=
  repeat match goal with
         | |- timers_ok (snd (match ?x with _ => _ end)) => destruct x
         | |- timers_ok (snd (if ?x then _ else _)) => destruct x
         | |- timers_ok (match ?x with _ => _ end) => destruct x
         | |- timers_ok (if ?x then _ else _) => destruct x
         end;
  cbn [snd];
  unfold saveState_then, clearState_then, clearState.

Lemma perform_timers_ok o m : timers_ok m -> timers_ok (perform o m).
Proof.
  intros H. destruct o; simpl.
  - assumption.
  - rewrite startTimer_run. cbv zeta. branches; auto 10 with timers.
  - rewrite stopTimer_run. cbv zeta. branches; auto 10 with timers.
  - rewrite refreshState_run. cbn [snd]. cbv zeta. unfold refresh_cleared.
    branches; auto 10 with timers.
  - rewrite loadState_run. cbv zeta. branches; auto 10 with timers.
  - unfold tick, interval_callback. branches; auto with timers.
  - unfold dispose.
    now apply (timers_ok_frame (stopUpdateInterval m)),
      stopUpdateInterval_timers_ok.
Qed.

Lemma run_timers_ok ops : forall m, timers_ok m -> timers_ok (run ops m).
Proof.
  induction ops as [|o ops IH]; intros m Hm; simpl; [assumption|].
  now apply IH, perform_timers_ok.
Qed.

(** In every machine a run reaches from a new service, the interval the
    service holds is the only one scheduled. *)
Lemma reachable_timers_ok ws ops : timers_ok (run ops (constructor ws)).
Proof. now apply run_timers_ok. Qed.

(** ** Traces of the helpers *)

Lemma handed_app evs1 evs2 : handed (evs1 ++ evs2) = handed evs1 ++ handed evs2.
Proof. apply flat_map_app. Qed.

Lemma calls_app evs1 evs2 : calls (evs1 ++ evs2) = calls evs1 ++ calls evs2.
Proof. apply flat_map_app. Qed.

Lemma stored_app evs1 evs2 : stored (evs1 ++ evs2) = stored evs1 ++ stored evs2.
Proof. apply flat_map_app. Qed.

Lemma handed_storage_only evs : storage_only evs -> handed evs = [].
Proof.
  induction 1 as [|e evs He _ IH]; [reflexivity|].
  destruct e; try contradiction. exact IH.
Qed.

Lemma calls_storage_only evs : storage_only evs -> calls evs = [].
Proof.
  induction 1 as [|e evs He _ IH]; [reflexivity|].
  destruct e; try contradiction. exact IH.
Qed.

Lemma handed_notifications i n s : handed (notifications i n s) = replicate n s.
Proof.
  unfold notifications. revert i.
  induction n as [|n IH]; intros i; [reflexivity|].
  cbn [seq map handed flat_map app replicate]. f_equal. apply IH.
Qed.

Lemma calls_notifications i n s : calls (notifications i n s) = [].
Proof.
  unfold notifications. revert i.
  induction n as [|n IH]; intros i; [reflexivity|]. apply IH.
Qed.

Lemma stored_notifications i n s : stored (notifications i n s) = [].
Proof.
  unfold notifications. revert i.
  induction n as [|n IH]; intros i; [reflexivity|]. apply IH.
Qed.

Lemma handed_map_Called cs : handed (map Called cs) = [].
Proof. induction cs as [|c cs IH]; [reflexivity | exact IH]. Qed.

Lemma calls_map_Called cs : calls (map Called cs) = cs.
Proof. induction cs as [|c cs IH]; [reflexivity | cbn; now f_equal]. Qed.

Lemma stored_map_Called cs : stored (map Called cs) = [].
Proof. induction cs as [|c cs IH]; [reflexivity | exact IH]. Qed.

Lemma trace_workspaceState_update key v m :
  exists evs,
    storage_only evs /\ trace (workspaceState_update key v m) = trace m ++ evs.
Proof.
  unfold workspaceState_update. destruct (context (this m)).
  - exists [Stored key v]. split; [now repeat constructor | reflexivity].
  - exists []. split; [constructor | now rewrite app_nil_r].
Qed.

Lemma storage_only_app evs1 evs2 :
  storage_only evs1 -> storage_only evs2 -> storage_only (evs1 ++ evs2).
Proof. intros H1 H2. apply Forall_app. now split. Qed.

Lemma trace_saveState_begin m :
  exists evs, storage_only evs /\ trace (saveState_begin m) = trace m ++ evs.
Proof.
  unfold saveState_begin, save_field. destruct (context (this m)).
  - apply trace_workspaceState_update.
  - exists []. split; [constructor | now rewrite app_nil_r].
Qed.

Lemma trace_clearState_begin m :
  exists evs, storage_only evs /\ trace (clearState_begin m) = trace m ++ evs.
Proof.
  unfold clearState_begin. destruct (context (this m)).
  - apply trace_workspaceState_update.
  - exists []. split; [constructor | now rewrite app_nil_r].
Qed.

Lemma trace_four_writes k1 v1 k2 v2 k3 v3 k4 v4 m :
  exists evs,
    storage_only evs
    /\ trace
         (workspaceState_update k4 (v4 (workspaceState_update k3
            (v3 (workspaceState_update k2 (v2 (workspaceState_update k1 (v1 m) m))
                   (workspaceState_update k1 (v1 m) m)))
            (workspaceState_update k2 (v2 (workspaceState_update k1 (v1 m) m))
               (workspaceState_update k1 (v1 m) m))))
            (workspaceState_update k3
               (v3 (workspaceState_update k2 (v2 (workspaceState_update k1 (v1 m) m))
                      (workspaceState_update k1 (v1 m) m)))
               (workspaceState_update k2 (v2 (workspaceState_update k1 (v1 m) m))
                  (workspaceState_update k1 (v1 m) m))))
       = trace m ++ evs.
Proof.
  set (m1 := workspaceState_update k1 (v1 m) m).
  set (m2 := workspaceState_update k2 (v2 m1) m1).
  set (m3 := workspaceState_update k3 (v3 m2) m2).
  destruct (trace_workspaceState_update k1 (v1 m) m) as (e1 & H1 & T1).
  destruct (trace_workspaceState_update k2 (v2 m1) m1) as (e2 & H2 & T2).
  destruct (trace_workspaceState_update k3 (v3 m2) m2) as (e3 & H3 & T3).
  destruct (trace_workspaceState_update k4 (v4 m3) m3) as (e4 & H4 & T4).
  exists (e1 ++ e2 ++ e3 ++ e4). split.
  - now repeat apply storage_only_app.
  - fold m1 in T1. fold m2 in T2. fold m3 in T3.
    rewrite T4, T3, T2, T1. now rewrite <- !app_assoc.
Qed.

Lemma trace_saveState_resume m :
  exists evs, storage_only evs /\ trace (saveState_resume m) = trace m ++ evs.
Proof.
  unfold saveState_resume, save_field. destruct (context (this m)).
  - apply (trace_four_writes
             "timer_startTime" (fun m => VNum <$> (getTime <$> startTime (state (this m))))
             "timer_projectId"
             (fun m => VId <$> (entry (state (this m)) ≫= TimesheetEntry.project_id))
             "timer_taskId"
             (fun m => VId <$> (entry (state (this m)) ≫= TimesheetEntry.task_id))
             "timer_description"
             (fun m => VStr <$> (TimesheetEntry.name <$> entry (state (this m))))).
  - exists []. split; [constructor | now rewrite app_nil_r].
Qed.

Lemma trace_clearState_resume m :
  exists evs, storage_only evs /\ trace (clearState_resume m) = trace m ++ evs.
Proof.
  unfold clearState_resume. destruct (context (this m)).
  - apply (trace_four_writes
             "timer_startTime" (fun _ => None) "timer_projectId" (fun _ => None)
             "timer_taskId" (fun _ => None) "timer_description" (fun _ => None)).
  - exists []. split; [constructor | now rewrite app_nil_r].
Qed.

Lemma trace_startUpdateInterval m : trace (startUpdateInterval m) = trace m.
Proof.
  unfold startUpdateInterval.
  destruct (isRunning (state (this (stopUpdateInterval m))));
    [unfold setInterval; cbn [trace]|]; apply trace_stopUpdateInterval.
Qed.

(** What [this.saveState(); this.startUpdateInterval();
    this.notifyStateUpdate()] does in a running state, observers only
    reading. *)
Lemma saveState_then_notify m :
  Forall passive (updateCallbacks (this m)) ->
  timers_ok m ->
  isRunning (state (this m)) = true ->
  let m' := saveState_then (fun m => notifyStateUpdate (startUpdateInterval m)) m in
  state (this m') = state (this m)
  /\ updateCallbacks (this m') = updateCallbacks (this m)
  /\ context (this m') = saved (state (this m)) <$> context (this m)
  /\ (exists h, intervalId (this m') = Some h /\ timers m' = [h])
  /\ exists st1 st2,
       storage_only st1 /\ storage_only st2
       /\ trace m'
          = trace m ++ st1
              ++ notifications 0 (length (updateCallbacks (this m)))
                   (state (this m))
              ++ st2.
Proof.
  intros Hcbs Hok Hrun m'.
  assert (Hok' : timers_ok m')
    by (subst m'; unfold saveState_then; auto 10 with timers).
  unfold timers_ok in Hok'. subst m'. revert Hok'.
  observers_done. rewrite Hrun, saved_split. intros Hok'.
  repeat split; eauto.
  destruct (trace_saveState_begin m) as (st1 & Hst1 & T1).
  destruct (trace_saveState_resume
              (notifyStateUpdate (startUpdateInterval (saveState_begin m))))
    as (st2 & Hst2 & T2).
  exists st1, st2. repeat split; try assumption.
  unfold saveState_then. rewrite T2, notifyStateUpdate_passive by (service; assumption).
  cbn [trace add_events]. service.
  rewrite trace_startUpdateInterval, T1. now rewrite <- !app_assoc.
Qed.

(** What [this.clearState(); this.stopUpdateInterval();
    this.notifyStateUpdate()] does, observers only reading. *)
Lemma clearState_then_notify m :
  Forall passive (updateCallbacks (this m)) ->
  timers_ok m ->
  let m' := clearState_then (fun m => notifyStateUpdate (stopUpdateInterval m)) m in
  state (this m') = state (this m)
  /\ updateCallbacks (this m') = updateCallbacks (this m)
  /\ context (this m') = cleared <$> context (this m)
  /\ intervalId (this m') = None
  /\ timers m' = []
  /\ exists st1 st2,
       storage_only st1 /\ storage_only st2
       /\ trace m'
          = trace m ++ st1
              ++ notifications 0 (length (updateCallbacks (this m)))
                   (state (this m))
              ++ st2.
Proof.
  intros Hcbs Hok m'.
  assert (Hok' : timers_ok m')
    by (subst m'; unfold clearState_then; auto 10 with timers).
  unfold timers_ok in Hok'. subst m'. revert Hok'.
  observers_done. rewrite cleared_split. intros Hok'.
  repeat split; eauto.
  destruct (trace_clearState_begin m) as (st1 & Hst1 & T1).
  destruct (trace_clearState_resume
              (notifyStateUpdate (stopUpdateInterval (clearState_begin m))))
    as (st2 & Hst2 & T2).
  exists st1, st2. repeat split; try assumption.
  unfold clearState_then. rewrite T2, notifyStateUpdate_passive by (service; assumption).
  cbn [trace add_events]. service.
  rewrite trace_stopUpdateInterval, T1. now rewrite <- !app_assoc.
Qed.

(** ** Statements about the operations *)

(** C1: in every state a new service reaches by a sequence of
    operations (subscription of observers that only read, start, stop,
    refreshState, loadState, ticks of the interval, dispose), whatever
    the collaborators answer, [isRunning] is true exactly when
    [startTime] and [entryId] are both non-null, and when [isRunning]
    is false, [startTime], [entryId] and [entry] are all null. *)
Theorem state_invariant :
  forall ws ops,
    Forall well_behaved ops ->
    consistent (state (this (run ops (constructor ws)))).
Proof.
  intros ws ops Hops.
  apply installed_consistent.
  now apply (run_settled ops Hops), constructor_settled.
Qed.

(** ** The start time [refreshState] derives *)

(** What [getRunningTimer] returns went through [|| 0]: the entry has
    its [running_seconds], and its [unit_amount] is a number or [0]. *)
Lemma running_timer_query_shape env rt :
  running_timer_query env = Returned (Some rt) ->
  exists start amount,
    TimesheetEntry.running_seconds rt = Some (opt_or_zero start)
    /\ TimesheetEntry.unit_amount rt = opt_or_zero amount.
Proof.
  unfold running_timer_query, OdooTimesheet.getRunningTimer,
    OdooTimesheet.getTimesheetEntry, bind, executeKw, ret.
  destruct (get_running_timer_reply env) as [[r|]|msg]; simpl;
    try discriminate.
  destruct (RawTimer.id r) as [id|]; simpl; try discriminate.
  destruct (negb (id =? 0)%Z); simpl; try discriminate.
  destruct (read_reply env) as [[|e rest]|msg]; simpl; try discriminate.
  intros [= <-]. simpl. eauto.
Qed.

(** C2: when the running-timer query reports a timer [rt] (with an
    identifier), [rt] carries the elapsed seconds [E] the server
    reported, and with [H] its accumulated hours, [refreshState]
    installs the running state whose start time is the date
    [now - (E - H * 3600) * 1000] milliseconds, for that entry. Observers
    only read the state. *)
Theorem refreshState_back_computes_startTime :
  forall env m rt,
    Forall passive (updateCallbacks (this m)) ->
    running_timer_query env = Returned (Some rt) ->
    truthy_id (TimesheetEntry.id rt) = true ->
    exists E,
      TimesheetEntry.running_seconds rt = Some E
      /\ state (this (snd (refreshState env m)))
         = mkTimerState true
             (Some
                (new_Date
                   (Date_now env
                    - (E - TimesheetEntry.unit_amount rt * 3600) * 1000)%float))
             (TimesheetEntry.id rt) (Some rt).
Proof.
  intros env m rt Hcbs Hq Hid.
  destruct (running_timer_query_shape env rt Hq) as (start & amount & HE & HH).
  exists (opt_or_zero start). split; [assumption|].
  rewrite refreshState_run, Hq, Hid. cbn [snd]. observers_done.
  unfold refresh_startTime. rewrite HE, HH. simpl.
  now rewrite opt_or_zero_idem, current_seconds_opt_or_zero.
Qed.

(** ** Failure of the remote calls of [startTimer] *)

(** C7: when no timer is running, the client has a session, and the
    remote creation of the entry fails, or succeeds and the remote
    start of its timer fails, [startTimer] returns [false]; the service
    object (timer state, workspace storage, observers, interval) is
    what it was; the effects are the remote calls made and then the
    error message carrying the failure; nothing is stored and no
    observer is invoked. *)
Theorem startTimer_remote_failure :
  forall env name projectId taskId m uid msg,
    isRunning (state (this m)) = false ->
    session_uid env = Some uid ->
    (create_reply env = Failure msg
     \/ exists entryId,
          create_reply env = Answer entryId
          /\ action_timer_start_reply env = Failure msg) ->
    let r := startTimer env name projectId taskId m in
    fst r = Returned false
    /\ this (snd r) = this m
    /\ timers (snd r) = timers m
    /\ exists calls,
         trace (snd r)
         = trace m ++ map Called calls
             ++ [ShowError ("Failed to start timer: " ++ msg)].
Proof.
  intros env name projectId taskId m uid msg Hrun Hsession Hfail r.
  subst r. rewrite startTimer_run, Hrun, Hsession.
  destruct Hfail as [Hcreate | (entryId & Hcreate & Hstart)].
  - rewrite Hcreate. repeat split.
    exists [Create (start_values env name projectId taskId uid)]. reflexivity.
  - rewrite Hcreate, Hstart. repeat split.
    exists [Create (start_values env name projectId taskId uid);
            ActionTimerStart entryId].
    reflexivity.
Qed.

(** ** Guard of [startTimer] *)

(** C8: when a timer is running, [startTimer] returns [false] after
    showing the warning "Timer is already running"; the service object
    (state, observers, interval, workspace storage) and the timer table
    are what they were, and the warning is the only effect: no remote
    call, no storage write, no observer invoked. *)
Theorem startTimer_already_running :
  forall env name projectId taskId m,
    isRunning (state (this m)) = true ->
    startTimer env name projectId taskId m
    = (Returned false, emit (ShowWarning "Timer is already running") m).
Proof.
  intros env name projectId taskId m Hrun.
  unfold startTimer. rewrite Hrun. reflexivity.
Qed.

(** ** Idempotence of [refreshState] *)

Lemma put_partial_alter key v (ws : gmap string Value) :
  put key v ws = partial_alter (fun _ => v) key ws.
Proof. destruct v; reflexivity. Qed.

Lemma lookup_put key v (ws : gmap string Value) k :
  put key v ws !! k = if decide (key = k) then v else ws !! k.
Proof. rewrite put_partial_alter. apply lookup_partial_alter. Qed.

Lemma running_timer_calls_remote env :
  exists calls, running_timer_calls env = map Called calls.
Proof.
  unfold running_timer_calls, OdooTimesheet.getRunningTimer. monad.
  destruct (get_running_timer_reply env) as [[r|]|msg];
    try (now exists [GetRunningTimer]).
  destruct (RawTimer.id r) as [id|]; try (now exists [GetRunningTimer]).
  destruct (negb (id =? 0)%Z); try (now exists [GetRunningTimer]).
  destruct (read_reply env) as [[|e rest]|msg];
    now exists [GetRunningTimer; Read id].
Qed.

Lemma stored_saveState_begin m :
  stored (trace (saveState_begin m))
  = stored (trace m)
      ++ match context (this m) with
         | Some _ => [("timer_entryId", VId <$> entryId (state (this m)))]
         | None => []
         end.
Proof.
  destruct m as [[s cbs iid [ws|]] tms nxt tr]; unfold saveState_begin; fields;
    [|now rewrite app_nil_r].
  rewrite save_field_step. fields. now rewrite stored_app.
Qed.

Lemma stored_saveState_resume m :
  stored (trace (saveState_resume m))
  = stored (trace m)
      ++ match context (this m) with
         | Some _ => map (fun w => (fst w, snd w (state (this m)))) saveState_later
         | None => []
         end.
Proof.
  destruct m as [[s cbs iid [ws|]] tms nxt tr]; unfold saveState_resume; fields;
    [|now rewrite app_nil_r].
  rewrite !save_field_step. fields. rewrite !stored_app, <- !app_assoc.
  reflexivity.
Qed.

Lemma stored_clearState_begin m :
  stored (trace (clearState_begin m))
  = stored (trace m)
      ++ match context (this m) with
         | Some _ => [("timer_entryId", None)]
         | None => []
         end.
Proof.
  destruct m as [[s cbs iid [ws|]] tms nxt tr]; unfold clearState_begin; fields;
    [|now rewrite app_nil_r].
  rewrite workspaceState_update_step. fields. now rewrite stored_app.
Qed.

Lemma stored_clearState_resume m :
  stored (trace (clearState_resume m))
  = stored (trace m)
      ++ match context (this m) with
         | Some _ => tail clearing_writes
         | None => []
         end.
Proof.
  destruct m as [[s cbs iid [ws|]] tms nxt tr]; unfold clearState_resume; fields;
    [|now rewrite app_nil_r].
  rewrite !workspaceState_update_step. fields.
  rewrite !stored_app, <- !app_assoc. reflexivity.
Qed.

(** The writes of [this.saveState(); this.startUpdateInterval();
    this.notifyStateUpdate()] and of [this.clearState();
    this.stopUpdateInterval(); this.notifyStateUpdate()], observers only
    reading. *)
Lemma stored_saveState_then_notify m :
  Forall passive (updateCallbacks (this m)) ->
  stored
    (trace
       (saveState_then (fun m => notifyStateUpdate (startUpdateInterval m)) m))
  = stored (trace m)
      ++ match context (this m) with
         | Some _ => snapshot_writes (state (this m))
         | None => []
         end.
Proof.
  intros Hcbs. unfold saveState_then.
  rewrite stored_saveState_resume.
  rewrite notifyStateUpdate_passive by (service; assumption).
  cbn [trace add_events]. rewrite stored_app, stored_notifications, app_nil_r.
  rewrite trace_startUpdateInterval, stored_saveState_begin. service.
  destruct (context (this m)); cbn [fmap option_fmap option_map];
    [|now rewrite !app_nil_r].
  now rewrite <- app_assoc.
Qed.

Lemma stored_clearState_then_notify m :
  Forall passive (updateCallbacks (this m)) ->
  stored
    (trace
       (clearState_then (fun m => notifyStateUpdate (stopUpdateInterval m)) m))
  = stored (trace m)
      ++ match context (this m) with
         | Some _ => clearing_writes
         | None => []
         end.
Proof.
  intros Hcbs. unfold clearState_then.
  rewrite stored_clearState_resume.
  rewrite notifyStateUpdate_passive by (service; assumption).
  cbn [trace add_events]. rewrite stored_app, stored_notifications, app_nil_r.
  rewrite trace_stopUpdateInterval, stored_clearState_begin. service.
  destruct (context (this m)); cbn [fmap option_fmap option_map];
    [|now rewrite !app_nil_r].
  now rewrite <- app_assoc.
Qed.

Lemma write_all_app w1 w2 ws :
  write_all (w1 ++ w2) ws = write_all w2 (write_all w1 ws).
Proof. apply fold_left_app. Qed.

Lemma write_all_snapshot s ws : write_all (snapshot_writes s) ws = saved s ws.
Proof. reflexivity. Qed.

Lemma write_all_clearing ws : write_all clearing_writes ws = cleared ws.
Proof. reflexivity. Qed.

Lemma lookup_write_all_in writes :
  forall ws key v,
    (forall v', (key, v') ∈ writes -> v' = v) ->
    (key, v) ∈ writes ->
    write_all writes ws !! key = v.
Proof.
  induction writes as [|w writes IH] using rev_ind; intros ws key v Hfun Hin.
  - now apply elem_of_nil in Hin.
  - rewrite write_all_app. cbn [write_all fold_left]. rewrite lookup_put.
    case_decide as Hkey.
    + apply Hfun. rewrite elem_of_app, list_elem_of_singleton. right.
      destruct w as [k' v']. cbn in Hkey |- *. now subst.
    + apply IH.
      * intros v' Hv'. apply Hfun. rewrite elem_of_app. now left.
      * apply elem_of_app in Hin as [Hin | Hin]; [assumption|].
        apply list_elem_of_singleton in Hin. subst w. now contradict Hkey.
Qed.

Lemma lookup_write_all_notin writes :
  forall ws key,
    (forall v, (key, v) ∉ writes) ->
    write_all writes ws !! key = ws !! key.
Proof.
  induction writes as [|w writes IH] using rev_ind; intros ws key Hout;
    [reflexivity|].
  rewrite write_all_app. cbn [write_all fold_left]. rewrite lookup_put.
  case_decide as Hkey.
  - exfalso. apply (Hout (snd w)). rewrite elem_of_app, list_elem_of_singleton.
    right. destruct w. cbn in Hkey |- *. now subst.
  - apply IH. intros v Hv. apply (Hout v). rewrite elem_of_app. now left.
Qed.

Lemma NoDup_keys_functional (W : list (string * option Value)) :
  NoDup W.*1 ->
  forall key v v', (key, v) ∈ W -> (key, v') ∈ W -> v' = v.
Proof.
  induction W as [|[k0 v0] W IH]; intros Hkeys key v v' Hv Hv'.
  - now apply elem_of_nil in Hv.
  - cbn in Hkeys. apply NoDup_cons in Hkeys as [Hk0 Hkeys].
    assert (Hout : forall x, (k0, x) ∉ W).
    { intros x Hx. apply Hk0. apply list_elem_of_fmap. now exists (k0, x). }
    apply elem_of_cons in Hv as [Hv | Hv], Hv' as [Hv' | Hv'].
    + congruence.
    + injection Hv as -> ->. now apply Hout in Hv'.
    + injection Hv' as -> ->. now apply Hout in Hv.
    + now apply (IH Hkeys key).
Qed.

(** Writes that give each key one value leave the same storage in
    whatever order, and how often, they are made. *)
Lemma write_all_any_order W writes ws :
  NoDup W.*1 ->
  (forall w, w ∈ writes <-> w ∈ W) ->
  write_all writes ws = write_all W ws.
Proof.
  intros Hkeys Hsame.
  assert (Hfun : forall key v v', (key, v) ∈ W -> (key, v') ∈ W -> v' = v).
  { now apply NoDup_keys_functional. }
  apply map_eq. intros key.
  destruct (decide (key ∈ W.*1)) as [Hin | Hout].
  - apply list_elem_of_fmap in Hin as ([k v] & -> & Hin). cbn.
    rewrite (lookup_write_all_in writes ws k v),
      (lookup_write_all_in W ws k v); try reflexivity; try assumption.
    + intros v'. now apply Hfun.
    + intros v' Hv'. apply (Hfun k v v' Hin). now apply Hsame.
    + now apply Hsame.
  - rewrite !lookup_write_all_notin; try reflexivity.
    + intros v Hv. apply Hout. apply list_elem_of_fmap. now exists (key, v).
    + intros v Hv. apply Hout. apply list_elem_of_fmap. exists (key, v).
      split; [reflexivity|]. now apply Hsame.
Qed.

Lemma NoDup_snapshot_keys : NoDup snapshot_keys.
Proof. apply (bool_decide_unpack _). vm_compute. exact I. Qed.

Lemma refreshState_writes_keys env m : NoDup (refreshState_writes env m).*1.
Proof.
  unfold refreshState_writes.
  destruct (running_timer_query env) as [[rt|]|msg];
    repeat match goal with
           | |- context [if ?b then _ else _] => destruct b
           end;
    first [exact NoDup_snapshot_keys | constructor].
Qed.

Lemma stored_refresh_cleared m :
  Forall passive (updateCallbacks (this m)) ->
  stored (trace (refresh_cleared m))
  = stored (trace m)
      ++ match context (this m) with
         | Some _ => if isRunning (state (this m)) then clearing_writes else []
         | None => []
         end
  /\ context (this (refresh_cleared m))
     = write_all (if isRunning (state (this m)) then clearing_writes else [])
         <$> context (this m).
Proof.
  intros Hcbs. unfold refresh_cleared.
  destruct (isRunning (state (this m))) eqn:Hrun.
  - rewrite stored_clearState_then_notify by assumption. split.
    + reflexivity.
    + service. now rewrite cleared_split.
  - split.
    + destruct (context (this m)); now rewrite app_nil_r.
    + now destruct (context (this m)).
Qed.

(** The writes of a whole [refreshState] and the storage they leave. *)
Lemma refreshState_stored env m :
  Forall passive (updateCallbacks (this m)) ->
  let m1 := snd (refreshState env m) in
  stored (trace m1)
  = stored (trace m)
      ++ match context (this m) with
         | Some _ => refreshState_writes env m
         | None => []
         end
  /\ context (this m1) = write_all (refreshState_writes env m) <$> context (this m).
Proof.
  intros Hcbs m1. subst m1. rewrite refreshState_run. cbn [snd].
  unfold refreshState_writes.
  set (m0 := add_events (running_timer_calls env) (stopUpdateInterval m)).
  assert (H0 : Forall passive (updateCallbacks (this m0)))
    by (subst m0; service; assumption).
  assert (Ht0 : stored (trace m0) = stored (trace m)).
  { subst m0. cbn [trace add_events]. rewrite trace_stopUpdateInterval.
    destruct (running_timer_calls_remote env) as [cs ->].
    now rewrite stored_app, stored_map_Called, app_nil_r. }
  assert (Hc0 : context (this m0) = context (this m))
    by (subst m0; now service).
  assert (Hs0 : state (this m0) = state (this m))
    by (subst m0; now service).
  assert (Hidle :
    stored (trace (refresh_cleared m0))
    = stored (trace m)
        ++ match context (this m) with
           | Some _ =>
               if isRunning (state (this m)) then clearing_writes else []
           | None => []
           end
    /\ context (this (refresh_cleared m0))
       = write_all (if isRunning (state (this m)) then clearing_writes else [])
           <$> context (this m)).
  { destruct (stored_refresh_cleared m0 H0) as [H1 H2].
    now rewrite H1, H2, Ht0, Hc0, Hs0. }
  destruct (running_timer_query env) as [[rt|]|msg]; [|exact Hidle|].
  - destruct (truthy_id (TimesheetEntry.id rt)); [|exact Hidle].
    set (m' := set_state _ m0).
    assert (H' : Forall passive (updateCallbacks (this m'))) by assumption.
    rewrite stored_saveState_then_notify by assumption.
    split.
    + subst m'. cbn [trace set_state this context state]. now rewrite Ht0, Hc0.
    + observers_done. subst m'. cbn [this set_state state context entryId].
      now rewrite saved_split, Hc0.
  - split.
    + rewrite trace_stopUpdateInterval. cbn [trace emit].
      rewrite stored_app, Ht0. cbn [stored flat_map app].
      destruct (context (this m)); reflexivity.
    + service. rewrite Hc0. destruct (context (this m)); reflexivity.
Qed.

Lemma refreshState_state env m :
  Forall passive (updateCallbacks (this m)) ->
  let m1 := snd (refreshState env m) in
  updateCallbacks (this m1) = updateCallbacks (this m)
  /\ state (this m1)
     = match running_timer_query env with
       | Returned (Some rt) =>
           if truthy_id (TimesheetEntry.id rt) then
             mkTimerState true (Some (refresh_startTime env rt))
               (TimesheetEntry.id rt) (Some rt)
           else if isRunning (state (this m)) then stopped
           else state (this m)
       | Returned None =>
           if isRunning (state (this m)) then stopped else state (this m)
       | Thrown _ => state (this m)
       end.
Proof.
  intros Hcbs m1. subst m1. rewrite refreshState_run. cbn [snd].
  set (m0 := add_events (running_timer_calls env) (stopUpdateInterval m)).
  assert (H0 : Forall passive (updateCallbacks (this m0)))
    by (subst m0; service; assumption).
  assert (Hidle :
    updateCallbacks (this (refresh_cleared m0)) = updateCallbacks (this m)
    /\ state (this (refresh_cleared m0))
       = if isRunning (state (this m)) then stopped else state (this m)).
  { unfold refresh_cleared.
    assert (Hs0 : state (this m0) = state (this m)) by (subst m0; now service).
    rewrite Hs0. destruct (isRunning (state (this m))).
    - observers_done. subst m0. now service.
    - subst m0. now service. }
  destruct (running_timer_query env) as [[rt|]|msg]; [|exact Hidle|].
  - destruct (truthy_id (TimesheetEntry.id rt)); [|exact Hidle].
    observers_done. subst m0. now service.
  - subst m0. now service.
Qed.

(** C3, amended: two calls of [refreshState] in succession whose
    running-timer queries get the same answer and which, when that
    answer is a running timer, read the same clock (observers only
    read). The second call leaves the timer state and the workspace
    storage as the first call left them; and in whatever order the
    writes of the two calls reach the workspace storage, it ends as the
    first call alone leaves it. When the local state is stopped and the
    query reports no running timer, the call changes neither the timer
    state nor the workspace storage and invokes no observer: the remote
    query is its only effect. *)
Theorem refreshState_idempotent :
  forall envA envB m,
    Forall passive (updateCallbacks (this m)) ->
    running_timer_query envB = running_timer_query envA ->
    (forall rt,
        running_timer_query envA = Returned (Some rt) ->
        truthy_id (TimesheetEntry.id rt) = true ->
        Date_now envB = Date_now envA) ->
    let m1 := snd (refreshState envA m) in
    let m2 := snd (refreshState envB m1) in
    (state (this m2) = state (this m1) /\ context (this m2) = context (this m1))
    /\ (exists w1 w2,
           stored (trace m1) = stored (trace m) ++ w1
           /\ stored (trace m2) = stored (trace m1) ++ w2
           /\ forall ws writes,
                context (this m) = Some ws ->
                writes ≡ₚ w1 ++ w2 ->
                context (this m1) = Some (write_all writes ws))
    /\ (isRunning (state (this m)) = false ->
        running_timer_query envA = Returned None ->
        state (this m1) = state (this m)
        /\ context (this m1) = context (this m)
        /\ exists calls, trace m1 = trace m ++ map Called calls).
Proof.
  intros envA envB m Hcbs Hq Hclock m1 m2.
  destruct (refreshState_state envA m Hcbs) as [Hcbs1 Hs1].
  destruct (refreshState_stored envA m Hcbs) as [Ht1 Hc1].
  fold m1 in Hcbs1, Hs1, Ht1, Hc1.
  assert (Hcbs' : Forall passive (updateCallbacks (this m1)))
    by (now rewrite Hcbs1).
  destruct (refreshState_state envB m1 Hcbs') as [_ Hs2].
  destruct (refreshState_stored envB m1 Hcbs') as [Ht2 Hc2].
  fold m2 in Hs2, Ht2, Hc2.
  (* what the second call writes, the first has written *)
  assert (Hagain :
    state (this m2) = state (this m1)
    /\ forall w,
         w ∈ refreshState_writes envB m1 -> w ∈ refreshState_writes envA m).
  { rewrite Hs2. unfold refreshState_writes. rewrite Hq.
    destruct (running_timer_query envA) as [[rt|]|msg] eqn:HqA.
    - destruct (truthy_id (TimesheetEntry.id rt)) eqn:Hid.
      + assert (Hst : refresh_startTime envB rt = refresh_startTime envA rt).
        { unfold refresh_startTime. now rewrite (Hclock rt eq_refl Hid). }
        rewrite Hst, Hs1. now split.
      + rewrite Hs1. destruct (isRunning (state (this m))) eqn:Hrun;
          cbn [isRunning stopped]; [|rewrite Hrun]; split; try reflexivity;
          intros w Hw; now apply elem_of_nil in Hw.
    - rewrite Hs1. destruct (isRunning (state (this m))) eqn:Hrun;
        cbn [isRunning stopped]; [|rewrite Hrun]; split; try reflexivity;
        intros w Hw; now apply elem_of_nil in Hw.
    - split; [reflexivity|]. intros w Hw. now apply elem_of_nil in Hw. }
  destruct Hagain as [Hstate Hsub].
  split; [|split].
  - split; [exact Hstate|]. rewrite Hc2, Hc1.
    destruct (context (this m)) as [ws|]; [|reflexivity].
    cbn [fmap option_fmap option_map]. f_equal.
    rewrite <- write_all_app.
    apply write_all_any_order; [apply refreshState_writes_keys|].
    intros w. rewrite elem_of_app. split; [|now left].
    intros [Hw | Hw]; [assumption | now apply Hsub].
  - eexists. eexists. split; [exact Ht1|]. split; [exact Ht2|].
    intros ws writes Hctx Hperm. rewrite Hc1, Hctx in *.
    cbn [fmap option_fmap option_map]. f_equal. symmetry.
    apply write_all_any_order; [apply refreshState_writes_keys|].
    intros w. rewrite Hperm, elem_of_app. split; [|now left].
    intros [Hw | Hw]; [assumption | now apply Hsub].
  - intros Hrun HqA. rewrite Hs1, Hc1. unfold refreshState_writes.
    rewrite HqA, Hrun. split; [reflexivity|]. split.
    + now destruct (context (this m)).
    + subst m1. rewrite refreshState_run, HqA. cbn [snd].
      unfold refresh_cleared. service. rewrite Hrun.
      destruct (running_timer_calls_remote envA) as [calls ->].
      exists calls. cbn [trace add_events]. now rewrite trace_stopUpdateInterval.
Qed.

(** C3 as stated fails twice over. With the service stopped, one
    observer registered and no timer running on the server,
    [refreshState] queries the server and invokes no observer. And with
    the same running timer reported to two calls one second apart, the
    second call installs and stores a start time one second later than
    the first. *)
Lemma refreshState_no_fan_out_and_clock_dependence :
  (let m := snd (refreshState (idle_env 1700000000000) sample_idle) in
   isRunning (state (this sample_idle)) = false
   /\ running_timer_query (idle_env 1700000000000) = Returned None
   /\ length (updateCallbacks (this sample_idle)) = 1
   /\ trace m = [Called GetRunningTimer]
   /\ ~ exists s, In (Notified 0 s) (trace m))
  /\ (let envA := sample_env 1700000000000 in
      let envB := sample_env 1700000001000 in
      let m1 := snd (refreshState envA sample_idle) in
      let m2 := snd (refreshState envB m1) in
      running_timer_query envB = running_timer_query envA
      /\ startTime (state (this m1)) = Some (mkDate 1699999969500)
      /\ startTime (state (this m2)) = Some (mkDate 1699999970500)
      /\ state (this m2) <> state (this m1)
      /\ (context (this m1) ≫= fun ws => get_num ws "timer_startTime")
         = Some 1699999969500%float
      /\ (context (this m2) ≫= fun ws => get_num ws "timer_startTime")
         = Some 1699999970500%float).
Proof.
  split.
  - repeat split. intros [s [H | []]]. discriminate H.
  - cbv zeta. split_and!; try reflexivity.
    intros H. apply (f_equal startTime) in H. vm_compute in H. discriminate H.
Qed.

(** ** Restoring from the workspace storage *)

Lemma lookup_saved_entryId s ws :
  saved s ws !! "timer_entryId" = VId <$> entryId s.
Proof.
  unfold saved, saved_rest. rewrite !lookup_put. now repeat case_decide.
Qed.

Lemma lookup_saved_startTime s ws :
  saved s ws !! "timer_startTime" = VNum <$> (getTime <$> startTime s).
Proof.
  unfold saved, saved_rest. rewrite !lookup_put. now repeat case_decide.
Qed.

Lemma lookup_saved_projectId s ws :
  saved s ws !! "timer_projectId"
  = VId <$> (entry s ≫= TimesheetEntry.project_id).
Proof.
  unfold saved, saved_rest. rewrite !lookup_put. now repeat case_decide.
Qed.

Lemma lookup_saved_taskId s ws :
  saved s ws !! "timer_taskId" = VId <$> (entry s ≫= TimesheetEntry.task_id).
Proof.
  unfold saved, saved_rest. rewrite !lookup_put. now repeat case_decide.
Qed.

Lemma lookup_saved_description s ws :
  saved s ws !! "timer_description"
  = VStr <$> (TimesheetEntry.name <$> entry s).
Proof.
  unfold saved, saved_rest. rewrite !lookup_put. now repeat case_decide.
Qed.

Lemma get_id_fmap (ws : gmap string Value) key i :
  ws !! key = VId <$> i -> get_id ws key = i.
Proof. unfold get_id. intros ->. now destruct i. Qed.

Lemma get_num_fmap (ws : gmap string Value) key x :
  ws !! key = VNum <$> x -> get_num ws key = x.
Proof. unfold get_num. intros ->. now destruct x. Qed.

Lemma get_str_fmap (ws : gmap string Value) key x :
  ws !! key = VStr <$> x -> get_str ws key = x.
Proof. unfold get_str. intros ->. now destruct x. Qed.

Lemma startTimer_resolved_run env name projectId taskId m :
  startTimer_resolved env name projectId taskId m
  = if isRunning (state (this m)) then
      (Returned false, emit (ShowWarning "Timer is already running") m)
    else
      match session_uid env with
      | None =>
          (Returned false,
           emit (ShowError "Failed to start timer: Not authenticated") m)
      | Some uid =>
          let create := Called (Create (start_values env name projectId taskId uid)) in
          match create_reply env with
          | Failure msg =>
              (Returned false,
               add_events [create; ShowError ("Failed to start timer: " ++ msg)] m)
          | Answer entryId =>
              match action_timer_start_reply env with
              | Failure msg =>
                  (Returned false,
                   add_events
                     [create; Called (ActionTimerStart entryId);
                      ShowError ("Failed to start timer: " ++ msg)] m)
              | Answer _ =>
                  (Returned true,
                   notifyStateUpdate
                     (startUpdateInterval
                        (saveState_begin
                           (set_state
                              (started env name projectId taskId uid entryId)
                              (add_events
                                 [create; Called (ActionTimerStart entryId)]
                                 m)))))
              end
          end
      end.
Proof.
  unfold startTimer_resolved.
  destruct (isRunning (state (this m))); [reflexivity|].
  unfold try_catch, bind, do, ret, throw,
    OdooTimesheet.createTimesheetEntry, OdooTimesheet.startTimer, executeKw.
  destruct (session_uid env) as [uid|]; [|reflexivity].
  destruct (create_reply env) as [entryId|msg]; simpl.
  - destruct (action_timer_start_reply env) as [ok|msg]; simpl.
    + unfold emit, add_events; simpl. rewrite <- app_assoc. reflexivity.
    + unfold emit, add_events; simpl. rewrite <- !app_assoc. reflexivity.
  - unfold emit, add_events; simpl. rewrite <- app_assoc. reflexivity.
Qed.

(** [startTimer] run to the end of its writes is [startTimer] as far as
    its promise resolves, followed by the writes [saveState] has left. *)
Lemma startTimer_completes env name projectId taskId m :
  startTimer env name projectId taskId m
  = let r := startTimer_resolved env name projectId taskId m in
    (fst r,
     match fst r with
     | Returned true => saveState_resume (snd r)
     | _ => snd r
     end).
Proof.
  rewrite startTimer_run, startTimer_resolved_run. cbv zeta.
  destruct (isRunning (state (this m))); [reflexivity|].
  destruct (session_uid env) as [uid|]; [|reflexivity].
  destruct (create_reply env) as [entryId|msg]; [|reflexivity].
  destruct (action_timer_start_reply env) as [ok|msg]; reflexivity.
Qed.

Lemma saveState_resume_upto_all m :
  saveState_resume_upto 4 m = saveState_resume m.
Proof.
  unfold saveState_resume_upto, saveState_resume.
  destruct (context (this m)); reflexivity.
Qed.

Lemma this_saveState_resume_upto k m :
  this (saveState_resume_upto k m)
  = mkTimerService (state (this m)) (updateCallbacks (this m))
      (intervalId (this m))
      (write_all
         (take k (map (fun w => (fst w, snd w (state (this m)))) saveState_later))
         <$> context (this m)).
Proof.
  destruct m as [[s cbs iid [ws|]] tms nxt tr]; [|reflexivity].
  unfold saveState_resume_upto, write_all. fields.
  destruct k as [|[|[|[|k]]]];
    cbn [take firstn saveState_later fold_left map fst snd];
    rewrite ?save_field_step; try reflexivity.
  rewrite !firstn_nil. reflexivity.
Qed.

(** What a new service reads from the storage when [k] of the writes
    [saveState] makes after its first [await] have been made. *)
Lemma lookup_snapshot_upto k s ws :
  let wsk :=
    write_all
      (take k (map (fun w => (fst w, snd w s)) saveState_later))
      (put "timer_entryId" (VId <$> entryId s) ws) in
  get_id wsk "timer_entryId" = entryId s
  /\ get_num wsk "timer_startTime"
     = (if 1 <=? k then getTime <$> startTime s
        else get_num ws "timer_startTime")
  /\ get_id wsk "timer_projectId"
     = (if 2 <=? k then entry s ≫= TimesheetEntry.project_id
        else get_id ws "timer_projectId")
  /\ get_id wsk "timer_taskId"
     = (if 3 <=? k then entry s ≫= TimesheetEntry.task_id
        else get_id ws "timer_taskId").
Proof.
  cbv zeta. unfold write_all, get_id, get_num.
  destruct k as [|[|[|[|k]]]];
    cbn [take firstn saveState_later fold_left map fst snd Nat.leb];
    rewrite ?firstn_nil; cbn [fold_left];
    rewrite !lookup_put; repeat case_decide; try congruence;
    split_and!; try reflexivity;
    try (now destruct (entryId s));
    try (now destruct (startTime s));
    try (now destruct (entry s ≫= TimesheetEntry.project_id));
    try (now destruct (entry s ≫= TimesheetEntry.task_id)).
Qed.

(** C5, amended: [startTimer(name, projectId, taskId)] on a stopped
    service with workspace storage creates entry [id] (not 0) and
    starts its timer, at a clock reading that is a time value (whole
    milliseconds, not 0); observers only read. It calls [saveState]
    without [await]: when its promise resolves the entry identifier is
    written, and the start time, project, task and description follow,
    one write after the other. A new service over the storage as it is
    after [k] of these four writes, whose running-timer query reports
    an entry with identifier [id], restores by [loadState]: nothing
    while the start time is not written ([k = 0], no start time left
    from an earlier snapshot); from then on the running state with the
    same entry identifier and the start time that was stored (the
    millisecond count read back, not a recomputed one), with the
    project given to [startTimer] once it is written ([2 <= k]) and the
    task once it is written ([3 <= k]). After all four writes, which is
    the storage a whole [startTimer] leaves, it restores all of them. *)
Theorem loadState_restores_started :
  forall env1 env2 name projectId taskId m ws uid id ok rt k,
    Forall passive (updateCallbacks (this m)) ->
    isRunning (state (this m)) = false ->
    context (this m) = Some ws ->
    session_uid env1 = Some uid ->
    create_reply env1 = Answer id ->
    id <> 0%Z ->
    action_timer_start_reply env1 = Answer ok ->
    TimeClip (Date_now env1) = Date_now env1 ->
    truthy (Date_now env1) = true ->
    running_timer_query env2 = Returned (Some rt) ->
    TimesheetEntry.id rt = Some id ->
    let resolved := startTimer_resolved env1 name projectId taskId m in
    let mk := saveState_resume_upto k (snd resolved) in
    let restarted := constructor (context (this mk)) in
    let r := loadState env2 restarted in
    fst resolved = Returned true
    /\ startTimer env1 name projectId taskId m
       = (Returned true, saveState_resume_upto 4 (snd resolved))
    /\ state (this mk) = started env1 name projectId taskId uid id
    /\ (k = 0 ->
        get_num ws "timer_startTime" = None ->
        r = (Returned false, restarted))
    /\ (1 <= k ->
        (exists wsk,
            context (this mk) = Some wsk
            /\ get_num wsk "timer_startTime" = Some (Date_now env1))
        /\ fst r = Returned true
        /\ isRunning (state (this (snd r))) = true
        /\ entryId (state (this (snd r))) = entryId (state (this mk))
        /\ entryId (state (this (snd r))) = Some id
        /\ startTime (state (this (snd r))) = startTime (state (this mk))
        /\ startTime (state (this (snd r))) = Some (mkDate (Date_now env1))
        /\ (entry (state (this (snd r))) ≫= TimesheetEntry.project_id)
           = (if 2 <=? k then projectId else get_id ws "timer_projectId")
        /\ (entry (state (this (snd r))) ≫= TimesheetEntry.task_id)
           = (if 3 <=? k then taskId else get_id ws "timer_taskId")).
Proof.
  intros env1 env2 name projectId taskId m ws uid id ok rt k
    Hcbs Hrun Hctx Hsession Hcreate Hid Hstart Hclip Hnow Hq Hrt
    resolved mk restarted r.
  set (s := started env1 name projectId taskId uid id).
  assert (Hres : resolved
                 = (Returned true,
                    notifyStateUpdate
                      (startUpdateInterval
                         (saveState_begin
                            (set_state s
                               (add_events
                                  [Called
                                     (Create
                                        (start_values env1 name projectId
                                           taskId uid));
                                   Called (ActionTimerStart id)] m)))))).
  { subst resolved.
    now rewrite startTimer_resolved_run, Hrun, Hsession, Hcreate, Hstart. }
  assert (Hthis : state (this (snd resolved)) = s
                  /\ context (this (snd resolved))
                     = Some (put "timer_entryId" (VId <$> entryId s) ws)).
  { rewrite Hres. cbn [snd]. observers_done. now rewrite Hctx. }
  destruct Hthis as [Hstate Hstorage].
  assert (Hmk : state (this mk) = s
                /\ context (this mk)
                   = Some
                       (write_all
                          (take k
                             (map (fun w => (fst w, snd w s)) saveState_later))
                          (put "timer_entryId" (VId <$> entryId s) ws))).
  { subst mk. rewrite this_saveState_resume_upto, Hstate, Hstorage.
    cbn [state context fmap option_fmap option_map]. now split. }
  destruct Hmk as [Hsk Hck].
  destruct (lookup_snapshot_upto k s ws) as (Heid & Hms & Hpid & Htid).
  cbv zeta in Heid, Hms, Hpid, Htid.
  split; [now rewrite Hres|].
  split.
  { rewrite startTimer_completes. cbv zeta. fold resolved. rewrite Hres.
    reflexivity. }
  split; [exact Hsk|].
  assert (Hne : negb (id =? 0)%Z = true)
    by (now apply negb_true_iff, Z.eqb_neq).
  split.
  - intros Hk Hnone. subst r restarted. rewrite loadState_run.
    cbn [this context constructor]. rewrite Hck, Hms, Hk. cbn [Nat.leb].
    now rewrite Hnone.
  - intros Hk. apply Nat.leb_le in Hk. rewrite Hk in Hms.
    split; [eexists; split; [exact Hck | exact Hms]|].
    subst r restarted. rewrite loadState_run.
    cbn [this context constructor]. rewrite Hck, Hsk, Hms, Heid, Hpid, Htid. cbn [s started startTime entryId fmap option_fmap
                              option_map getTime].
    rewrite Hnow, Hq, Hrt.
    cbn [truthy_id andb strict_eq_id]. rewrite Hne, Z.eqb_refl.
    cbn [fst snd]. unfold notifyStateUpdate. service. cbn [forEach].
    service. unfold new_Date. rewrite Hclip.
    split_and!; reflexivity.
Qed.

(** C5 as stated fails when the new service reads the storage before
    the writes are made. [startTimer("Task A", 5, 10)] has resolved on
    a service with empty storage: the entry identifier is written, the
    start time is not, and [loadState] restores nothing. After one more
    write it restores the entry and the start time, without project and
    task. *)
Lemma loadState_before_snapshot_written :
  let env1 := sample_env 1700000000000 in
  let env2 := sample_env 1700000100000 in
  let resolved :=
    startTimer_resolved env1 "Task A" (Some 5%Z) (Some 10%Z) sample_idle in
  let restarted0 := constructor (context (this (snd resolved))) in
  let restarted1 :=
    constructor (context (this (saveState_resume_upto 1 (snd resolved)))) in
  (fst resolved = Returned true
   /\ isRunning (state (this (snd resolved))) = true
   /\ running_timer_query env2 = Returned (Some sample_timer)
   /\ TimesheetEntry.id sample_timer = Some 7%Z)
  /\ ((context (this restarted0) ≫= fun ws => get_id ws "timer_entryId")
      = Some 7%Z
      /\ (context (this restarted0) ≫= fun ws => get_num ws "timer_startTime")
         = None
      /\ loadState env2 restarted0 = (Returned false, restarted0))
  /\ (fst (loadState env2 restarted1) = Returned true
      /\ startTime (state (this (snd (loadState env2 restarted1))))
         = Some (mkDate 1700000000000)
      /\ (entry (state (this (snd (loadState env2 restarted1))))
          ≫= TimesheetEntry.project_id) = None
      /\ (entry (state (this (snd (loadState env2 restarted1))))
          ≫= TimesheetEntry.task_id) = None).
Proof. cbv zeta. split_and!; reflexivity. Qed.

(** With a snapshot in the storage, [loadState] asks the server. When
    the query throws, the snapshot is cleared; the timer state is kept
    and [false] is returned. *)
Lemma loadState_query_throws env m ws ms msg :
  context (this m) = Some ws ->
  get_num ws "timer_startTime" = Some ms ->
  truthy_id (get_id ws "timer_entryId") && truthy ms = true ->
  running_timer_query env = Thrown msg ->
  fst (loadState env m) = Returned false
  /\ state (this (snd (loadState env m))) = state (this m)
  /\ context (this (snd (loadState env m))) = Some (cleared ws).
Proof.
  intros Hctx Hms Hguard Hq.
  rewrite loadState_run, Hctx, Hms, Hguard, Hq. cbn [fst snd]. service.
  now rewrite Hctx.
Qed.

(** When the query reports no timer, or one with another identifier,
    [false] is returned and the service object is what it was: the
    snapshot stays in the storage. *)
Lemma loadState_mismatch env m ws ms answer :
  context (this m) = Some ws ->
  get_num ws "timer_startTime" = Some ms ->
  truthy_id (get_id ws "timer_entryId") && truthy ms = true ->
  running_timer_query env = Returned answer ->
  match answer with
  | Some rt => TimesheetEntry.id rt <> get_id ws "timer_entryId"
  | None => True
  end ->
  fst (loadState env m) = Returned false
  /\ this (snd (loadState env m)) = this m.
Proof.
  intros Hctx Hms Hguard Hq Hother.
  rewrite loadState_run, Hctx, Hms, Hguard, Hq. cbv zeta.
  destruct answer as [rt|]; [|now split].
  destruct (strict_eq_id _ _) eqn:Heq; [|now split].
  exfalso. apply Hother.
  destruct (TimesheetEntry.id rt) as [a|], (get_id ws "timer_entryId") as [b|];
    simpl in Heq; try discriminate Heq; try reflexivity.
  apply Z.eqb_eq in Heq. now subst.
Qed.

(** C4, at the failing input: the storage holds the snapshot of entry
    7 and the server reports no running timer. [loadState] returns
    [false] and keeps the stopped state, and the storage is what it
    was, snapshot included: [clearState] is not reached. *)
Theorem loadState_keeps_stale_snapshot :
  let r := loadState (idle_env 1700000100000) sample_restarted in
  running_timer_query (idle_env 1700000100000) = Returned None
  /\ fst r = Returned false
  /\ state (this (snd r)) = stopped
  /\ context (this (snd r)) = context (this sample_restarted)
  /\ (context (this (snd r)) ≫= (fun ws => get_id ws "timer_entryId"))
     = Some 7%Z
  /\ trace (snd r) = [Called GetRunningTimer].
Proof. vm_compute. now repeat split. Qed.

(** ** The note of [stopTimer] *)

Lemma extends_refl m : extends m m.
Proof. exists []. now rewrite app_nil_r. Qed.

Lemma extends_same m m1 m2 : trace m2 = trace m1 -> extends m m1 -> extends m m2.
Proof. intros Heq [rest H]. exists rest. now rewrite Heq. Qed.

Lemma extends_emit e m m1 : extends m m1 -> extends m (emit e m1).
Proof.
  intros [rest H]. exists (rest ++ [e]). cbn [trace emit].
  now rewrite H, app_assoc.
Qed.

Lemma extends_workspaceState_update key v m m1 :
  extends m m1 -> extends m (workspaceState_update key v m1).
Proof.
  intros H. unfold workspaceState_update.
  destruct (context (this m1)); [|assumption].
  now apply extends_emit, (extends_same m m1).
Qed.

Lemma extends_clearState_begin m m1 :
  extends m m1 -> extends m (clearState_begin m1).
Proof.
  intros H. unfold clearState_begin.
  destruct (context (this m1)); [|assumption].
  now apply extends_workspaceState_update.
Qed.

Lemma extends_clearState_resume m m1 :
  extends m m1 -> extends m (clearState_resume m1).
Proof.
  intros H. unfold clearState_resume.
  destruct (context (this m1)); [|assumption].
  now repeat apply extends_workspaceState_update.
Qed.

Lemma extends_stopUpdateInterval m m1 :
  extends m m1 -> extends m (stopUpdateInterval m1).
Proof. apply extends_same, trace_stopUpdateInterval. Qed.

Lemma extends_notifyStateUpdate m m1 :
  extends m m1 -> extends m (notifyStateUpdate m1).
Proof.
  intros [rest H].
  destruct (forEach_trace (updateCallbacks (this m1)) 0 m1) as [rest' H'].
  exists (rest ++ rest'). unfold notifyStateUpdate.
  now rewrite H', H, app_assoc.
Qed.

Lemma discrepancy_note_Some duration actualElapsed :
  discrepancy_note duration actualElapsed <> None
  <-> (0 <? duration)%float = true
      /\ (0 <? actualElapsed)%float = true
      /\ (0.1 <? abs (duration - actualElapsed))%float = true.
Proof.
  unfold discrepancy_note.
  destruct (0 <? duration)%float, (0 <? actualElapsed)%float,
    (0.1 <? abs (duration - actualElapsed))%float; simpl;
    split; try discriminate; try tauto;
    intros (? & ? & ?); discriminate.
Qed.

(** C6, amended: when [stopTimer] stops the remote timer and reads the
    entry back, the message it shows carries the note exactly when the
    duration the server recorded is positive, the locally measured
    hours are positive, and the two differ by more than 0.1 hour. A
    timer started at t0 and stopped at t0 + 60 s for which the server
    recorded 0.5 hour gets the note, quoting 60000/3600000 hour; one
    stopped at t0 + 40 s for which the server recorded 0.0167 hour gets
    the message without the note. *)
Theorem stopTimer_discrepancy_note :
  (forall env m id since ok entries,
      isRunning (state (this m)) = true ->
      entryId (state (this m)) = Some id ->
      id <> 0%Z ->
      startTime (state (this m)) = Some since ->
      action_timer_stop_reply env = Answer ok ->
      read_reply env = Answer entries ->
      let duration := read_duration entries in
      let actualElapsed := ((Date_now env - getTime since) / 3600000)%float in
      exists msg rest,
        fst (stopTimer env m) = Returned true
        /\ trace (snd (stopTimer env m))
           = trace m
               ++ [Called (ActionTimerStop id false); Called (Read id);
                   ShowInformation msg]
               ++ rest
        /\ sm_duration msg = duration
        /\ (sm_note msg <> None
            <-> (0 <? duration)%float = true
                /\ (0 <? actualElapsed)%float = true
                /\ (0.1 <? abs (duration - actualElapsed))%float = true)
        /\ (sm_note msg <> None -> sm_note msg = Some actualElapsed))
  /\ shown
       (trace
          (snd (stopTimer (server 1700000060000 0.5 (Answer None))
                  sample_running)))
     = [mkStopMessage "Task A" 0.5 (Some (60000 / 3600000)%float)]
  /\ shown
       (trace
          (snd (stopTimer (server 1700000040000 0.0167 (Answer None))
                  sample_running)))
     = [mkStopMessage "Task A" 0.0167 None].
Proof.
  split; [|split; vm_compute; reflexivity].
  intros env m id since ok entries Hrun Hid Hne Hsince Hstop Hread
    duration actualElapsed.
  assert (Hguard : negb (id =? 0)%Z = true)
    by (now apply negb_true_iff, Z.eqb_neq).
  rewrite stopTimer_run, Hid, Hrun, Hguard, Hstop, Hread.
  cbn [andb fst snd].
  exists (stop_message env m entries).
  set (m0 := add_events _ m).
  assert (Htrace :
    extends m0
      (clearState_then (fun m => notifyStateUpdate (stopUpdateInterval m))
         (set_state stopped m0))).
  { apply extends_clearState_resume, extends_notifyStateUpdate,
      extends_stopUpdateInterval, extends_clearState_begin,
      (extends_same m0 m0); [reflexivity | apply extends_refl]. }
  destruct Htrace as [rest Hrest]. exists rest.
  split; [reflexivity|]. split.
  { rewrite Hrest. subst m0. cbn [trace add_events].
    now rewrite <- app_assoc. }
  assert (Helapsed : getElapsedHours env m = actualElapsed).
  { unfold getElapsedHours. now rewrite Hrun, Hsince. }
  unfold stop_message. cbn [sm_duration sm_note]. rewrite Helapsed.
  split; [reflexivity|]. split; [apply discrepancy_note_Some|].
  unfold discrepancy_note. now destruct (_ && _).
Qed.

(** C6 as stated fails: the timer ran for half an hour and the server
    recorded 0 hour; the two differ by more than 0.1 hour and the
    message carries no note. And in the 40-second scenario, where the
    server recorded 0.0167 hour, the message carries no note either:
    the difference is under the tolerance. *)
Lemma stopTimer_no_note_for_zero_duration :
  shown
    (trace
       (snd (stopTimer (server 1700001800000 0 (Answer None)) sample_running)))
  = [mkStopMessage "Task A" 0 None]
  /\ getElapsedHours (server 1700001800000 0 (Answer None)) sample_running
     = 0.5%float
  /\ (0.1 <? abs (0 - 0.5))%float = true
  /\ shown
       (trace
          (snd (stopTimer (server 1700000040000 0.0167 (Answer None))
                  sample_running)))
     = [mkStopMessage "Task A" 0.0167 None]
  /\ (0.1 <? abs (0.0167 - 40000 / 3600000))%float = false.
Proof. vm_compute. now repeat split. Qed.

(** ** Observers and the state object *)

(** [notifyStateUpdate] hands the state object itself to the observer:
    with one observer, the state after the fan-out is what the observer
    made of the state before. *)
Lemma notifyStateUpdate_hands_over callback m :
  updateCallbacks (this m) = [callback] ->
  state (this (notifyStateUpdate m)) = callback (state (this m))
  /\ trace (notifyStateUpdate m) = trace m ++ [Notified 0 (state (this m))].
Proof.
  intros H. unfold notifyStateUpdate. rewrite H. now split.
Qed.

(** [getState] hands out a new object with the same fields; the
    caller holds no reference to the state of the service. *)
Lemma getState_copies m : getState m = state (this m).
Proof. now destruct m as [[[] ? ? ?] ? ? ?]. Qed.

(** C9, at the failing input: an observer that assigns [false] to the
    [isRunning] field of its argument is registered and a timer is
    started. The observer is handed the running state [startTimer]
    installed, and after the call the state of the service is not
    running although it has a start time and an entry identifier. *)
Theorem observer_mutates_service_state :
  let m := snd (startTimer (sample_env 1700000000000) "Task A" (Some 5%Z)
                  (Some 10%Z) (onStateUpdate meddling (constructor (Some ∅)))) in
  handed (trace m)
  = [started (sample_env 1700000000000) "Task A" (Some 5%Z) (Some 10%Z) 2 7]
  /\ state (this m)
     = meddling
         (started (sample_env 1700000000000) "Task A" (Some 5%Z) (Some 10%Z) 2 7)
  /\ isRunning (state (this m)) = false
  /\ startTime (state (this m)) = Some (mkDate 1700000000000)
  /\ entryId (state (this m)) = Some 7%Z
  /\ ~ consistent (state (this m)).
Proof.
  vm_compute. repeat split.
  intros [_ H]. now destruct (H eq_refl) as [H1 _].
Qed.

(** ** The interval after a failed [refreshState] *)

Lemma ticks_idle hs m : timers m = [] -> ticks hs m = m.
Proof.
  intros H. induction hs as [|h hs IH]; simpl; [reflexivity|].
  unfold ticks in *. simpl. unfold tick at 2. rewrite H.
  rewrite decide_False by apply not_elem_of_nil. apply IH.
Qed.

(** C10: a timer is running, the interval the service holds is the
    only one scheduled, and the running-timer query of [refreshState]
    throws. After the call the timer state is what it was, running; no
    interval is held or scheduled; however many seconds pass, the
    machine stays as it is, so no observer is invoked by a tick. A
    later [refreshState] that finds the timer running schedules an
    interval again. *)
Theorem refreshState_failure_stops_ticks :
  forall env m msg,
    isRunning (state (this m)) = true ->
    timers_ok m ->
    running_timer_query env = Thrown msg ->
    let m' := snd (refreshState env m) in
    state (this m') = state (this m)
    /\ isRunning (state (this m')) = true
    /\ intervalId (this m') = None
    /\ timers m' = []
    /\ (forall hs, ticks hs m' = m')
    /\ (forall env2 rt,
           running_timer_query env2 = Returned (Some rt) ->
           truthy_id (TimesheetEntry.id rt) = true ->
           exists h,
             intervalId (this (snd (refreshState env2 m'))) = Some h
             /\ timers (snd (refreshState env2 m')) = [h]).
Proof.
  intros env m msg Hrun Hok Hq m'.
  assert (Hok' : timers_ok m').
  { subst m'. rewrite refreshState_run, Hq. cbn [snd].
    auto 10 with timers. }
  assert (Hthis : this m'
                  = mkTimerService (state (this m)) (updateCallbacks (this m))
                      None (context (this m))).
  { subst m'. rewrite refreshState_run, Hq. cbn [snd]. now service. }
  assert (Htimers : timers m' = []).
  { unfold timers_ok in Hok'. now rewrite Hthis in Hok'. }
  rewrite Hthis. cbn [state intervalId].
  repeat split; try assumption.
  - intros hs. now apply ticks_idle.
  - intros env2 rt Hq2 Hid2.
    assert (Hok2 : timers_ok (snd (refreshState env2 m')))
      by (apply (perform_timers_ok (RefreshState env2)), Hok').
    unfold timers_ok in Hok2. revert Hok2.
    rewrite refreshState_run, Hq2, Hid2. cbn [snd]. service. cbn [isRunning].
    intros Ht. eexists. split; [reflexivity | exact Ht].
Qed.

(** ** The statements at the sample machines *)

Lemma state_invariant_witness :
  Forall well_behaved sample_ops
  /\ consistent (state (this (run sample_ops (constructor (Some ∅))))).
Proof.
  split; [repeat constructor | apply state_invariant; repeat constructor].
Defined.

Lemma refreshState_back_computes_startTime_witness :
  Forall passive (updateCallbacks (this sample_idle))
  /\ running_timer_query (sample_env 1700000000000) = Returned (Some sample_timer)
  /\ truthy_id (TimesheetEntry.id sample_timer) = true
  /\ exists E,
       TimesheetEntry.running_seconds sample_timer = Some E
       /\ state (this (snd (refreshState (sample_env 1700000000000) sample_idle)))
          = mkTimerState true
              (Some
                 (new_Date
                    (1700000000000
                     - (E - TimesheetEntry.unit_amount sample_timer * 3600)
                       * 1000)%float))
              (TimesheetEntry.id sample_timer) (Some sample_timer).
Proof.
  split; [repeat constructor|].
  split; [reflexivity|]. split; [reflexivity|].
  apply (refreshState_back_computes_startTime (sample_env 1700000000000)
           sample_idle sample_timer);
    [repeat constructor | reflexivity | reflexivity].
Defined.

Lemma refreshState_idempotent_witness :
  let envA := sample_env 1700000000000 in
  let envB := sample_env 1700000000000 in
  let m1 := snd (refreshState envA sample_idle) in
  let m2 := snd (refreshState envB m1) in
  let idleA := idle_env 1700000000000 in
  let idleB := idle_env 1700000005000 in
  let i1 := snd (refreshState idleA sample_running) in
  let i2 := snd (refreshState idleB i1) in
  (Forall passive (updateCallbacks (this sample_idle))
   /\ running_timer_query envB = running_timer_query envA
   /\ (forall rt,
          running_timer_query envA = Returned (Some rt) ->
          truthy_id (TimesheetEntry.id rt) = true ->
          Date_now envB = Date_now envA))
  /\ (Forall passive (updateCallbacks (this sample_running))
      /\ running_timer_query idleB = running_timer_query idleA
      /\ (forall rt,
             running_timer_query idleA = Returned (Some rt) ->
             truthy_id (TimesheetEntry.id rt) = true ->
             Date_now idleB = Date_now idleA))
  /\ ((state (this m2) = state (this m1)
       /\ context (this m2) = context (this m1))
      /\ (exists w1 w2,
             stored (trace m1) = stored (trace sample_idle) ++ w1
             /\ stored (trace m2) = stored (trace m1) ++ w2
             /\ forall ws writes,
                  context (this sample_idle) = Some ws ->
                  writes ≡ₚ w1 ++ w2 ->
                  context (this m1) = Some (write_all writes ws))
      /\ (isRunning (state (this sample_idle)) = false ->
          running_timer_query envA = Returned None ->
          state (this m1) = state (this sample_idle)
          /\ context (this m1) = context (this sample_idle)
          /\ exists calls, trace m1 = trace sample_idle ++ map Called calls))
  /\ state (this i2) = state (this i1)
  /\ context (this i2) = context (this i1).
Proof.
  intros envA envB m1 m2 idleA idleB i1 i2.
  assert (Hcbs : Forall passive (updateCallbacks (this sample_idle)))
    by repeat constructor.
  assert (Hclock : forall rt,
             running_timer_query envA = Returned (Some rt) ->
             truthy_id (TimesheetEntry.id rt) = true ->
             Date_now envB = Date_now envA)
    by reflexivity.
  assert (Hcbs' : Forall passive (updateCallbacks (this sample_running)))
    by repeat constructor.
  assert (Hclock' : forall rt,
             running_timer_query idleA = Returned (Some rt) ->
             truthy_id (TimesheetEntry.id rt) = true ->
             Date_now idleB = Date_now idleA)
    by (intros rt Hrt; discriminate Hrt).
  split; [split; [exact Hcbs | split; [reflexivity | exact Hclock]]|].
  split; [split; [exact Hcbs' | split; [reflexivity | exact Hclock']]|].
  split.
  - exact (refreshState_idempotent envA envB sample_idle Hcbs eq_refl Hclock).
  - exact (proj1 (refreshState_idempotent idleA idleB sample_running Hcbs'
                    eq_refl Hclock')).
Defined.

Lemma loadState_restores_started_witness :
  let env1 := sample_env 1700000000000 in
  let env2 := sample_env 1700000100000 in
  let resolved :=
    startTimer_resolved env1 "Task A" (Some 5%Z) (Some 10%Z) sample_idle in
  let m1 := saveState_resume_upto 4 (snd resolved) in
  let r := loadState env2 (constructor (context (this m1))) in
  (Forall passive (updateCallbacks (this sample_idle))
   /\ isRunning (state (this sample_idle)) = false
   /\ context (this sample_idle) = Some ∅
   /\ session_uid env1 = Some 2%Z
   /\ create_reply env1 = Answer 7%Z
   /\ 7%Z <> 0%Z
   /\ action_timer_start_reply env1 = Answer true
   /\ TimeClip (Date_now env1) = Date_now env1
   /\ truthy (Date_now env1) = true
   /\ running_timer_query env2 = Returned (Some sample_timer)
   /\ TimesheetEntry.id sample_timer = Some 7%Z)
  /\ fst resolved = Returned true
  /\ startTimer env1 "Task A" (Some 5%Z) (Some 10%Z) sample_idle
     = (Returned true, m1)
  /\ (exists ws1,
         context (this m1) = Some ws1
         /\ get_num ws1 "timer_startTime" = Some (Date_now env1))
  /\ fst r = Returned true
  /\ isRunning (state (this (snd r))) = true
  /\ entryId (state (this (snd r))) = entryId (state (this m1))
  /\ entryId (state (this (snd r))) = Some 7%Z
  /\ startTime (state (this (snd r))) = startTime (state (this m1))
  /\ startTime (state (this (snd r))) = Some (mkDate (Date_now env1))
  /\ (entry (state (this (snd r))) ≫= TimesheetEntry.project_id) = Some 5%Z
  /\ (entry (state (this (snd r))) ≫= TimesheetEntry.task_id) = Some 10%Z.
Proof.
  intros env1 env2 resolved m1 r.
  assert (Hcbs : Forall passive (updateCallbacks (this sample_idle)))
    by repeat constructor.
  assert (Hid : 7%Z <> 0%Z) by lia.
  split.
  - split; [exact Hcbs|]. repeat split; try reflexivity. exact Hid.
  - destruct (loadState_restores_started env1 env2 "Task A" (Some 5%Z)
                (Some 10%Z) sample_idle ∅ 2%Z 7%Z true sample_timer 4
                Hcbs eq_refl eq_refl eq_refl eq_refl Hid eq_refl eq_refl
                eq_refl eq_refl eq_refl)
      as (H1 & H2 & _ & _ & H5).
    assert (Hk : 1 <= 4) by lia.
    specialize (H5 Hk).
    split; [exact H1|]. split; [exact H2|]. exact H5.
Defined.

Lemma stopTimer_discrepancy_note_witness :
  let env := server 1700000060000 0.5 (Answer None) in
  let duration := read_duration [sample_entry] in
  let actualElapsed := ((1700000060000 - 1700000000000) / 3600000)%float in
  (isRunning (state (this sample_running)) = true
   /\ entryId (state (this sample_running)) = Some 7%Z
   /\ 7%Z <> 0%Z
   /\ startTime (state (this sample_running)) = Some (mkDate 1700000000000)
   /\ action_timer_stop_reply env = Answer true
   /\ read_reply env = Answer [sample_entry])
  /\ exists msg rest,
       fst (stopTimer env sample_running) = Returned true
       /\ trace (snd (stopTimer env sample_running))
          = trace sample_running
              ++ [Called (ActionTimerStop 7 false); Called (Read 7);
                  ShowInformation msg]
              ++ rest
       /\ sm_duration msg = duration
       /\ (sm_note msg <> None
           <-> (0 <? duration)%float = true
               /\ (0 <? actualElapsed)%float = true
               /\ (0.1 <? abs (duration - actualElapsed))%float = true)
       /\ (sm_note msg <> None -> sm_note msg = Some actualElapsed).
Proof.
  intros env duration actualElapsed. split.
  - repeat split; try reflexivity. lia.
  - apply (proj1 stopTimer_discrepancy_note env sample_running 7%Z
             (mkDate 1700000000000) true [sample_entry]);
      try reflexivity. lia.
Defined.

Lemma startTimer_remote_failure_witness :
  let env := refusing_env 1700000000000 in
  let r := startTimer env "Task A" (Some 5%Z) (Some 10%Z) sample_idle in
  (isRunning (state (this sample_idle)) = false
   /\ session_uid env = Some 2%Z
   /\ create_reply env = Failure "Access Denied")
  /\ fst r = Returned false
  /\ this (snd r) = this sample_idle
  /\ timers (snd r) = timers sample_idle
  /\ exists calls,
       trace (snd r)
       = trace sample_idle ++ map Called calls
           ++ [ShowError ("Failed to start timer: " ++ "Access Denied")].
Proof.
  intros env r. split; [repeat split|].
  apply (startTimer_remote_failure env "Task A" (Some 5%Z) (Some 10%Z)
           sample_idle 2%Z "Access Denied");
    [reflexivity | reflexivity | left; reflexivity].
Defined.

Lemma startTimer_already_running_witness :
  isRunning (state (this sample_running)) = true
  /\ startTimer (sample_env 1700000005000) "Task B" None None sample_running
     = (Returned false,
        emit (ShowWarning "Timer is already running") sample_running).
Proof.
  split; [reflexivity | apply startTimer_already_running; reflexivity].
Defined.

Lemma refreshState_failure_stops_ticks_witness :
  let env := offline_env 1700000030000 in
  let m' := snd (refreshState env sample_running) in
  (isRunning (state (this sample_running)) = true
   /\ timers_ok sample_running
   /\ running_timer_query env = Thrown "Network Error")
  /\ state (this m') = state (this sample_running)
  /\ isRunning (state (this m')) = true
  /\ intervalId (this m') = None
  /\ timers m' = []
  /\ (forall hs, ticks hs m' = m')
  /\ (forall env2 rt,
         running_timer_query env2 = Returned (Some rt) ->
         truthy_id (TimesheetEntry.id rt) = true ->
         exists h,
           intervalId (this (snd (refreshState env2 m'))) = Some h
           /\ timers (snd (refreshState env2 m')) = [h]).
Proof.
  intros env m'. split; [repeat split|].
  apply (refreshState_failure_stops_ticks env sample_running "Network Error");
    reflexivity.
Defined.

(** * Further properties of the service *)

(** ** Starting *)

(** X1: when no timer is running and the client has no session,
    [startTimer] makes no remote call: it shows "Failed to start timer:
    Not authenticated", returns [false] and leaves the machine as it
    was. *)
Theorem startTimer_without_session :
  forall env name projectId taskId m,
    isRunning (state (this m)) = false ->
    session_uid env = None ->
    startTimer env name projectId taskId m
    = (Returned false,
       emit (ShowError "Failed to start timer: Not authenticated") m).
Proof.
  intros env name projectId taskId m Hrun Hsession.
  now rewrite startTimer_run, Hrun, Hsession.
Qed.

Lemma startTimer_without_session_witness :
  (isRunning (state (this sample_idle)) = false
   /\ session_uid (anonymous_env 1700000000000) = None)
  /\ startTimer (anonymous_env 1700000000000) "Task A" (Some 5%Z) None
       sample_idle
     = (Returned false,
        emit (ShowError "Failed to start timer: Not authenticated") sample_idle).
Proof.
  split; [split; reflexivity|].
  apply startTimer_without_session; reflexivity.
Defined.

(** X2: a successful [startTimer] (no timer running, a session, entry
    [id] created and its timer started; observers only read) returns
    [true]; the state is running with entry [id] and the clock reading
    as start time; exactly one interval is scheduled; the two remote
    calls are the creation and then the start of the timer of [id];
    each observer is handed the new state once. *)
Theorem startTimer_success :
  forall env name projectId taskId m uid id ok,
    Forall passive (updateCallbacks (this m)) ->
    timers_ok m ->
    isRunning (state (this m)) = false ->
    session_uid env = Some uid ->
    create_reply env = Answer id ->
    action_timer_start_reply env = Answer ok ->
    let r := startTimer env name projectId taskId m in
    let s := started env name projectId taskId uid id in
    fst r = Returned true
    /\ state (this (snd r)) = s
    /\ (exists h, intervalId (this (snd r)) = Some h /\ timers (snd r) = [h])
    /\ calls (trace (snd r))
       = calls (trace m)
           ++ [Create (start_values env name projectId taskId uid);
               ActionTimerStart id]
    /\ handed (trace (snd r))
       = handed (trace m) ++ replicate (length (updateCallbacks (this m))) s.
Proof.
  intros env name projectId taskId m uid id ok Hcbs Hok Hrun Hsession Hcreate
    Hstart r s.
  subst r. rewrite startTimer_run, Hrun, Hsession, Hcreate, Hstart.
  cbn [fst snd].
  set (m0 := set_state _ _).
  destruct (saveState_then_notify m0) as (Hs & _ & _ & Hi & st1 & st2 & H1 & H2 & Ht);
    try (subst m0; auto with timers; reflexivity).
  split; [reflexivity|]. split; [exact Hs|]. split; [exact Hi|].
  rewrite Ht. subst m0. cbn [trace set_state add_events state this updateCallbacks].
  rewrite !calls_app, !handed_app, calls_notifications, handed_notifications,
    (calls_storage_only st1 H1), (calls_storage_only st2 H2),
    (handed_storage_only st1 H1), (handed_storage_only st2 H2).
  cbn [calls handed flat_map app]. rewrite !app_nil_r. now split.
Qed.

Lemma startTimer_success_witness :
  let env := sample_env 1700000000000 in
  let r := startTimer env "Task A" (Some 5%Z) (Some 10%Z) sample_idle in
  let s := started env "Task A" (Some 5%Z) (Some 10%Z) 2 7 in
  (Forall passive (updateCallbacks (this sample_idle))
   /\ timers_ok sample_idle
   /\ isRunning (state (this sample_idle)) = false
   /\ session_uid env = Some 2%Z
   /\ create_reply env = Answer 7%Z
   /\ action_timer_start_reply env = Answer true)
  /\ fst r = Returned true
  /\ state (this (snd r)) = s
  /\ (exists h, intervalId (this (snd r)) = Some h /\ timers (snd r) = [h])
  /\ calls (trace (snd r))
     = calls (trace sample_idle)
         ++ [Create (start_values env "Task A" (Some 5%Z) (Some 10%Z) 2);
             ActionTimerStart 7]
  /\ handed (trace (snd r))
     = handed (trace sample_idle)
         ++ replicate (length (updateCallbacks (this sample_idle))) s.
Proof.
  intros env r s. split.
  - split; [repeat constructor | repeat split].
  - apply (startTimer_success env "Task A" (Some 5%Z) (Some 10%Z) sample_idle
             2%Z 7%Z true); try reflexivity. repeat constructor.
Defined.

(** ** Stopping *)

Lemma lookup_cleared ws key : key ∈ snapshot_keys -> cleared ws !! key = None.
Proof.
  intros Hkey. unfold cleared, cleared_rest. rewrite !lookup_put.
  unfold snapshot_keys in Hkey.
  repeat case_decide; try reflexivity.
  repeat (apply elem_of_cons in Hkey as [-> | Hkey]; [congruence|]).
  now apply elem_of_nil in Hkey.
Qed.

(** X3: a successful [stopTimer] (a timer running on a nonzero entry,
    the remote stop and the read-back both answered; observers only
    read) returns [true] and installs the stopped state; none of the
    five snapshot keys remains in the workspace storage; no interval is
    held or scheduled, so later ticks change nothing; each observer is
    handed the stopped state once. *)
Theorem stopTimer_success :
  forall env m id ok entries,
    Forall passive (updateCallbacks (this m)) ->
    timers_ok m ->
    isRunning (state (this m)) = true ->
    entryId (state (this m)) = Some id ->
    id <> 0%Z ->
    action_timer_stop_reply env = Answer ok ->
    read_reply env = Answer entries ->
    let r := stopTimer env m in
    fst r = Returned true
    /\ state (this (snd r)) = stopped
    /\ context (this (snd r)) = cleared <$> context (this m)
    /\ (forall ws key,
           context (this (snd r)) = Some ws -> key ∈ snapshot_keys ->
           ws !! key = None)
    /\ intervalId (this (snd r)) = None
    /\ timers (snd r) = []
    /\ (forall hs, ticks hs (snd r) = snd r)
    /\ calls (trace (snd r))
       = calls (trace m) ++ [ActionTimerStop id false; Read id]
    /\ handed (trace (snd r))
       = handed (trace m)
           ++ replicate (length (updateCallbacks (this m))) stopped.
Proof.
  intros env m id ok entries Hcbs Hok Hrun Hid Hne Hstop Hread r.
  assert (Hguard : negb (id =? 0)%Z = true)
    by (now apply negb_true_iff, Z.eqb_neq).
  subst r. rewrite stopTimer_run, Hid, Hrun, Hguard, Hstop, Hread.
  cbn [andb fst snd].
  set (m0 := set_state _ _).
  destruct (clearState_then_notify m0)
    as (Hs & _ & Hc & Hi & Htm & st1 & st2 & H1 & H2 & Ht);
    try (subst m0; auto with timers; reflexivity).
  split; [reflexivity|]. split; [exact Hs|]. split; [exact Hc|].
  split.
  { intros ws key Hws Hkey. rewrite Hc in Hws. subst m0.
    cbn [context this set_state add_events] in Hws.
    destruct (context (this m)) as [ws0|]; [|discriminate].
    injection Hws as <-. now apply lookup_cleared. }
  split; [exact Hi|]. split; [exact Htm|].
  split; [intros hs; now apply ticks_idle|].
  rewrite Ht. subst m0. cbn [trace set_state add_events state this updateCallbacks].
  rewrite !calls_app, !handed_app, calls_notifications, handed_notifications,
    (calls_storage_only st1 H1), (calls_storage_only st2 H2),
    (handed_storage_only st1 H1), (handed_storage_only st2 H2).
  cbn [calls handed flat_map app]. rewrite !app_nil_r. now split.
Qed.

Lemma stopTimer_success_witness :
  let env := server 1700000060000 0.5 (Answer None) in
  let r := stopTimer env sample_running in
  (Forall passive (updateCallbacks (this sample_running))
   /\ timers_ok sample_running
   /\ isRunning (state (this sample_running)) = true
   /\ entryId (state (this sample_running)) = Some 7%Z
   /\ 7%Z <> 0%Z
   /\ action_timer_stop_reply env = Answer true
   /\ read_reply env = Answer [sample_entry])
  /\ fst r = Returned true
  /\ state (this (snd r)) = stopped
  /\ context (this (snd r)) = cleared <$> context (this sample_running)
  /\ (forall ws key,
         context (this (snd r)) = Some ws -> key ∈ snapshot_keys ->
         ws !! key = None)
  /\ intervalId (this (snd r)) = None
  /\ timers (snd r) = []
  /\ (forall hs, ticks hs (snd r) = snd r)
  /\ calls (trace (snd r))
     = calls (trace sample_running) ++ [ActionTimerStop 7 false; Read 7]
  /\ handed (trace (snd r))
     = handed (trace sample_running)
         ++ replicate (length (updateCallbacks (this sample_running))) stopped.
Proof.
  intros env r. split.
  - split; [repeat constructor | repeat split; try reflexivity; lia].
  - apply (stopTimer_success env sample_running 7%Z true [sample_entry]);
      try reflexivity; [repeat constructor | lia].
Defined.

(** X4: when a timer is running on a nonzero entry and the remote stop
    fails, or succeeds and the read-back fails, [stopTimer] returns
    [false] after the error message; the service object is what it was
    (still running, snapshot and interval kept), nothing is stored and
    no observer is invoked. *)
Theorem stopTimer_remote_failure :
  forall env m id msg,
    isRunning (state (this m)) = true ->
    entryId (state (this m)) = Some id ->
    id <> 0%Z ->
    (action_timer_stop_reply env = Failure msg
     \/ exists ok,
          action_timer_stop_reply env = Answer ok
          /\ read_reply env = Failure msg) ->
    let r := stopTimer env m in
    fst r = Returned false
    /\ this (snd r) = this m
    /\ timers (snd r) = timers m
    /\ exists cs,
         trace (snd r)
         = trace m ++ map Called cs
             ++ [ShowError ("Failed to stop timer: " ++ msg)].
Proof.
  intros env m id msg Hrun Hid Hne Hfail r.
  assert (Hguard : negb (id =? 0)%Z = true)
    by (now apply negb_true_iff, Z.eqb_neq).
  subst r. rewrite stopTimer_run, Hid, Hrun, Hguard. cbn [andb].
  destruct Hfail as [Hstop | (ok & Hstop & Hread)].
  - rewrite Hstop. repeat split. now exists [ActionTimerStop id false].
  - rewrite Hstop, Hread. repeat split.
    now exists [ActionTimerStop id false; Read id].
Qed.

Lemma stopTimer_remote_failure_witness :
  let env := unreadable_env 1700000060000 in
  let r := stopTimer env sample_running in
  (isRunning (state (this sample_running)) = true
   /\ entryId (state (this sample_running)) = Some 7%Z
   /\ 7%Z <> 0%Z
   /\ action_timer_stop_reply env = Answer true
   /\ read_reply env = Failure "Record does not exist")
  /\ fst r = Returned false
  /\ this (snd r) = this sample_running
  /\ timers (snd r) = timers sample_running
  /\ exists cs,
       trace (snd r)
       = trace sample_running ++ map Called cs
           ++ [ShowError ("Failed to stop timer: " ++ "Record does not exist")].
Proof.
  intros env r. split; [repeat split; try reflexivity; lia|].
  apply (stopTimer_remote_failure env sample_running 7%Z
           "Record does not exist");
    [reflexivity | reflexivity | lia | right; exists true; split; reflexivity].
Defined.

(** ** Reconciling *)

(** X5: a timer is running locally and the running-timer query reports
    none (or an entry without identifier); observers only read. Then
    [refreshState] installs the stopped state, removes the snapshot
    from the workspace storage, leaves no interval held or scheduled,
    and hands each observer the stopped state exactly once. *)
Theorem refreshState_stops_when_server_idle :
  forall env m answer,
    Forall passive (updateCallbacks (this m)) ->
    timers_ok m ->
    isRunning (state (this m)) = true ->
    running_timer_query env = Returned answer ->
    truthy_id (answer ≫= TimesheetEntry.id) = false ->
    let m' := snd (refreshState env m) in
    state (this m') = stopped
    /\ context (this m') = cleared <$> context (this m)
    /\ intervalId (this m') = None
    /\ timers m' = []
    /\ handed (trace m')
       = handed (trace m)
           ++ replicate (length (updateCallbacks (this m))) stopped.
Proof.
  intros env m answer Hcbs Hok Hrun Hq Hid m'.
  assert (Hm' : m' = refresh_cleared
                       (add_events (running_timer_calls env)
                          (stopUpdateInterval m))).
  { subst m'. rewrite refreshState_run, Hq. cbn [snd].
    destruct answer as [rt|]; [|reflexivity].
    cbn in Hid. now rewrite Hid. }
  rewrite Hm'. clear Hm' m'. unfold refresh_cleared.
  assert (Hrun0 : isRunning
                    (state (this (add_events (running_timer_calls env)
                                    (stopUpdateInterval m)))) = true)
    by (service; exact Hrun).
  rewrite Hrun0.
  set (m0 := set_state _ _).
  assert (Hcbs0 : Forall passive (updateCallbacks (this m0)))
    by (subst m0; service; assumption).
  assert (Hok0 : timers_ok m0) by (subst m0; auto 10 with timers).
  destruct (clearState_then_notify m0 Hcbs0 Hok0)
    as (Hs & _ & Hc & Hi & Htm & st1 & st2 & H1 & H2 & Ht).
  split; [exact Hs|]. split; [rewrite Hc; subst m0; now service|].
  split; [exact Hi|]. split; [exact Htm|].
  rewrite Ht. subst m0. cbn [trace set_state add_events]. service.
  rewrite trace_stopUpdateInterval.
  destruct (running_timer_calls_remote env) as [cs ->].
  rewrite !handed_app, handed_notifications, handed_map_Called,
    (handed_storage_only st1 H1), (handed_storage_only st2 H2).
  now rewrite !app_nil_r.
Qed.

Lemma refreshState_stops_when_server_idle_witness :
  let env := idle_env 1700000030000 in
  let m' := snd (refreshState env sample_running) in
  (Forall passive (updateCallbacks (this sample_running))
   /\ timers_ok sample_running
   /\ isRunning (state (this sample_running)) = true
   /\ running_timer_query env = Returned None
   /\ truthy_id (None ≫= TimesheetEntry.id) = false)
  /\ state (this m') = stopped
  /\ context (this m') = cleared <$> context (this sample_running)
  /\ intervalId (this m') = None
  /\ timers m' = []
  /\ handed (trace m')
     = handed (trace sample_running)
         ++ replicate (length (updateCallbacks (this sample_running))) stopped.
Proof.
  intros env m'. split.
  - split; [repeat constructor | repeat split].
  - apply (refreshState_stops_when_server_idle env sample_running None);
      try reflexivity. repeat constructor.
Defined.

(** X6: when the running-timer query reports a timer [rt] with an
    identifier (observers only read), [refreshState] overwrites the
    snapshot in the workspace storage with that of the state it
    installs (entry identifier, start time in milliseconds, project,
    task and description of [rt] read back under the five keys),
    schedules exactly one interval, and hands each observer the
    installed state once. *)
Theorem refreshState_adopts_server_timer :
  forall env m rt,
    Forall passive (updateCallbacks (this m)) ->
    timers_ok m ->
    running_timer_query env = Returned (Some rt) ->
    truthy_id (TimesheetEntry.id rt) = true ->
    let m' := snd (refreshState env m) in
    let s := mkTimerState true (Some (refresh_startTime env rt))
               (TimesheetEntry.id rt) (Some rt) in
    state (this m') = s
    /\ context (this m') = saved s <$> context (this m)
    /\ (forall ws,
           context (this m') = Some ws ->
           get_id ws "timer_entryId" = TimesheetEntry.id rt
           /\ get_num ws "timer_startTime"
              = Some (getTime (refresh_startTime env rt))
           /\ get_id ws "timer_projectId" = TimesheetEntry.project_id rt
           /\ get_id ws "timer_taskId" = TimesheetEntry.task_id rt
           /\ get_str ws "timer_description" = Some (TimesheetEntry.name rt))
    /\ (exists h, intervalId (this m') = Some h /\ timers m' = [h])
    /\ handed (trace m')
       = handed (trace m) ++ replicate (length (updateCallbacks (this m))) s.
Proof.
  intros env m rt Hcbs Hok Hq Hid m' s.
  subst m'. rewrite refreshState_run, Hq, Hid. cbn [snd].
  set (m0 := set_state _ _).
  assert (Hcbs0 : Forall passive (updateCallbacks (this m0)))
    by (subst m0; service; assumption).
  assert (Hok0 : timers_ok m0) by (subst m0; auto 10 with timers).
  destruct (saveState_then_notify m0 Hcbs0 Hok0 eq_refl)
    as (Hs & _ & Hc & Hi & st1 & st2 & H1 & H2 & Ht).
  assert (Hctx : context (this (saveState_then
                   (fun m => notifyStateUpdate (startUpdateInterval m)) m0))
                 = saved s <$> context (this m))
    by (rewrite Hc; subst m0; now service).
  split; [exact Hs|]. split; [exact Hctx|].
  split.
  { intros ws Hws. rewrite Hctx in Hws.
    destruct (context (this m)) as [ws0|]; [|discriminate].
    injection Hws as <-.
    rewrite (get_id_fmap _ _ _ (lookup_saved_entryId s ws0)),
      (get_num_fmap _ _ _ (lookup_saved_startTime s ws0)),
      (get_id_fmap _ _ _ (lookup_saved_projectId s ws0)),
      (get_id_fmap _ _ _ (lookup_saved_taskId s ws0)),
      (get_str_fmap _ _ _ (lookup_saved_description s ws0)).
    now repeat split. }
  split; [exact Hi|].
  rewrite Ht. subst m0. cbn [trace set_state add_events]. service.
  rewrite trace_stopUpdateInterval.
  destruct (running_timer_calls_remote env) as [cs ->].
  rewrite !handed_app, handed_notifications, handed_map_Called,
    (handed_storage_only st1 H1), (handed_storage_only st2 H2).
  now rewrite !app_nil_r.
Qed.

Lemma refreshState_adopts_server_timer_witness :
  let env := sample_env 1700000000000 in
  let m' := snd (refreshState env sample_idle) in
  let s := mkTimerState true (Some (refresh_startTime env sample_timer))
             (TimesheetEntry.id sample_timer) (Some sample_timer) in
  (Forall passive (updateCallbacks (this sample_idle))
   /\ timers_ok sample_idle
   /\ running_timer_query env = Returned (Some sample_timer)
   /\ truthy_id (TimesheetEntry.id sample_timer) = true)
  /\ state (this m') = s
  /\ context (this m') = saved s <$> context (this sample_idle)
  /\ (forall ws,
         context (this m') = Some ws ->
         get_id ws "timer_entryId" = TimesheetEntry.id sample_timer
         /\ get_num ws "timer_startTime"
            = Some (getTime (refresh_startTime env sample_timer))
         /\ get_id ws "timer_projectId" = TimesheetEntry.project_id sample_timer
         /\ get_id ws "timer_taskId" = TimesheetEntry.task_id sample_timer
         /\ get_str ws "timer_description"
            = Some (TimesheetEntry.name sample_timer))
  /\ (exists h, intervalId (this m') = Some h /\ timers m' = [h])
  /\ handed (trace m')
     = handed (trace sample_idle)
         ++ replicate (length (updateCallbacks (this sample_idle))) s.
Proof.
  intros env m' s. split.
  - split; [repeat constructor | repeat split].
  - apply (refreshState_adopts_server_timer env sample_idle sample_timer);
      try reflexivity. repeat constructor.
Defined.

(** ** Restoring *)

(** X7: without workspace storage, or when the storage lacks the entry
    identifier or the start time of a snapshot, [loadState] returns
    [false] and does nothing at all: no remote call is made. *)
Theorem loadState_without_snapshot :
  forall env m,
    match context (this m) with
    | None => True
    | Some ws =>
        ws !! "timer_entryId" = None \/ ws !! "timer_startTime" = None
    end ->
    loadState env m = (Returned false, m).
Proof.
  intros env m H. rewrite loadState_run.
  destruct (context (this m)) as [ws|]; [|reflexivity].
  unfold get_num, get_id. destruct H as [-> | ->]; [|reflexivity].
  now destruct (ws !! "timer_startTime") as [[]|].
Qed.

Lemma loadState_without_snapshot_witness :
  match context (this sample_idle) with
  | None => True
  | Some ws => ws !! "timer_entryId" = None \/ ws !! "timer_startTime" = None
  end
  /\ loadState (sample_env 1700000000000) sample_idle
     = (Returned false, sample_idle).
Proof.
  split; [left; reflexivity|].
  apply loadState_without_snapshot. left; reflexivity.
Defined.

(** X8: the storage holds a snapshot (an entry identifier and a start
    time, both truthy) and the running-timer query throws. Then
    [loadState] returns [false] and keeps the timer state, the
    observers and the interval as they are; it removes the snapshot:
    none of the five keys remains in the workspace storage; no observer
    is invoked. *)
Theorem loadState_failure_clears_snapshot :
  forall env m ws ms msg,
    context (this m) = Some ws ->
    get_num ws "timer_startTime" = Some ms ->
    truthy_id (get_id ws "timer_entryId") && truthy ms = true ->
    running_timer_query env = Thrown msg ->
    let r := loadState env m in
    fst r = Returned false
    /\ state (this (snd r)) = state (this m)
    /\ updateCallbacks (this (snd r)) = updateCallbacks (this m)
    /\ intervalId (this (snd r)) = intervalId (this m)
    /\ timers (snd r) = timers m
    /\ (exists ws',
          context (this (snd r)) = Some ws'
          /\ forall key, key ∈ snapshot_keys -> ws' !! key = None)
    /\ handed (trace (snd r)) = handed (trace m).
Proof.
  intros env m ws ms msg Hctx Hms Hguard Hq r. subst r.
  rewrite loadState_run, Hctx, Hms, Hguard, Hq. cbn [fst snd].
  split; [reflexivity|]. service. rewrite cleared_split, Hctx.
  split; [reflexivity|]. split; [reflexivity|]. split; [reflexivity|].
  split.
  { assert (Hb : forall x, timers (clearState_begin x) = timers x).
    { intros x. unfold clearState_begin.
      destruct (context (this x)); [|reflexivity].
      apply timers_workspaceState_update. }
    assert (Hr : forall x, timers (clearState_resume x) = timers x).
    { intros x. unfold clearState_resume.
      destruct (context (this x)); [|reflexivity].
      now rewrite !timers_workspaceState_update. }
    now rewrite Hr, Hb. }
  split.
  { exists (cleared ws). split; [reflexivity|]. apply lookup_cleared. }
  destruct (trace_clearState_resume
              (clearState_begin (add_events (running_timer_calls env) m)))
    as (st2 & H2 & ->).
  destruct (trace_clearState_begin (add_events (running_timer_calls env) m))
    as (st1 & H1 & ->).
  cbn [trace add_events].
  destruct (running_timer_calls_remote env) as [cs ->].
  rewrite !handed_app, handed_map_Called, (handed_storage_only st1 H1),
    (handed_storage_only st2 H2).
  now rewrite !app_nil_r.
Qed.

Lemma loadState_failure_clears_snapshot_witness :
  let env := offline_env 1700000100000 in
  let r := loadState env sample_restarted in
  (exists ws ms,
      context (this sample_restarted) = Some ws
      /\ get_num ws "timer_startTime" = Some ms
      /\ truthy_id (get_id ws "timer_entryId") && truthy ms = true
      /\ running_timer_query env = Thrown "Network Error")
  /\ fst r = Returned false
  /\ state (this (snd r)) = state (this sample_restarted)
  /\ updateCallbacks (this (snd r)) = updateCallbacks (this sample_restarted)
  /\ intervalId (this (snd r)) = intervalId (this sample_restarted)
  /\ timers (snd r) = timers sample_restarted
  /\ (exists ws',
        context (this (snd r)) = Some ws'
        /\ forall key, key ∈ snapshot_keys -> ws' !! key = None)
  /\ handed (trace (snd r)) = handed (trace sample_restarted).
Proof.
  intros env r.
  destruct (context (this sample_restarted)) as [ws|] eqn:Hws;
    [|discriminate Hws].
  assert (Hms : get_num ws "timer_startTime" = Some 1700000000000%float).
  { injection Hws as <-. reflexivity. }
  assert (Hguard : truthy_id (get_id ws "timer_entryId")
                   && truthy 1700000000000 = true).
  { injection Hws as <-. reflexivity. }
  split.
  - exists ws, 1700000000000%float. now repeat split.
  - exact (loadState_failure_clears_snapshot env sample_restarted ws
             1700000000000 "Network Error" Hws Hms Hguard eq_refl).
Defined.

(** X9: the storage holds a snapshot (a nonzero entry identifier [eid],
    a truthy start time [ms]) and the running-timer query reports an
    entry with identifier [eid]; observers only read. Then [loadState]
    returns [true] and installs the running state built from the
    snapshot, with start time [new Date(ms)]; it writes nothing to the
    workspace storage; exactly one interval is scheduled; each observer
    is handed the restored state once. *)
Theorem loadState_restores_snapshot :
  forall env m ws eid ms rt,
    Forall passive (updateCallbacks (this m)) ->
    timers_ok m ->
    context (this m) = Some ws ->
    get_id ws "timer_entryId" = Some eid ->
    eid <> 0%Z ->
    get_num ws "timer_startTime" = Some ms ->
    truthy ms = true ->
    running_timer_query env = Returned (Some rt) ->
    TimesheetEntry.id rt = Some eid ->
    let r := loadState env m in
    let s :=
      mkTimerState true (Some (new_Date ms)) (Some eid)
        (Some
           (TimesheetEntry.mk (Some eid)
              (str_or (get_str ws "timer_description") EmptyString)
              (today env) 0 (get_id ws "timer_projectId")
              (get_id ws "timer_taskId") None None None None)) in
    fst r = Returned true
    /\ state (this (snd r)) = s
    /\ context (this (snd r)) = Some ws
    /\ stored (trace (snd r)) = stored (trace m)
    /\ (exists h, intervalId (this (snd r)) = Some h /\ timers (snd r) = [h])
    /\ handed (trace (snd r))
       = handed (trace m) ++ replicate (length (updateCallbacks (this m))) s.
Proof.
  intros env m ws eid ms rt Hcbs Hok Hctx Heid Hne Hms Htruthy Hq Hrt r s.
  assert (Hguard : negb (eid =? 0)%Z = true)
    by (now apply negb_true_iff, Z.eqb_neq).
  subst r. rewrite loadState_run, Hctx, Hms, Heid, Htruthy, Hq, Hrt.
  cbn [truthy_id andb strict_eq_id]. rewrite Hguard, Z.eqb_refl.
  cbn [andb fst snd].
  set (m0 := set_state _ _).
  assert (Hcbs0 : Forall passive (updateCallbacks (this m0)))
    by (subst m0; service; assumption).
  assert (Hok' : timers_ok (notifyStateUpdate (startUpdateInterval m0)))
    by (subst m0; auto 10 with timers).
  unfold timers_ok in Hok'. revert Hok'.
  rewrite notifyStateUpdate_passive by (service; assumption).
  service. cbn [timers trace add_events]. rewrite trace_startUpdateInterval.
  subst m0. cbn [state this set_state isRunning trace add_events context
                 updateCallbacks].
  intros Hok'. split; [reflexivity|]. split; [reflexivity|].
  split; [assumption|]. split.
  { destruct (running_timer_calls_remote env) as [cs ->].
    rewrite !stored_app, stored_map_Called, stored_notifications.
    now rewrite !app_nil_r. }
  split; [eauto|].
  destruct (running_timer_calls_remote env) as [cs ->].
  rewrite !handed_app, handed_map_Called, handed_notifications.
  now rewrite app_nil_r.
Qed.

Lemma loadState_restores_snapshot_witness :
  let env := sample_env 1700000100000 in
  let r := loadState env sample_restarted in
  exists ws s,
    (Forall passive (updateCallbacks (this sample_restarted))
     /\ timers_ok sample_restarted
     /\ context (this sample_restarted) = Some ws
     /\ get_id ws "timer_entryId" = Some 7%Z
     /\ 7%Z <> 0%Z
     /\ get_num ws "timer_startTime" = Some 1700000000000%float
     /\ truthy 1700000000000 = true
     /\ running_timer_query env = Returned (Some sample_timer)
     /\ TimesheetEntry.id sample_timer = Some 7%Z)
    /\ fst r = Returned true
    /\ state (this (snd r)) = s
    /\ context (this (snd r)) = Some ws
    /\ stored (trace (snd r)) = stored (trace sample_restarted)
    /\ (exists h, intervalId (this (snd r)) = Some h /\ timers (snd r) = [h])
    /\ handed (trace (snd r))
       = handed (trace sample_restarted)
           ++ replicate (length (updateCallbacks (this sample_restarted))) s.
Proof.
  intros env r.
  destruct (context (this sample_restarted)) as [ws|] eqn:Hws;
    [|discriminate Hws].
  assert (Heid : get_id ws "timer_entryId" = Some 7%Z)
    by (injection Hws as <-; reflexivity).
  assert (Hms : get_num ws "timer_startTime" = Some 1700000000000%float)
    by (injection Hws as <-; reflexivity).
  assert (Hne : 7%Z <> 0%Z) by lia.
  exists ws. eexists. split.
  - split; [constructor | repeat split; try assumption].
  - apply (loadState_restores_snapshot env sample_restarted ws 7%Z
             1700000000000 sample_timer);
      try assumption; try reflexivity. constructor.
Defined.

(** ** The interval and the ticks *)

Lemma saveState_then_interval_running m :
  Forall passive (updateCallbacks (this m)) ->
  isRunning (state (this m)) = true ->
  interval_running
    (saveState_then (fun m => notifyStateUpdate (startUpdateInterval m)) m).
Proof. intros Hcbs Hrun _. now observers_done. Qed.

Lemma clearState_then_interval_running m :
  interval_running
    (clearState_then (fun m => notifyStateUpdate (stopUpdateInterval m)) m).
Proof. intros H. contradict H. now service. Qed.

Lemma perform_interval_running o m :
  well_behaved o ->
  Forall passive (updateCallbacks (this m)) ->
  interval_running m -> interval_running (perform o m).
Proof.
  intros Hwb Hcbs H. destruct o; simpl.
  - exact H.
  - rewrite startTimer_run.
    destruct (isRunning (state (this m))); [exact H|].
    destruct (session_uid env); [|exact H].
    destruct (create_reply env); [|exact H].
    destruct (action_timer_start_reply env); [|exact H].
    cbn [snd]. now apply saveState_then_interval_running.
  - rewrite stopTimer_run.
    destruct (entryId (state (this m))) as [id|]; [|exact H].
    destruct (isRunning (state (this m)) && negb (id =? 0)%Z); [|exact H].
    destruct (action_timer_stop_reply env); [|exact H].
    destruct (read_reply env); [|exact H].
    cbn [snd]. apply clearState_then_interval_running.
  - rewrite refreshState_run. cbn [snd]. cbv zeta.
    assert (Hidle : interval_running
                      (refresh_cleared
                         (add_events (running_timer_calls env)
                            (stopUpdateInterval m)))).
    { unfold refresh_cleared.
      destruct (isRunning _); [apply clearState_then_interval_running|].
      intros Hi. contradict Hi. now service. }
    destruct (running_timer_query env) as [[rt|]|msg]; try exact Hidle.
    + destruct (truthy_id (TimesheetEntry.id rt)); [|exact Hidle].
      apply saveState_then_interval_running; [service; assumption | reflexivity].
    + intros Hi. contradict Hi. now service.
  - rewrite loadState_run.
    destruct (context (this m)) as [ws|]; [|exact H].
    destruct (get_num ws "timer_startTime") as [ms|]; [|exact H].
    destruct (truthy_id (get_id ws "timer_entryId") && truthy ms); [|exact H].
    cbv zeta.
    destruct (running_timer_query env) as [[rt|]|msg]; cbn [snd].
    + destruct (strict_eq_id _ _); cbn [snd]; [|exact H].
      intros _. now observers_done.
    + exact H.
    + unfold interval_running. unfold clearState. service. exact H.
  - unfold tick, interval_callback.
    destruct (decide (h ∈ timers m)); [|exact H].
    destruct (isRunning (state (this m))) eqn:Hrun;
      [destruct (startTime (state (this m)))|].
    + unfold interval_running. observers_done. now rewrite Hrun.
    + intros Hi. contradict Hi. now service.
    + intros Hi. contradict Hi. now service.
  - unfold dispose. intros Hi. contradict Hi. cbn. now service.
Qed.

Lemma run_interval_running ops :
  Forall well_behaved ops ->
  forall m, settled m -> interval_running m -> interval_running (run ops m).
Proof.
  induction 1 as [|o ops Ho _ IH]; intros m Hm Hi; simpl; [assumption|].
  apply IH; [now apply perform_settled|].
  apply perform_interval_running; [assumption | apply Hm | assumption].
Qed.

(** X10: in every machine a new service reaches by a sequence of
    operations with observers that only read, an interval is held only
    while the timer is running. (The converse fails after a failed
    [refreshState].) *)
Theorem interval_only_while_running :
  forall ws ops,
    Forall well_behaved ops ->
    let m := run ops (constructor ws) in
    intervalId (this m) <> None -> isRunning (state (this m)) = true.
Proof.
  intros ws ops Hops.
  apply (run_interval_running ops Hops); [apply constructor_settled|].
  now intros H.
Qed.

Lemma interval_only_while_running_witness :
  let m := run (firstn 3 sample_ops) (constructor (Some ∅)) in
  (Forall well_behaved (firstn 3 sample_ops) /\ intervalId (this m) <> None)
  /\ isRunning (state (this m)) = true.
Proof.
  intros m.
  assert (Hops : Forall well_behaved (firstn 3 sample_ops))
    by repeat constructor.
  assert (Hi : intervalId (this m) <> None) by discriminate.
  split; [now split|].
  exact (interval_only_while_running (Some ∅) (firstn 3 sample_ops) Hops Hi).
Defined.

(** X11: in every machine a new service reaches by any sequence of
    operations, whatever the observers do, the runtime's table of
    intervals holds the interval the service keeps and no other: at
    most one interval ticks. *)
Theorem at_most_one_interval :
  forall ws ops,
    let m := run ops (constructor ws) in
    timers m = match intervalId (this m) with
               | Some h => [h]
               | None => []
               end
    /\ length (timers m) <= 1.
Proof.
  intros ws ops m.
  assert (H : timers_ok m) by (now apply run_timers_ok).
  split; [exact H|]. rewrite H. destruct (intervalId (this m)); simpl; lia.
Qed.

(** X12: in every machine a new service reaches by a sequence of
    operations with observers that only read, a second passing for the
    scheduled interval hands the current state to each observer once
    and does nothing else (no remote call, no storage write, no change
    of the service object); a second passing for any other handle does
    nothing. *)
Theorem tick_republishes :
  forall ws ops h,
    Forall well_behaved ops ->
    let m := run ops (constructor ws) in
    tick h m
    = if decide (h ∈ timers m)
      then add_events
             (notifications 0 (length (updateCallbacks (this m)))
                (state (this m))) m
      else m.
Proof.
  intros ws ops h Hops m.
  assert (Hset : settled m) by (apply run_settled, constructor_settled; exact Hops).
  assert (Hok : timers_ok m) by (now apply run_timers_ok).
  assert (Hint : interval_running m).
  { apply (run_interval_running ops Hops); [apply constructor_settled|].
    now intros H. }
  unfold tick. destruct (decide (h ∈ timers m)) as [Hin|]; [|reflexivity].
  unfold timers_ok in Hok. rewrite Hok in Hin.
  destruct (intervalId (this m)) as [h'|] eqn:Hh;
    [|now apply elem_of_nil in Hin].
  assert (Hrun : isRunning (state (this m)) = true)
    by (apply Hint; rewrite Hh; discriminate).
  destruct Hset as [Hcbs [Hst | (_ & Hstart & _)]].
  - rewrite Hst in Hrun. discriminate.
  - unfold interval_callback. rewrite Hrun.
    destruct (startTime (state (this m))); [|contradiction].
    now apply notifyStateUpdate_passive.
Qed.

Lemma tick_republishes_witness :
  let ops := firstn 2 sample_ops in
  let m := run ops (constructor (Some ∅)) in
  Forall well_behaved ops
  /\ tick 0 m
     = if decide (0 ∈ timers m)
       then add_events
              (notifications 0 (length (updateCallbacks (this m)))
                 (state (this m))) m
       else m.
Proof.
  intros ops m.
  assert (Hops : Forall well_behaved ops) by repeat constructor.
  split; [exact Hops|].
  exact (tick_republishes (Some ∅) ops 0 Hops).
Defined.

(** ** After [dispose] *)

Lemma unheard_refl m : unheard m m.
Proof. intros H. now split. Qed.

Lemma unheard_step (f : Machine -> Machine) m x :
  (forall y, updateCallbacks (this (f y)) = updateCallbacks (this y)) ->
  (forall y, exists evs, handed evs = [] /\ trace (f y) = trace y ++ evs) ->
  unheard m x -> unheard m (f x).
Proof.
  intros Hcb Htr Hx Hm. destruct (Hx Hm) as [Hc Hh].
  destruct (Htr x) as (evs & Hevs & Ht).
  split; [now rewrite Hcb|].
  now rewrite Ht, handed_app, Hevs, app_nil_r.
Qed.

Lemma unheard_add_events evs m x :
  handed evs = [] -> unheard m x -> unheard m (add_events evs x).
Proof.
  intros Hevs. apply (unheard_step (add_events evs)); [reflexivity|].
  intros y. now exists evs.
Qed.

Lemma unheard_emit e m x :
  handed [e] = [] -> unheard m x -> unheard m (emit e x).
Proof. apply unheard_add_events. Qed.

Lemma unheard_set_state s m x : unheard m x -> unheard m (set_state s x).
Proof.
  apply (unheard_step (set_state s)); [reflexivity|].
  intros y. exists []. split; [reflexivity | now rewrite app_nil_r].
Qed.

Lemma unheard_stopUpdateInterval m x :
  unheard m x -> unheard m (stopUpdateInterval x).
Proof.
  apply (unheard_step stopUpdateInterval).
  - intros y. now rewrite this_stopUpdateInterval.
  - intros y. exists []. split; [reflexivity|].
    now rewrite trace_stopUpdateInterval, app_nil_r.
Qed.

Lemma unheard_startUpdateInterval m x :
  unheard m x -> unheard m (startUpdateInterval x).
Proof.
  apply (unheard_step startUpdateInterval).
  - intros y. now rewrite this_startUpdateInterval.
  - intros y. exists []. split; [reflexivity|].
    now rewrite trace_startUpdateInterval, app_nil_r.
Qed.

Lemma unheard_saveState_begin m x : unheard m x -> unheard m (saveState_begin x).
Proof.
  apply (unheard_step saveState_begin).
  - intros y. now rewrite this_saveState_begin.
  - intros y. destruct (trace_saveState_begin y) as (evs & Hs & Ht).
    exists evs. split; [now apply handed_storage_only | exact Ht].
Qed.

Lemma unheard_saveState_resume m x :
  unheard m x -> unheard m (saveState_resume x).
Proof.
  apply (unheard_step saveState_resume).
  - intros y. now rewrite this_saveState_resume.
  - intros y. destruct (trace_saveState_resume y) as (evs & Hs & Ht).
    exists evs. split; [now apply handed_storage_only | exact Ht].
Qed.

Lemma unheard_clearState_begin m x :
  unheard m x -> unheard m (clearState_begin x).
Proof.
  apply (unheard_step clearState_begin).
  - intros y. now rewrite this_clearState_begin.
  - intros y. destruct (trace_clearState_begin y) as (evs & Hs & Ht).
    exists evs. split; [now apply handed_storage_only | exact Ht].
Qed.

Lemma unheard_clearState_resume m x :
  unheard m x -> unheard m (clearState_resume x).
Proof.
  apply (unheard_step clearState_resume).
  - intros y. now rewrite this_clearState_resume.
  - intros y. destruct (trace_clearState_resume y) as (evs & Hs & Ht).
    exists evs. split; [now apply handed_storage_only | exact Ht].
Qed.

Lemma unheard_notifyStateUpdate m x :
  unheard m x -> unheard m (notifyStateUpdate x).
Proof.
  intros Hx Hm. destruct (Hx Hm) as [Hc Hh].
  unfold notifyStateUpdate. rewrite Hc. now split.
Qed.

Lemma unheard_calls cs m x : unheard m x -> unheard m (add_events (map Called cs) x).
Proof. apply unheard_add_events, handed_map_Called. Qed.

Lemma unheard_running_timer_calls env m x :
  unheard m x -> unheard m (add_events (running_timer_calls env) x).
Proof.
  destruct (running_timer_calls_remote env) as [cs ->]. apply unheard_calls.
Qed.

Create HintDb unheard.

#[local] Hint Resolve unheard_refl unheard_set_state unheard_stopUpdateInterval
  unheard_startUpdateInterval unheard_saveState_begin unheard_saveState_resume
  unheard_clearState_begin unheard_clearState_resume unheard_notifyStateUpdate
  unheard_running_timer_calls : unheard.

#[local] Hint Extern 1 (unheard _ (emit _ _)) =>
  apply unheard_emit; [reflexivity|] : unheard.

#[local] Hint Extern 1 (unheard _ (add_events _ _)) =>
  apply unheard_add_events; [reflexivity|] : unheard.

(** Case analysis on what decides the branch an operation takes. *)
Ltac unheard_branches :=
  repeat match goal with
         | |- unheard _ (snd (match ?x with _ => _ end)) => destruct x
         | |- unheard _ (snd (if ?x then _ else _)) => destruct x
         | |- unheard _ (match ?x with _ => _ end) => destruct x
         | |- unheard _ (if ?x then _ else _) => destruct x
         end;
  cbn [snd];
  unfold saveState_then, clearState_then, clearState.

Lemma perform_unheard o m : registers_nothing o -> unheard m (perform o m).
Proof.
  intros Ho. destruct o; simpl; try contradiction.
  - rewrite startTimer_run. cbv zeta. unheard_branches; auto 12 with unheard.
  - rewrite stopTimer_run. cbv zeta. unheard_branches; auto 12 with unheard.
  - rewrite refreshState_run. cbn [snd]. cbv zeta. unfold refresh_cleared.
    unheard_branches; auto 12 with unheard.
  - rewrite loadState_run. cbv zeta. unheard_branches; auto 12 with unheard.
  - unfold tick, interval_callback. unheard_branches; auto with unheard.
  - unfold dispose. intros _. split; [reflexivity|].
    cbn [trace set_updateCallbacks]. now rewrite trace_stopUpdateInterval.
Qed.

Lemma run_unheard ops :
  Forall registers_nothing ops -> forall m, unheard m (run ops m).
Proof.
  induction 1 as [|o ops Ho _ IH]; intros m; simpl; [apply unheard_refl|].
  intros Hm. destruct (perform_unheard o m Ho Hm) as [Hc Hh].
  destruct (IH (perform o m) Hc) as [Hc' Hh']. split; [exact Hc'|].
  now rewrite Hh'.
Qed.

(** X13: [dispose] leaves the timer state and the workspace storage as
    they are, removes every observer and, the interval the service
    holds being the only one scheduled, leaves no interval scheduled.
    Whatever operations follow, as long as none registers an observer,
    no observer is ever invoked again. *)
Theorem dispose_silences_observers :
  forall m ops,
    timers_ok m ->
    Forall registers_nothing ops ->
    state (this (dispose m)) = state (this m)
    /\ context (this (dispose m)) = context (this m)
    /\ updateCallbacks (this (dispose m)) = []
    /\ intervalId (this (dispose m)) = None
    /\ timers (dispose m) = []
    /\ updateCallbacks (this (run ops (dispose m))) = []
    /\ handed (trace (run ops (dispose m))) = handed (trace m).
Proof.
  intros m ops Hok Hops.
  destruct (stopUpdateInterval_idle m Hok) as [Hi Ht].
  assert (Hd : updateCallbacks (this (dispose m)) = []) by reflexivity.
  destruct (run_unheard ops Hops (dispose m) Hd) as [Hc Hh].
  unfold dispose in *. cbn [this state context intervalId timers
                              set_updateCallbacks] in *.
  rewrite this_stopUpdateInterval in *. cbn [state context intervalId] in *.
  repeat split; try assumption.
  rewrite Hh. cbn [trace set_updateCallbacks]. apply f_equal, trace_stopUpdateInterval.
Qed.

Lemma dispose_silences_observers_witness :
  let ops := [StartTimer (sample_env 1700000200000) "Task B" None None; Tick 1;
              RefreshState (idle_env 1700000201000)] in
  (timers_ok sample_running /\ Forall registers_nothing ops)
  /\ state (this (dispose sample_running)) = state (this sample_running)
  /\ context (this (dispose sample_running)) = context (this sample_running)
  /\ updateCallbacks (this (dispose sample_running)) = []
  /\ intervalId (this (dispose sample_running)) = None
  /\ timers (dispose sample_running) = []
  /\ updateCallbacks (this (run ops (dispose sample_running))) = []
  /\ handed (trace (run ops (dispose sample_running)))
     = handed (trace sample_running).
Proof.
  intros ops.
  assert (Hok : timers_ok sample_running) by reflexivity.
  assert (Hops : Forall registers_nothing ops) by repeat constructor.
  split; [now split|].
  exact (dispose_silences_observers sample_running ops Hok Hops).
Defined.

(** ** Stopping, then restarting *)

(** X14: after a successful [stopTimer], whatever the observers do, a
    new service over the workspace storage left finds nothing to
    restore: [loadState] returns [false] without any remote call and
    the new service stays as constructed. *)
Theorem stopped_timer_is_not_restored :
  forall env env' m id ok entries,
    isRunning (state (this m)) = true ->
    entryId (state (this m)) = Some id ->
    id <> 0%Z ->
    action_timer_stop_reply env = Answer ok ->
    read_reply env = Answer entries ->
    let restarted := constructor (context (this (snd (stopTimer env m)))) in
    fst (stopTimer env m) = Returned true
    /\ loadState env' restarted = (Returned false, restarted).
Proof.
  intros env env' m id ok entries Hrun Hid Hne Hstop Hread restarted.
  assert (Hguard : negb (id =? 0)%Z = true)
    by (now apply negb_true_iff, Z.eqb_neq).
  subst restarted. rewrite stopTimer_run, Hid, Hrun, Hguard, Hstop, Hread.
  cbn [andb fst snd]. split; [reflexivity|].
  service. rewrite cleared_split, loadState_run. cbn [this context constructor].
  destruct (context (this m)) as [ws|]; [|reflexivity].
  cbn [fmap option_fmap option_map]. unfold get_num.
  now rewrite lookup_cleared by (unfold snapshot_keys; set_solver).
Qed.

Lemma stopped_timer_is_not_restored_witness :
  let env := server 1700000060000 0.5 (Answer None) in
  let env' := sample_env 1700000100000 in
  let restarted :=
    constructor (context (this (snd (stopTimer env sample_running)))) in
  (isRunning (state (this sample_running)) = true
   /\ entryId (state (this sample_running)) = Some 7%Z
   /\ 7%Z <> 0%Z
   /\ action_timer_stop_reply env = Answer true
   /\ read_reply env = Answer [sample_entry])
  /\ fst (stopTimer env sample_running) = Returned true
  /\ loadState env' restarted = (Returned false, restarted).
Proof.
  intros env env' restarted. split.
  - repeat split; try reflexivity. lia.
  - apply (stopped_timer_is_not_restored env env' sample_running 7%Z true
             [sample_entry]); try reflexivity. lia.
Defined.

(** * Further properties of [OdooTimesheet] *)

(** The entry [getRunningTimer] builds from the answer [r] of the
    running-timer query and the record [e] read back. *)
Lemma getRunningTimer_cases env m :
  (exists msg,
      get_running_timer_reply env = Failure msg
      /\ OdooTimesheet.getRunningTimer env m
         = (Thrown msg, add_events [Called GetRunningTimer] m))
  \/ (exists answer,
         get_running_timer_reply env = Answer answer
         /\ truthy_id (answer ≫= RawTimer.id) = false
         /\ OdooTimesheet.getRunningTimer env m
            = (Returned None, add_events [Called GetRunningTimer] m))
  \/ (exists r id,
         get_running_timer_reply env = Answer (Some r)
         /\ RawTimer.id r = Some id
         /\ id <> 0%Z
         /\ let m' := add_events [Called GetRunningTimer; Called (Read id)] m in
            match read_reply env with
            | Failure msg =>
                OdooTimesheet.getRunningTimer env m = (Thrown msg, m')
            | Answer [] =>
                OdooTimesheet.getRunningTimer env m = (Returned None, m')
            | Answer (e :: _) =>
                OdooTimesheet.getRunningTimer env m
                = (Returned
                     (Some
                        (TimesheetEntry.mk (RawEntry.id e)
                           (str_or (RawEntry.name e) EmptyString)
                           (str_or (RawEntry.date e) (today env))
                           (opt_or_zero (RawEntry.unit_amount e))
                           (RawTimer.project_id r) (RawTimer.task_id r)
                           (RawEntry.employee_id e) (RawEntry.account_id e)
                           (RawEntry.user_id e)
                           (Some (opt_or_zero (RawTimer.start r))))),
                   m')
            end).
Proof.
  unfold OdooTimesheet.getRunningTimer, OdooTimesheet.getTimesheetEntry.
  monad.
  destruct (get_running_timer_reply env) as [[r|]|msg] eqn:Hreply.
  - destruct (RawTimer.id r) as [id|] eqn:Hid.
    + destruct (id =? 0)%Z eqn:Hz; cbn [negb].
      * right; left. exists (Some r). cbn. rewrite Hid. cbn. rewrite Hz.
        now repeat split.
      * right; right. exists r, id. apply Z.eqb_neq in Hz.
        repeat split; try assumption.
        unfold add_events, emit; cbn [this timers next_timer trace].
        destruct (read_reply env) as [[|e rest]|msg];
          now rewrite <- app_assoc.
    + right; left. exists (Some r). cbn. rewrite Hid. now repeat split.
  - right; left. exists None. now repeat split.
  - left. exists msg. now split.
Qed.

(** X15: [getRunningTimer] makes the running-timer query and, only when
    the answer names a record by a nonzero identifier, one read of that
    record; it makes no other call and changes nothing of the service.
    It throws exactly when the query fails, or the answer names a
    record and the read fails, with the message of the failed call. *)
Theorem getRunningTimer_calls_and_failures :
  forall env m,
    let r := OdooTimesheet.getRunningTimer env m in
    let named :=
      match get_running_timer_reply env with
      | Answer (Some a) =>
          match RawTimer.id a with
          | Some id => if (id =? 0)%Z then [] else [Read id]
          | None => []
          end
      | _ => []
      end in
    this (snd r) = this m
    /\ timers (snd r) = timers m
    /\ trace (snd r) = trace m ++ map Called (GetRunningTimer :: named)
    /\ forall msg,
         fst r = Thrown msg
         <-> get_running_timer_reply env = Failure msg
             \/ (named <> [] /\ read_reply env = Failure msg).
Proof.
  intros env m r named. subst r named.
  destruct (getRunningTimer_cases env m)
    as [(msg & Hreply & ->)
       | [(answer & Hreply & Hid & ->) | (r & id & Hreply & Hid & Hne & H)]];
    rewrite Hreply.
  - (split; [reflexivity|]); (split; [reflexivity|]);
      (split; [reflexivity|]); intros msg'; cbn [fst]; split.
    + intros [= ->]. now left.
    + intros [[= ->] | [Hn _]]; [reflexivity | now contradict Hn].
  - assert (Hnamed :
      match answer with
      | Some a =>
          match RawTimer.id a with
          | Some id => if (id =? 0)%Z then [] else [Read id]
          | None => []
          end
      | None => []
      end = []).
    { destruct answer as [a|]; [|reflexivity]. cbn in Hid.
      destruct (RawTimer.id a) as [id|]; [|reflexivity]. cbn in Hid.
      now destruct (id =? 0)%Z. }
    rewrite Hnamed.
    (split; [reflexivity|]); (split; [reflexivity|]);
      (split; [reflexivity|]); intros msg; cbn [fst]; split.
    + discriminate.
    + intros [[=] | [Hn _]]. now contradict Hn.
  - rewrite Hid. apply Z.eqb_neq in Hne. rewrite Hne. cbv zeta in H.
    destruct (read_reply env) as [[|e rest]|msg'] eqn:Hread; rewrite H;
      (split; [reflexivity|]); (split; [reflexivity|]);
      (split; [reflexivity|]); intros msg; cbn [fst]; split.
    + discriminate.
    + intros [[=] | [_ [=]]].
    + discriminate.
    + intros [[=] | [_ [=]]].
    + intros [= ->]. right. now split.
    + intros [[=] | [_ [= ->]]]. reflexivity.
Qed.

(** X16: [getRunningTimer] returns an entry exactly when the query
    answers with a nonzero identifier and the read of that record
    returns at least one record. The entry is the first record read,
    with its defaults, except that the project and the task are those
    of the query's answer; it carries the elapsed seconds of the
    answer, and neither they nor its hours are ever [NaN]. *)
Theorem getRunningTimer_reports :
  forall env m rt,
    fst (OdooTimesheet.getRunningTimer env m) = Returned (Some rt)
    <-> exists r id e rest,
          get_running_timer_reply env = Answer (Some r)
          /\ RawTimer.id r = Some id
          /\ id <> 0%Z
          /\ read_reply env = Answer (e :: rest)
          /\ rt = TimesheetEntry.mk (RawEntry.id e)
                    (str_or (RawEntry.name e) EmptyString)
                    (str_or (RawEntry.date e) (today env))
                    (opt_or_zero (RawEntry.unit_amount e))
                    (RawTimer.project_id r) (RawTimer.task_id r)
                    (RawEntry.employee_id e) (RawEntry.account_id e)
                    (RawEntry.user_id e)
                    (Some (opt_or_zero (RawTimer.start r)))
          /\ is_nan (TimesheetEntry.unit_amount rt) = false
          /\ is_nan (opt_or_zero (RawTimer.start r)) = false.
Proof.
  assert (Hnan : forall x, is_nan (opt_or_zero x) = false).
  { intros [x|]; [|reflexivity]. unfold opt_or_zero, or_zero.
    destruct (truthy x) eqn:Hx; [|reflexivity].
    unfold truthy in Hx. apply negb_true_iff, orb_false_elim in Hx. apply Hx. }
  intros env m rt.
  destruct (getRunningTimer_cases env m)
    as [(msg & Hreply & ->)
       | [(answer & Hreply & Hid & ->) | (r & id & Hreply & Hid & Hne & H)]].
  - split; [discriminate|]. intros (r & id & e & rest & Hr & _). congruence.
  - split; [discriminate|].
    intros (r & id & e & rest & Hr & Hi & Hn & _).
    rewrite Hreply in Hr. injection Hr as ->. cbn in Hid. rewrite Hi in Hid.
    cbn in Hid. apply negb_false_iff, Z.eqb_eq in Hid. contradiction.
  - cbv zeta in H.
    destruct (read_reply env) as [[|e rest]|msg'] eqn:Hread; rewrite H;
      cbn [fst].
    + split; [discriminate|].
      intros (r' & id' & e' & rest' & _ & _ & _ & [=] & _).
    + split.
      * intros [= <-]. exists r, id, e, rest.
        repeat split; try assumption; apply Hnan.
      * intros (r' & id' & e' & rest' & Hr & _ & _ & Hread' & -> & _).
        rewrite Hreply in Hr. injection Hr as <-.
        injection Hread' as <- <-. reflexivity.
    + split; [discriminate|].
      intros (r' & id' & e' & rest' & _ & _ & _ & [=] & _).
Qed.

(** X17: [createTimesheetEntry] makes one call, the creation, with the
    name, date and hours of the entry as they are; of its project,
    task, employee, account and user it sends the nonzero identifiers
    and leaves out the others; it returns the identifier the server
    answers with, or throws the server's failure. *)
Theorem createTimesheetEntry_sends_nonzero_ids :
  forall env e m,
    exists values,
      snd (OdooTimesheet.createTimesheetEntry env e m)
      = emit (Called (Create values)) m
      /\ fst (OdooTimesheet.createTimesheetEntry env e m)
         = match create_reply env with
           | Answer id => Returned id
           | Failure msg => Thrown msg
           end
      /\ cv_name values = TimesheetEntry.name e
      /\ cv_date values = TimesheetEntry.date e
      /\ cv_unit_amount values = TimesheetEntry.unit_amount e
      /\ Forall
           (fun p : option Z * option Z =>
              fst p = (if truthy_id (snd p) then snd p else None)
              /\ fst p <> Some 0%Z)
           [(cv_project_id values, TimesheetEntry.project_id e);
            (cv_task_id values, TimesheetEntry.task_id e);
            (cv_employee_id values, TimesheetEntry.employee_id e);
            (cv_account_id values, TimesheetEntry.account_id e);
            (cv_user_id values, TimesheetEntry.user_id e)].
Proof.
  intros env e m.
  assert (Hkeep : forall i,
             OdooTimesheet.keep_truthy i
             = (if truthy_id i then i else None)
             /\ OdooTimesheet.keep_truthy i <> Some 0%Z).
  { intros [z|]; unfold OdooTimesheet.keep_truthy; cbn; [|now split].
    destruct (z =? 0)%Z eqn:Hz; cbn; split; try reflexivity; try discriminate.
    apply Z.eqb_neq in Hz. congruence. }
  eexists. unfold OdooTimesheet.createTimesheetEntry, executeKw.
  split; [destruct (create_reply env); reflexivity|].
  split; [destruct (create_reply env); reflexivity|].
  cbn [cv_name cv_date cv_unit_amount cv_project_id cv_task_id cv_employee_id
       cv_account_id cv_user_id fst snd].
  repeat split; try reflexivity.
  repeat constructor; cbn [fst snd]; apply Hkeep.
Qed.

(** * Properties of the credentials storage, the client and the login *)

(** ** [StorageService] *)

Ltac storage_key :=
  let H := fresh in intros H; vm_compute in H; discriminate H.

Lemma lookup_saveCredentials c secrets :
  StorageService.saveCredentials c secrets !! StorageService.SERVER_URL_KEY
  = Some (StorageService.url c)
  /\ StorageService.saveCredentials c secrets !! StorageService.DATABASE_KEY
     = Some (StorageService.database c)
  /\ StorageService.saveCredentials c secrets !! StorageService.USERNAME_KEY
     = Some (StorageService.username c)
  /\ StorageService.saveCredentials c secrets !! StorageService.PASSWORD_KEY
     = Some (StorageService.password c).
Proof.
  unfold StorageService.saveCredentials.
  repeat split;
    repeat (rewrite lookup_insert_ne by storage_key);
    apply lookup_insert_eq.
Qed.

Lemma lookup_clearCredentials secrets key :
  StorageService.clearCredentials secrets !! key
  = if bool_decide
         (key ∈ [StorageService.SERVER_URL_KEY; StorageService.DATABASE_KEY;
                 StorageService.USERNAME_KEY; StorageService.PASSWORD_KEY])
    then None
    else secrets !! key.
Proof.
  unfold StorageService.clearCredentials. rewrite !lookup_delete.
  case_bool_decide as Hkey; repeat case_decide; try reflexivity;
    contradict Hkey; subst; rewrite !elem_of_cons, elem_of_nil;
    [intros [?|[?|[?|[?|[]]]]]; congruence | tauto ..].
Qed.

Lemma getCredentials_clearCredentials config secrets :
  StorageService.getCredentials config (StorageService.clearCredentials secrets)
  = None.
Proof.
  unfold StorageService.getCredentials.
  rewrite (lookup_clearCredentials secrets StorageService.USERNAME_KEY).
  rewrite bool_decide_eq_true_2
    by (rewrite !elem_of_cons; tauto).
  destruct (StorageService.getServerUrl _ _); [|reflexivity].
  destruct (StorageService.getDatabase _ _); reflexivity.
Qed.

(** X18: [getCredentials] after [saveCredentials] does not depend on
    what the secret storage held before. It returns the saved user name
    and password, with the server URL and the database of the settings
    where these are set and the saved ones where they are not, provided
    all four are non-empty; it returns nothing otherwise. *)
Theorem saveCredentials_then_getCredentials :
  forall config secrets c,
    StorageService.getCredentials config
      (StorageService.saveCredentials c secrets)
    = let serverUrl :=
        if StorageService.truthy_string
             (StorageService.serverUrl_setting config)
        then StorageService.serverUrl_setting config
        else StorageService.url c in
      let database :=
        if StorageService.truthy_string
             (StorageService.database_setting config)
        then StorageService.database_setting config
        else StorageService.database c in
      if StorageService.truthy_string serverUrl
         && StorageService.truthy_string database
         && StorageService.truthy_string (StorageService.username c)
         && StorageService.truthy_string (StorageService.password c)
      then
        Some
          (StorageService.mkOdooCredentials serverUrl database
             (StorageService.username c) (StorageService.password c))
      else None.
Proof.
  intros config secrets c.
  unfold StorageService.getCredentials, StorageService.getServerUrl,
    StorageService.getDatabase.
  destruct (lookup_saveCredentials c secrets) as (-> & -> & -> & ->).
  cbv zeta.
  destruct (StorageService.truthy_string
              (StorageService.serverUrl_setting config)),
    (StorageService.truthy_string (StorageService.database_setting config));
    reflexivity.
Qed.

(** X19: after [clearCredentials] the four keys of the credentials are
    absent from the secret storage and every other key is as before;
    [getCredentials] returns nothing and [hasCredentials] is [false],
    also when the server URL and the database are set in the settings. *)
Theorem clearCredentials_forgets :
  forall config secrets,
    let secrets' := StorageService.clearCredentials secrets in
    StorageService.getCredentials config secrets' = None
    /\ StorageService.hasCredentials config secrets' = false
    /\ forall key,
         secrets' !! key
         = if bool_decide
                (key ∈ [StorageService.SERVER_URL_KEY;
                        StorageService.DATABASE_KEY;
                        StorageService.USERNAME_KEY;
                        StorageService.PASSWORD_KEY])
           then None
           else secrets !! key.
Proof.
  intros config secrets secrets'. subst secrets'.
  unfold StorageService.hasCredentials.
  rewrite getCredentials_clearCredentials.
  repeat split. apply lookup_clearCredentials.
Qed.

(** ** [OdooClient] *)

Lemma result_uid_cases r :
  (exists u,
      OdooClient.result_uid r = Some u /\ u <> 0%Z
      /\ truthy_id (OdooClient.result_uid r) = true)
  \/ truthy_id (OdooClient.result_uid r) = false.
Proof.
  destruct (OdooClient.result_uid r) as [u|]; [|now right].
  cbn. destruct (u =? 0)%Z eqn:Hu; [now right|].
  left. exists u. apply Z.eqb_neq in Hu. now repeat split.
Qed.

Lemma authenticate_setCredentials c http client :
  let client0 := OdooClient.setCredentials c client in
  let request :=
    OdooClient.PostAuthenticate
      (OdooClient.mkAxiosInstance (StorageService.url c) None)
      (StorageService.database c) (StorageService.username c)
      (StorageService.password c) (StorageService.url c) in
  if OdooClient.accepted http then
    exists s cookie,
      OdooClient.uid s <> 0%Z
      /\ OdooClient.authenticate http client0
         = (Returned s,
            OdooClient.mk (Some c) (Some s)
              (Some (OdooClient.mkAxiosInstance (StorageService.url c) cookie)),
            [request])
  else
    exists msg,
      OdooClient.authenticate http client0 = (Thrown msg, client0, [request]).
Proof.
  cbv zeta. unfold OdooClient.authenticate, OdooClient.setCredentials.
  cbn [OdooClient.credentials OdooClient.axiosInstance OdooClient.session
       OdooClient.baseURL].
  destruct http as [[error|] [r|] set_cookie | status message | message];
    cbn [OdooClient.accepted]; try (eexists; reflexivity).
  - destruct (result_uid_cases r) as [(u & Hu & Hne & ->) | ->].
    + rewrite Hu. cbn [default].
      destruct set_cookie as [cookies|]; do 2 eexists; (split; [|reflexivity]);
        exact Hne.
    + eexists; reflexivity.
  - destruct (OdooClient.unauthorized status); eexists; reflexivity.
Qed.

Lemma authenticate_cases http client :
  (exists msg,
      OdooClient.authenticate http client = (Thrown msg, client, [])
      /\ (OdooClient.credentials client = None
          \/ OdooClient.axiosInstance client = None))
  \/ (exists c instance request,
         OdooClient.credentials client = Some c
         /\ OdooClient.axiosInstance client = Some instance
         /\ if OdooClient.accepted http then
              exists s instance',
                OdooClient.uid s <> 0%Z
                /\ OdooClient.authenticate http client
                   = (Returned s,
                      OdooClient.mk (Some c) (Some s) (Some instance'),
                      [request])
            else
              exists msg,
                OdooClient.authenticate http client
                = (Thrown msg, client, [request])).
Proof.
  unfold OdooClient.authenticate.
  destruct (OdooClient.credentials client) as [c|] eqn:Hc;
    [|left; eexists; split; [reflexivity | now left]].
  destruct (OdooClient.axiosInstance client) as [instance|] eqn:Hi;
    [|left; eexists; split; [reflexivity | now right]].
  right. exists c, instance. eexists. do 2 (split; [reflexivity|]).
  destruct http as [[error|] [r|] set_cookie | status message | message];
    cbn [OdooClient.accepted]; try (eexists; reflexivity).
  - destruct (result_uid_cases r) as [(u & Hu & Hne & ->) | ->].
    + rewrite Hu. cbn [default].
      do 2 eexists; (split; [|reflexivity]); exact Hne.
    + eexists; reflexivity.
  - destruct (OdooClient.unauthorized status); eexists; reflexivity.
Qed.

(** X20: [authenticate] keeps the credentials. It returns a session
    exactly when credentials and an axios instance are set and the
    server accepts; the session is then the one the client holds, and
    its [uid] is not zero. When it throws, the client is as before: a
    session it held is still held. It posts at most one request, and
    none without credentials. *)
Theorem authenticate_sets_session_only_when_accepted :
  forall http client,
    let r := OdooClient.authenticate http client in
    OdooClient.credentials (snd (fst r)) = OdooClient.credentials client
    /\ ((exists s, fst (fst r) = Returned s)
        <-> OdooClient.accepted http = true
            /\ OdooClient.credentials client <> None
            /\ OdooClient.axiosInstance client <> None)
    /\ (forall s,
          fst (fst r) = Returned s ->
          OdooClient.session (snd (fst r)) = Some s /\ OdooClient.uid s <> 0%Z)
    /\ (forall msg, fst (fst r) = Thrown msg -> snd (fst r) = client)
    /\ (length (snd r) <= 1)%nat
    /\ (OdooClient.credentials client = None -> snd r = []).
Proof.
  intros http client r. subst r.
  destruct (authenticate_cases http client)
    as [(msg & -> & Hnone) | (c & instance & request & Hc & Hi & H)].
  - cbn [fst snd length]. split_and!; try reflexivity; try lia; try discriminate.
    split.
    + intros [s [=]].
    + intros (_ & Hc & Hi). destruct Hnone; contradiction.
  - destruct (OdooClient.accepted http).
    + destruct H as (s & instance' & Hne & ->). cbn [fst snd length].
      rewrite Hc, Hi. split_and!; try reflexivity; try discriminate; try lia.
      * split; [intros _; now split_and! | intros _; now exists s].
      * intros s' [= <-]. now split.
    + destruct H as (msg & ->). cbn [fst snd length].
      split_and!; try reflexivity; try discriminate; try lia.
      * split; [intros [s [=]] | intros ([=] & _)].
      * rewrite Hc. discriminate.
Qed.

Lemma executeKw_client {A} (http : OdooClient.Response A) model method client :
  snd (fst (OdooClient.executeKw http model method client)) = client
  \/ snd (fst (OdooClient.executeKw http model method client))
     = OdooClient.mk (OdooClient.credentials client) None
         (OdooClient.axiosInstance client).
Proof.
  unfold OdooClient.executeKw.
  destruct (OdooClient.session client), (OdooClient.axiosInstance client);
    try (now left).
  destruct http as [[error|] result set_cookie | status message | message];
    try (now left).
  destruct (OdooClient.unauthorized status); [now right | now left].
Qed.

Lemma perform_session_usable o client :
  (forall s,
      OdooClient.session client = Some s ->
      OdooClient.uid s <> 0%Z
      /\ OdooClient.credentials client <> None
      /\ OdooClient.axiosInstance client <> None) ->
  forall s,
    OdooClient.session (OdooClient.perform o client) = Some s ->
    OdooClient.uid s <> 0%Z
    /\ OdooClient.credentials (OdooClient.perform o client) <> None
    /\ OdooClient.axiosInstance (OdooClient.perform o client) <> None.
Proof.
  intros Hclient s.
  destruct o as [c | http | http model method |]; cbn [OdooClient.perform].
  - unfold OdooClient.setCredentials.
    cbn [OdooClient.session OdooClient.credentials OdooClient.axiosInstance].
    intros Hs. split_and!; try discriminate. now apply Hclient.
  - destruct (authenticate_cases http client)
      as [(msg & -> & _) | (c & instance & request & Hc & Hi & H)];
      [apply Hclient|].
    destruct (OdooClient.accepted http).
    + destruct H as (s' & instance' & Hne & ->).
      cbn [fst snd OdooClient.session OdooClient.credentials
           OdooClient.axiosInstance].
      intros [= <-]. now split_and!.
    + destruct H as (msg & ->). apply Hclient.
  - destruct (executeKw_client http model method client) as [-> | ->];
      [apply Hclient | discriminate].
  - discriminate.
Qed.

Lemma run_session_usable ops :
  forall client,
    (forall s,
        OdooClient.session client = Some s ->
        OdooClient.uid s <> 0%Z
        /\ OdooClient.credentials client <> None
        /\ OdooClient.axiosInstance client <> None) ->
    forall s,
      OdooClient.session (OdooClient.run ops client) = Some s ->
      OdooClient.uid s <> 0%Z
      /\ OdooClient.credentials (OdooClient.run ops client) <> None
      /\ OdooClient.axiosInstance (OdooClient.run ops client) <> None.
Proof.
  induction ops as [|o ops IH]; intros client Hclient; [exact Hclient|].
  apply (IH (OdooClient.perform o client)).
  now apply perform_session_usable.
Qed.

(** X21: along any sequence of operations on a new client, a session
    is held only together with credentials and an axios instance, and
    its [uid] is not zero. So whenever [isAuthenticated] answers [true],
    [executeKw] posts its request, with the context of the session, and
    does not throw for want of authentication. *)
Theorem authenticated_client_posts :
  forall ops A (http : OdooClient.Response A) model method,
    let client := OdooClient.run ops OdooClient.constructor in
    OdooClient.isAuthenticated client = true ->
    exists s instance,
      OdooClient.session client = Some s
      /\ OdooClient.uid s <> 0%Z
      /\ OdooClient.credentials client <> None
      /\ OdooClient.axiosInstance client = Some instance
      /\ snd (OdooClient.executeKw http model method client)
         = [OdooClient.PostCallKw instance model method (OdooClient.context s)].
Proof.
  intros ops A http model method client Hauth.
  unfold OdooClient.isAuthenticated in Hauth.
  destruct (OdooClient.session client) as [s|] eqn:Hs; [|discriminate].
  destruct (run_session_usable ops OdooClient.constructor) with (s := s)
    as (Hne & Hc & Hi); [discriminate | exact Hs |].
  fold client in Hc, Hi.
  destruct (OdooClient.axiosInstance client) as [instance|] eqn:Hinst;
    [|contradiction].
  exists s, instance. split_and!; try done.
  unfold OdooClient.executeKw. rewrite Hs, Hinst.
  destruct http as [[error|] result set_cookie | status message | message];
    try reflexivity.
  destruct (OdooClient.unauthorized status); reflexivity.
Qed.

Lemma authenticated_client_posts_witness :
  OdooClient.isAuthenticated sample_client = true
  /\ exists s instance,
       OdooClient.session sample_client = Some s
       /\ OdooClient.uid s <> 0%Z
       /\ OdooClient.credentials sample_client <> None
       /\ OdooClient.axiosInstance sample_client = Some instance
       /\ snd (OdooClient.executeKw (OdooClient.Responded None 7%Z None)
                 "account.analytic.line" "create" sample_client)
          = [OdooClient.PostCallKw instance "account.analytic.line" "create"
               (OdooClient.context s)].
Proof.
  split; [reflexivity|].
  apply (authenticated_client_posts sample_login Z
           (OdooClient.Responded None 7%Z None) "account.analytic.line"
           "create").
  reflexivity.
Defined.

(** X22: when the server answers a call of an authenticated client with
    status 401 or 403, [executeKw] throws that the session expired and
    drops the session, keeping credentials and axios instance; every
    later [executeKw] then throws that the client is not authenticated,
    without posting a request and without changing the client. *)
Theorem executeKw_unauthorized_drops_session :
  forall A status message model method client,
    OdooClient.unauthorized status = true ->
    OdooClient.isAuthenticated client = true ->
    OdooClient.axiosInstance client <> None ->
    let r :=
      OdooClient.executeKw (A := A) (OdooClient.AxiosError status message)
        model method client in
    let client' := snd (fst r) in
    fst (fst r) = Thrown "Session expired. Please login again."
    /\ length (snd r) = 1%nat
    /\ client'
       = OdooClient.mk (OdooClient.credentials client) None
           (OdooClient.axiosInstance client)
    /\ OdooClient.isAuthenticated client' = false
    /\ forall B (http : OdooClient.Response B) model' method',
         OdooClient.executeKw http model' method' client'
         = (Thrown "Not authenticated. Please login first.", client', []).
Proof.
  intros A status message model method client Hstatus Hauth Hinst r client'.
  subst client' r. unfold OdooClient.isAuthenticated in Hauth.
  assert (Hr : exists request,
    OdooClient.executeKw (A := A) (OdooClient.AxiosError status message)
      model method client
    = (Thrown "Session expired. Please login again.",
       OdooClient.mk (OdooClient.credentials client) None
         (OdooClient.axiosInstance client),
       [request])).
  { unfold OdooClient.executeKw.
    destruct (OdooClient.session client) as [s|]; [|discriminate].
    destruct (OdooClient.axiosInstance client) as [instance|];
      [|contradiction].
    rewrite Hstatus. eexists; reflexivity. }
  destruct Hr as (request & ->). cbn [fst snd length].
  split_and!; reflexivity.
Qed.

Lemma executeKw_unauthorized_drops_session_witness :
  let r :=
    OdooClient.executeKw (A := bool)
      (OdooClient.AxiosError (Some 403%Z) "Request failed with status code 403")
      "account.analytic.line" "action_timer_stop" sample_client in
  (OdooClient.unauthorized (Some 403%Z) = true
   /\ OdooClient.isAuthenticated sample_client = true
   /\ OdooClient.axiosInstance sample_client <> None)
  /\ fst (fst r) = Thrown "Session expired. Please login again."
  /\ length (snd r) = 1%nat
  /\ snd (fst r)
     = OdooClient.mk (OdooClient.credentials sample_client) None
         (OdooClient.axiosInstance sample_client)
  /\ OdooClient.isAuthenticated (snd (fst r)) = false
  /\ forall B (http : OdooClient.Response B) model' method',
       OdooClient.executeKw http model' method' (snd (fst r))
       = (Thrown "Not authenticated. Please login first.", snd (fst r), []).
Proof.
  intros r. split.
  - split_and!; [reflexivity | reflexivity | discriminate].
  - apply (executeKw_unauthorized_drops_session bool (Some 403%Z)
             "Request failed with status code 403" "account.analytic.line"
             "action_timer_stop" sample_client);
      [reflexivity | reflexivity | discriminate].
Defined.

(** X23: when an authentication with newly set credentials is not
    accepted, the client keeps the session it held, so [isAuthenticated]
    answers as before; it holds the new credentials and a new axios
    instance for their URL, without cookie. A later [executeKw] posts
    the context of the old session through that instance. *)
Theorem failed_authenticate_keeps_session :
  forall c http client,
    OdooClient.accepted http = false ->
    let client' :=
      snd (fst (OdooClient.authenticate http
                  (OdooClient.setCredentials c client))) in
    OdooClient.session client' = OdooClient.session client
    /\ OdooClient.isAuthenticated client' = OdooClient.isAuthenticated client
    /\ OdooClient.credentials client' = Some c
    /\ OdooClient.axiosInstance client'
       = Some (OdooClient.mkAxiosInstance (StorageService.url c) None)
    /\ forall s A (http' : OdooClient.Response A) model method,
         OdooClient.session client = Some s ->
         snd (OdooClient.executeKw http' model method client')
         = [OdooClient.PostCallKw
              (OdooClient.mkAxiosInstance (StorageService.url c) None)
              model method (OdooClient.context s)].
Proof.
  intros c http client Hhttp client'. subst client'.
  pose proof (authenticate_setCredentials c http client) as H.
  cbv zeta in H. rewrite Hhttp in H. destruct H as (msg & ->).
  cbn [fst snd]. unfold OdooClient.isAuthenticated, OdooClient.setCredentials.
  cbn [OdooClient.session OdooClient.credentials OdooClient.axiosInstance].
  split_and!; try reflexivity.
  intros s A http' model method Hs. unfold OdooClient.executeKw.
  cbn [OdooClient.session OdooClient.axiosInstance]. rewrite Hs.
  destruct http' as [[error|] result set_cookie | status message | message];
    try reflexivity.
  destruct (OdooClient.unauthorized status); reflexivity.
Qed.

Lemma failed_authenticate_keeps_session_witness :
  let client' :=
    snd (fst (OdooClient.authenticate rejecting
                (OdooClient.setCredentials other_credentials sample_client))) in
  OdooClient.accepted rejecting = false
  /\ OdooClient.session client' = OdooClient.session sample_client
  /\ OdooClient.isAuthenticated client'
     = OdooClient.isAuthenticated sample_client
  /\ OdooClient.credentials client' = Some other_credentials
  /\ OdooClient.axiosInstance client'
     = Some
         (OdooClient.mkAxiosInstance (StorageService.url other_credentials)
            None)
  /\ forall s A (http' : OdooClient.Response A) model method,
       OdooClient.session sample_client = Some s ->
       snd (OdooClient.executeKw http' model method client')
       = [OdooClient.PostCallKw
            (OdooClient.mkAxiosInstance (StorageService.url other_credentials)
               None)
            model method (OdooClient.context s)].
Proof.
  intros client'. split; [reflexivity|].
  apply (failed_authenticate_keeps_session other_credentials rejecting
           sample_client).
  reflexivity.
Defined.

(** ** [OdooAuth] *)

Lemma login_run config prompted http w :
  OdooAuth.login config prompted http w
  = match
      match StorageService.getCredentials config (OdooAuth.secrets w) with
      | Some credentials => Some (credentials, OdooAuth.secrets w)
      | None =>
          match prompted with
          | Some credentials =>
              Some
                (credentials,
                 StorageService.saveCredentials credentials (OdooAuth.secrets w))
          | None => None
          end
      end
    with
    | Some (credentials, secrets) =>
        match
          OdooClient.authenticate http
            (OdooClient.setCredentials credentials (OdooAuth.client w))
        with
        | (Returned _, client, _) =>
            (true,
             OdooAuth.mkWorld client secrets
               (OdooAuth.messages w
                ++ [OdooAuth.InformationMessage
                      "Successfully logged in to Odoo"]))
        | (Thrown message, client, _) =>
            (false,
             OdooAuth.mkWorld client (StorageService.clearCredentials secrets)
               (OdooAuth.messages w
                ++ [OdooAuth.ErrorMessage
                      ("Failed to login: "
                       +:+ (if StorageService.truthy_string message
                            then message
                            else "Login failed"))]))
        end
    | None => (false, w)
    end.
Proof.
  unfold OdooAuth.login.
  destruct (StorageService.getCredentials config (OdooAuth.secrets w));
    [reflexivity|].
  destruct prompted; reflexivity.
Qed.

(** X24: when [login] has credentials to try, stored or prompted, and
    the authentication is not accepted, whatever the reason, it returns
    [false], shows one error message and removes the credentials from
    the secret storage; the session the client held before is still
    held. *)
Theorem login_failure_clears_credentials :
  forall config prompted http w,
    OdooClient.accepted http = false ->
    StorageService.getCredentials config (OdooAuth.secrets w) <> None
    \/ prompted <> None ->
    let r := OdooAuth.login config prompted http w in
    fst r = false
    /\ StorageService.hasCredentials config (OdooAuth.secrets (snd r)) = false
    /\ (forall key,
          key ∈ [StorageService.SERVER_URL_KEY; StorageService.DATABASE_KEY;
                 StorageService.USERNAME_KEY; StorageService.PASSWORD_KEY] ->
          OdooAuth.secrets (snd r) !! key = None)
    /\ OdooClient.session (OdooAuth.client (snd r))
       = OdooClient.session (OdooAuth.client w)
    /\ exists msg,
         OdooAuth.messages (snd r)
         = OdooAuth.messages w
           ++ [OdooAuth.ErrorMessage ("Failed to login: " +:+ msg)].
Proof.
  intros config prompted http w Hhttp Hcreds r. subst r.
  rewrite login_run.
  assert (Hfail : forall c secrets,
    let r :=
      match
        OdooClient.authenticate http
          (OdooClient.setCredentials c (OdooAuth.client w))
      with
      | (Returned _, client, _) =>
          (true,
           OdooAuth.mkWorld client secrets
             (OdooAuth.messages w
              ++ [OdooAuth.InformationMessage "Successfully logged in to Odoo"]))
      | (Thrown message, client, _) =>
          (false,
           OdooAuth.mkWorld client (StorageService.clearCredentials secrets)
             (OdooAuth.messages w
              ++ [OdooAuth.ErrorMessage
                    ("Failed to login: "
                     +:+ (if StorageService.truthy_string message
                          then message
                          else "Login failed"))]))
      end in
    fst r = false
    /\ StorageService.hasCredentials config (OdooAuth.secrets (snd r)) = false
    /\ (forall key,
          key ∈ [StorageService.SERVER_URL_KEY; StorageService.DATABASE_KEY;
                 StorageService.USERNAME_KEY; StorageService.PASSWORD_KEY] ->
          OdooAuth.secrets (snd r) !! key = None)
    /\ OdooClient.session (OdooAuth.client (snd r))
       = OdooClient.session (OdooAuth.client w)
    /\ exists msg,
         OdooAuth.messages (snd r)
         = OdooAuth.messages w
           ++ [OdooAuth.ErrorMessage ("Failed to login: " +:+ msg)]).
  { intros c secrets.
    pose proof (authenticate_setCredentials c http (OdooAuth.client w)) as H.
    cbv zeta in H. rewrite Hhttp in H. destruct H as (msg & ->).
    cbn [fst snd OdooAuth.secrets OdooAuth.client OdooAuth.messages].
    unfold StorageService.hasCredentials.
    rewrite getCredentials_clearCredentials. split_and!; try reflexivity.
    - intros key Hkey. rewrite lookup_clearCredentials.
      now rewrite bool_decide_eq_true_2.
    - eexists; reflexivity. }
  destruct (StorageService.getCredentials config (OdooAuth.secrets w))
    as [c|]; [apply Hfail|].
  destruct prompted as [c|]; [apply Hfail|].
  destruct Hcreds as [H | H]; now contradict H.
Qed.

Lemma login_failure_clears_credentials_witness :
  let r :=
    OdooAuth.login no_settings (Some sample_credentials) unreachable
      sample_world in
  (OdooClient.accepted unreachable = false
   /\ (StorageService.getCredentials no_settings (OdooAuth.secrets sample_world)
       <> None
       \/ Some sample_credentials <> None))
  /\ fst r = false
  /\ StorageService.hasCredentials no_settings (OdooAuth.secrets (snd r))
     = false
  /\ (forall key,
        key ∈ [StorageService.SERVER_URL_KEY; StorageService.DATABASE_KEY;
               StorageService.USERNAME_KEY; StorageService.PASSWORD_KEY] ->
        OdooAuth.secrets (snd r) !! key = None)
  /\ OdooClient.session (OdooAuth.client (snd r))
     = OdooClient.session (OdooAuth.client sample_world)
  /\ exists msg,
       OdooAuth.messages (snd r)
       = OdooAuth.messages sample_world
         ++ [OdooAuth.ErrorMessage ("Failed to login: " +:+ msg)].
Proof.
  intros r. split.
  - split; [reflexivity | now right].
  - apply (login_failure_clears_credentials no_settings
             (Some sample_credentials) unreachable sample_world);
      [reflexivity | now right].
Defined.

(** X25: [login] returns [true] exactly when it has credentials to try,
    stored or prompted, and the server accepts them. The client is then
    authenticated with the stored credentials when there are any and
    with the prompted ones otherwise, the prompted ones are saved, and
    one information message is shown. With nothing stored and nothing
    prompted, it returns [false] and changes nothing. *)
Theorem login_succeeds_iff :
  forall config prompted http w,
    let r := OdooAuth.login config prompted http w in
    let stored := StorageService.getCredentials config (OdooAuth.secrets w) in
    let tried := match stored with Some c => Some c | None => prompted end in
    (fst r = true <-> OdooClient.accepted http = true /\ tried <> None)
    /\ (fst r = true ->
        OdooClient.isAuthenticated (OdooAuth.client (snd r)) = true
        /\ OdooClient.credentials (OdooAuth.client (snd r)) = tried
        /\ OdooAuth.secrets (snd r)
           = match stored, prompted with
             | None, Some c =>
                 StorageService.saveCredentials c (OdooAuth.secrets w)
             | _, _ => OdooAuth.secrets w
             end
        /\ OdooAuth.messages (snd r)
           = OdooAuth.messages w
             ++ [OdooAuth.InformationMessage "Successfully logged in to Odoo"])
    /\ (tried = None -> r = (false, w)).
Proof.
  intros config prompted http w r stored tried. subst r tried stored.
  rewrite login_run.
  assert (Htry : forall c secrets,
    let r :=
      match
        OdooClient.authenticate http
          (OdooClient.setCredentials c (OdooAuth.client w))
      with
      | (Returned _, client, _) =>
          (true,
           OdooAuth.mkWorld client secrets
             (OdooAuth.messages w
              ++ [OdooAuth.InformationMessage "Successfully logged in to Odoo"]))
      | (Thrown message, client, _) =>
          (false,
           OdooAuth.mkWorld client (StorageService.clearCredentials secrets)
             (OdooAuth.messages w
              ++ [OdooAuth.ErrorMessage
                    ("Failed to login: "
                     +:+ (if StorageService.truthy_string message
                          then message
                          else "Login failed"))]))
      end in
    (fst r = true <-> OdooClient.accepted http = true /\ Some c <> None)
    /\ (fst r = true ->
        OdooClient.isAuthenticated (OdooAuth.client (snd r)) = true
        /\ OdooClient.credentials (OdooAuth.client (snd r)) = Some c
        /\ OdooAuth.secrets (snd r) = secrets
        /\ OdooAuth.messages (snd r)
           = OdooAuth.messages w
             ++ [OdooAuth.InformationMessage "Successfully logged in to Odoo"])
    /\ (Some c = None -> r = (false, w))).
  { intros c secrets.
    pose proof (authenticate_setCredentials c http (OdooAuth.client w)) as H.
    cbv zeta in H. destruct (OdooClient.accepted http).
    - destruct H as (s & cookie & Hne & ->). cbn [fst snd].
      split_and!; try discriminate.
      + split; [intros _; now split | reflexivity].
      + intros _. now split_and!.
    - destruct H as (msg & ->). cbn [fst snd].
      split_and!; try discriminate.
      split; [discriminate | intros [[=] _]]. }
  destruct (StorageService.getCredentials config (OdooAuth.secrets w))
    as [c|].
  - destruct (Htry c (OdooAuth.secrets w)) as (H1 & H2 & H3).
    split_and!; assumption.
  - destruct prompted as [c|].
    + apply Htry.
    + cbn [fst snd]. split_and!; try discriminate; try reflexivity.
      split; [discriminate | intros [_ H]; now contradict H].
Qed.

(** * Properties of the callers *)

Lemma refreshState_from_stopped env m :
  Forall passive (updateCallbacks (this m)) ->
  timers_ok m ->
  state (this m) = stopped ->
  let r := refreshState env m in
  fst r = Returned tt
  /\ match running_timer_query env with
     | Returned (Some rt) =>
         if truthy_id (TimesheetEntry.id rt) then
           isRunning (state (this (snd r))) = true
           /\ entryId (state (this (snd r))) = TimesheetEntry.id rt
           /\ exists h,
                intervalId (this (snd r)) = Some h /\ timers (snd r) = [h]
         else
           state (this (snd r)) = stopped /\ intervalId (this (snd r)) = None
     | _ => state (this (snd r)) = stopped /\ intervalId (this (snd r)) = None
     end.
Proof.
  intros Hcbs Hok Hs r. subst r. rewrite refreshState_run.
  cbn [fst snd]. split; [reflexivity|].
  assert (Hidle :
    let m0 := add_events (running_timer_calls env) (stopUpdateInterval m) in
    state (this (refresh_cleared m0)) = stopped
    /\ intervalId (this (refresh_cleared m0)) = None).
  { cbv zeta. unfold refresh_cleared. service. rewrite Hs.
    cbn [isRunning stopped]. service. now rewrite Hs. }
  destruct (running_timer_query env) as [[rt|]|msg]; [|exact Hidle|].
  - destruct (truthy_id (TimesheetEntry.id rt)); [|exact Hidle].
    set (m0 := set_state _ _).
    assert (Hcbs0 : Forall passive (updateCallbacks (this m0)))
      by (subst m0; service; assumption).
    assert (Hok0 : timers_ok m0) by (subst m0; auto 10 with timers).
    destruct (saveState_then_notify m0 Hcbs0 Hok0 eq_refl)
      as (Hs' & _ & _ & Hi & _).
    rewrite Hs'. subst m0. cbn [state this set_state isRunning entryId].
    now split_and!.
  - service. now rewrite Hs.
Qed.

(** X26: the restore at startup, on a stopped service whose observers
    only read, when the running-timer query answers the same in its two
    steps. It throws nothing. If the query reports an entry with an
    identifier, the service ends running on that entry, whatever the
    snapshot in the workspace storage holds, with exactly one interval
    scheduled; in every other case, a failing query included, it ends
    stopped and holds no interval. *)
Theorem restoreAuth_timer_follows_server :
  forall envL envR m,
    Forall passive (updateCallbacks (this m)) ->
    timers_ok m ->
    state (this m) = stopped ->
    running_timer_query envL = running_timer_query envR ->
    let r := restoreAuth_timer envL envR m in
    fst r = Returned tt
    /\ match running_timer_query envR with
       | Returned (Some rt) =>
           if truthy_id (TimesheetEntry.id rt) then
             isRunning (state (this (snd r))) = true
             /\ entryId (state (this (snd r))) = TimesheetEntry.id rt
             /\ exists h,
                  intervalId (this (snd r)) = Some h /\ timers (snd r) = [h]
           else
             state (this (snd r)) = stopped
             /\ intervalId (this (snd r)) = None
       | _ =>
           state (this (snd r)) = stopped /\ intervalId (this (snd r)) = None
       end.
Proof.
  intros envL envR m Hcbs Hok Hs Hq r. subst r.
  unfold restoreAuth_timer, bind. rewrite loadState_run.
  pose proof (refreshState_from_stopped envR m Hcbs Hok Hs) as Hm.
  cbv zeta in Hm.
  destruct (context (this m)) as [ws|] eqn:Hctx; [|exact Hm].
  destruct (get_num ws "timer_startTime") as [ms|]; [|exact Hm].
  destruct (truthy_id (get_id ws "timer_entryId") && truthy ms) eqn:Hguard;
    [|exact Hm].
  cbv zeta. rewrite Hq.
  set (m0 := add_events (running_timer_calls envL) m).
  assert (Hcbs0 : Forall passive (updateCallbacks (this m0))) by assumption.
  assert (Hok0 : timers_ok m0) by (subst m0; auto with timers).
  assert (Hs0 : state (this m0) = stopped) by assumption.
  pose proof (refreshState_from_stopped envR m0 Hcbs0 Hok0 Hs0) as Hm0.
  cbv zeta in Hm0.
  destruct (running_timer_query envR) as [[rt|]|msg] eqn:HqR;
    [| exact Hm0 |].
  - destruct (strict_eq_id (TimesheetEntry.id rt) (get_id ws "timer_entryId"))
      eqn:Heq; [|exact Hm0].
    cbn [fst snd ret]. split; [reflexivity|].
    apply andb_true_iff in Hguard as [Hid _].
    assert (Hrt : TimesheetEntry.id rt = get_id ws "timer_entryId").
    { destruct (TimesheetEntry.id rt) as [x|],
        (get_id ws "timer_entryId") as [y|];
        try discriminate. cbn in Heq. apply Z.eqb_eq in Heq. now subst. }
    rewrite Hrt, Hid.
    set (m1 := set_state _ m0).
    assert (Hcbs1 : Forall passive (updateCallbacks (this m1))) by assumption.
    assert (Hok' : timers_ok (notifyStateUpdate (startUpdateInterval m1)))
      by (subst m1; auto 10 with timers).
    unfold timers_ok in Hok'. revert Hok'.
    rewrite notifyStateUpdate_passive by (service; assumption).
    service. cbn [timers]. subst m1.
    cbn [state this set_state isRunning entryId]. intros Hok'.
    split_and!; try reflexivity. eauto.
  - set (m1 := clearState m0).
    assert (Hm1 : this m1
                  = mkTimerService (state (this m)) (updateCallbacks (this m))
                      (intervalId (this m)) (cleared <$> context (this m))).
    { subst m1 m0. service. now rewrite cleared_split. }
    assert (Hcbs1 : Forall passive (updateCallbacks (this m1)))
      by (now rewrite Hm1).
    assert (Hok1 : timers_ok m1)
      by (subst m1; unfold clearState; auto 10 with timers).
    assert (Hs1 : state (this m1) = stopped) by (now rewrite Hm1).
    pose proof (refreshState_from_stopped envR m1 Hcbs1 Hok1 Hs1) as H1.
    cbv zeta in H1. rewrite HqR in H1. exact H1.
Qed.

Lemma restoreAuth_timer_follows_server_witness :
  let env := sample_env 1700000100000 in
  let r := restoreAuth_timer env env sample_restarted in
  (Forall passive (updateCallbacks (this sample_restarted))
   /\ timers_ok sample_restarted
   /\ state (this sample_restarted) = stopped
   /\ running_timer_query env = running_timer_query env)
  /\ fst r = Returned tt
  /\ match running_timer_query env with
     | Returned (Some rt) =>
         if truthy_id (TimesheetEntry.id rt) then
           isRunning (state (this (snd r))) = true
           /\ entryId (state (this (snd r))) = TimesheetEntry.id rt
           /\ exists h,
                intervalId (this (snd r)) = Some h /\ timers (snd r) = [h]
         else
           state (this (snd r)) = stopped /\ intervalId (this (snd r)) = None
     | _ => state (this (snd r)) = stopped /\ intervalId (this (snd r)) = None
     end.
Proof.
  intros env r. split.
  - split_and!; try reflexivity. constructor.
  - apply (restoreAuth_timer_follows_server env env sample_restarted);
      try reflexivity. constructor.
Defined.

(** X27: [deactivate] leaves no observer registered and, the interval
    the service holds being the only one scheduled, no interval
    scheduled. With no timer running it shows nothing. Unless a timer is
    running and the warning is answered with the button to stop it, it
    makes no remote call and leaves the timer state and the workspace
    storage as they are. *)
Theorem deactivate_stops_only_when_asked :
  forall env choice m,
    timers_ok m ->
    let m' := deactivate env choice m in
    updateCallbacks (this m') = []
    /\ intervalId (this m') = None
    /\ timers m' = []
    /\ (isRunning (state (this m)) = false -> trace m' = trace m)
    /\ (isRunning (state (this m)) = false \/ choice <> Some "Stop Timer" ->
        state (this m') = state (this m)
        /\ context (this m') = context (this m)
        /\ calls (trace m') = calls (trace m)
        /\ stored (trace m') = stored (trace m)).
Proof.
  intros env choice m Hok m'. subst m'. unfold deactivate.
  rewrite getState_copies. cbv zeta.
  set (m1 := if isRunning (state (this m)) then _ else _).
  assert (Hok1 : timers_ok m1).
  { subst m1. destruct (isRunning (state (this m))); [|assumption].
    case_bool_decide; [|auto with timers].
    apply (perform_timers_ok (StopTimer env)). auto with timers. }
  destruct (stopUpdateInterval_idle m1 Hok1) as [Hi Ht].
  unfold dispose. cbn [this set_updateCallbacks updateCallbacks intervalId
                         timers trace state context].
  rewrite this_stopUpdateInterval, trace_stopUpdateInterval.
  cbn [intervalId state context].
  split_and!; try reflexivity; try assumption.
  - intros Hrun. subst m1. now rewrite Hrun.
  - intros Hkeep. subst m1.
    destruct (isRunning (state (this m))); [|now split_and!].
    destruct Hkeep as [Hrun | Hchoice]; [discriminate|].
    rewrite bool_decide_eq_false_2 by assumption.
    cbn [this trace emit]. rewrite calls_app, stored_app. cbn [calls stored flat_map].
    now rewrite !app_nil_r.
Qed.

Lemma deactivate_stops_only_when_asked_witness :
  let env := server 1700000060000 0.5 (Answer None) in
  let m' := deactivate env (Some "Keep Running") sample_running in
  timers_ok sample_running
  /\ updateCallbacks (this m') = []
  /\ intervalId (this m') = None
  /\ timers m' = []
  /\ (isRunning (state (this sample_running)) = false ->
      trace m' = trace sample_running)
  /\ (isRunning (state (this sample_running)) = false
      \/ Some "Keep Running" <> Some "Stop Timer" ->
      state (this m') = state (this sample_running)
      /\ context (this m') = context (this sample_running)
      /\ calls (trace m') = calls (trace sample_running)
      /\ stored (trace m') = stored (trace sample_running)).
Proof.
  intros env m'. split; [reflexivity|].
  apply (deactivate_stops_only_when_asked env (Some "Keep Running")
           sample_running).
  reflexivity.
Defined.
